(** * pyUnfoldedCircleRemote: the device session and its command dispatch

    A shallow embedding of [src/pyUnfoldedCircleRemote/remote.py]: the
    endpoint resolver ([validate_url]), the session factory ([client]), the
    API-key, system-command, activity and IR operations of [Remote], and the
    [Activity] handle.

    Python values are the decoded-JSON fragment of Python ([pyobj]); an
    awaited coroutine is a computation in a state-and-exception monad whose
    state is the [Remote] object together with the log of HTTP requests
    issued so far; the device is a function from the request history and the
    current request to a reply. *)

From Stdlib Require Import String Ascii List ZArith Bool Lia DecimalString.
Import ListNotations.
Local Open Scope string_scope.
Local Open Scope Z_scope.
Set Warnings "-register-all".

(** ** Python values *)

(** [None], [bool], [int], [str], [list] and [dict] (insertion ordered,
    string keys): what [json()] decodes to and what the session stores.
    JSON numbers with a fraction are not part of the model; none of the
    operations below computes with numbers. *)
Inductive pyobj : Type :=
| PNone
| PBool (b : bool)
| PInt (n : Z)
| PStr (s : string)
| PList (l : list pyobj)
| PDict (d : list (string * pyobj)).

(** The exceptions of the module, followed by the built-in ones the
    modelled code can raise and by those of aiohttp: [ClientError] for a
    failure of the transport, [ContentTypeError] (one of its subclasses)
    for a reply that [json()] refuses to decode. *)
Inductive exn : Type :=
| HTTPError (status_code : Z) (message : string)
| AuthenticationError (message : string)
| SystemCommandNotFound (message : string)
| InvalidIRFormat (message : string)
| NoEmitterFound (message : string)
| ApiKeyNotFound (name : string) (message : string)
| TypeError
| AttributeError
| KeyError (key : string)
| IndexError
| ValueError (message : string)
| JSONDecodeError
| ClientError
| ContentTypeError.

(** Results of a step that can raise. *)
Definition result (A : Type) : Type := (exn + A)%type.

Definition rbind {A B} (x : result A) (f : A -> result B) : result B :=
  match x with
  | inl e => inl e
  | inr a => f a
  end.

(** *** Truthiness, equality, subscripting *)

(** [bool(x)]. *)
Definition truthy (x : pyobj) : bool :=
  match x with
  | PNone => false
  | PBool b => b
  | PInt n => negb (n =? 0)
  | PStr s => negb (s =? "")%string
  | PList l => match l with [] => false | _ => true end
  | PDict d => match d with [] => false | _ => true end
  end.

(** [d.get(k)] on the association list of a dict: the first binding. *)
Fixpoint dict_get {A} (d : list (string * A)) (k : string) : option A :=
  match d with
  | [] => None
  | (k', v) :: rest => if (k' =? k)%string then Some v else dict_get rest k
  end.

(** [d[k] = v]: replace the binding in place, or append a new one. *)
Fixpoint dict_set {A} (d : list (string * A)) (k : string) (v : A)
  : list (string * A) :=
  match d with
  | [] => [(k, v)]
  | (k', v') :: rest =>
      if (k' =? k)%string then (k', v) :: rest else (k', v') :: dict_set rest k v
  end.

(** [{**a, **b}]. *)
Definition dict_merge {A} (a b : list (string * A)) : list (string * A) :=
  fold_left (fun acc kv => dict_set acc (fst kv) (snd kv)) b a.

(** [a == b]. [bool] is a subclass of [int]; dicts compare as mappings. *)
Fixpoint py_eqb (a b : pyobj) {struct a} : bool :=
  match a, b with
  | PNone, PNone => true
  | PBool x, PBool y => Bool.eqb x y
  | PBool x, PInt n => Z.b2z x =? n
  | PInt n, PBool x => n =? Z.b2z x
  | PInt m, PInt n => m =? n
  | PStr s, PStr t => (s =? t)%string
  | PList l, PList l' =>
      (fix go (l : list pyobj) (l' : list pyobj) {struct l} : bool :=
         match l, l' with
         | [], [] => true
         | x :: xs, y :: ys => py_eqb x y && go xs ys
         | _, _ => false
         end) l l'
  | PDict d, PDict d' =>
      (Nat.eqb (List.length d) (List.length d')) &&
      (fix go (d : list (string * pyobj)) {struct d} : bool :=
         match d with
         | [] => true
         | (k, v) :: rest =>
             match dict_get d' k with
             | Some v' => py_eqb v v' && go rest
             | None => false
             end
         end) d
  | _, _ => false
  end.

(** [x[k]] with a string subscript. *)
Definition py_getitem (x : pyobj) (k : string) : result pyobj :=
  match x with
  | PDict d =>
      match dict_get d k with
      | Some v => inr v
      | None => inl (KeyError k)
      end
  | _ => inl TypeError
  end.

(** [x.get(k)]: only a dict has the method. *)
Definition py_get (x : pyobj) (k : string) : result pyobj :=
  match x with
  | PDict d =>
      match dict_get d k with
      | Some v => inr v
      | None => inr PNone
      end
  | _ => inl AttributeError
  end.

Fixpoint chars (s : string) : list pyobj :=
  match s with
  | EmptyString => []
  | String c t => PStr (String c EmptyString) :: chars t
  end.

(** [for x in v]: the elements of a list, the keys of a dict, the
    characters of a string. *)
Definition py_iter (v : pyobj) : result (list pyobj) :=
  match v with
  | PList l => inr l
  | PDict d => inr (map (fun kv => PStr (fst kv)) d)
  | PStr s => inr (chars s)
  | _ => inl TypeError
  end.

(** ["literal" + x]: [x] must be a [str]. *)
Definition str_concat (prefix : string) (x : pyobj) : result string :=
  match x with
  | PStr s => inr (prefix ++ s)%string
  | _ => inl TypeError
  end.

(** ** Strings *)

Definition ascii_in (c : ascii) (s : string) : bool :=
  match String.index 0 (String c EmptyString) s with
  | Some _ => true
  | None => false
  end.

(** [s.find(c)]. *)
Fixpoint find_char (c : ascii) (s : string) : option nat :=
  match s with
  | EmptyString => None
  | String a t =>
      if Ascii.eqb a c then Some O
      else match find_char c t with
           | Some i => Some (S i)
           | None => None
           end
  end.

Fixpoint take (n : nat) (s : string) : string :=
  match n, s with
  | S n', String a t => String a (take n' t)
  | _, _ => EmptyString
  end.

Fixpoint drop (n : nat) (s : string) : string :=
  match n, s with
  | S n', String _ t => drop n' t
  | _, _ => s
  end.

(** [s[-1]] when [s] is not empty. *)
Fixpoint last_char (s : string) : option ascii :=
  match s with
  | EmptyString => None
  | String a EmptyString => Some a
  | String _ t => last_char t
  end.

Definition is_upper (c : ascii) : bool :=
  let n := nat_of_ascii c in (65 <=? n)%nat && (n <=? 90)%nat.

Definition is_lower (c : ascii) : bool :=
  let n := nat_of_ascii c in (97 <=? n)%nat && (n <=? 122)%nat.

Definition is_digit (c : ascii) : bool :=
  let n := nat_of_ascii c in (48 <=? n)%nat && (n <=? 57)%nat.

Definition lower_char (c : ascii) : ascii :=
  if is_upper c then ascii_of_nat (nat_of_ascii c + 32) else c.

Fixpoint lower (s : string) : string :=
  match s with
  | EmptyString => EmptyString
  | String a t => String (lower_char a) (lower t)
  end.

Fixpoint forallb_str (p : ascii -> bool) (s : string) : bool :=
  match s with
  | EmptyString => true
  | String a t => p a && forallb_str p t
  end.

Fixpoint filter_str (p : ascii -> bool) (s : string) : string :=
  match s with
  | EmptyString => EmptyString
  | String a t => if p a then String a (filter_str p t) else filter_str p t
  end.

(** The longest prefix without a character satisfying [p], and the rest. *)
Fixpoint break_at (p : ascii -> bool) (s : string) : string * string :=
  match s with
  | EmptyString => (EmptyString, EmptyString)
  | String a t =>
      if p a then (EmptyString, s)
      else let (l, r) := break_at p t in (String a l, r)
  end.

(** [s.endswith(suffix)]. *)
Definition endswith (s suffix : string) : bool :=
  let n := String.length s in
  let m := String.length suffix in
  (m <=? n)%nat && (drop (n - m) s =? suffix)%string.

(** [needle in s]. *)
Definition contains (s needle : string) : bool :=
  match String.index 0 needle s with
  | Some _ => true
  | None => false
  end.

(** [s.rfind(c)]. *)
Fixpoint rfind_char (c : ascii) (s : string) : option nat :=
  match s with
  | EmptyString => None
  | String a t =>
      match rfind_char c t with
      | Some i => Some (S i)
      | None => if Ascii.eqb a c then Some O else None
      end
  end.

(** [s.lstrip(chars)] for the characters satisfying [p]. *)
Fixpoint lstrip (p : ascii -> bool) (s : string) : string :=
  match s with
  | EmptyString => EmptyString
  | String a t => if p a then lstrip p t else s
  end.

(** ** urllib.parse *)

(** The standard library's [urlparse], for [str] arguments and the default
    [scheme=''], [allow_fragments=True], after CPython's [urllib/parse.py].
    Strings are ASCII, where [_checknetloc] returns at once. *)

Record ParseResult : Type := mkParseResult {
  scheme : string;
  netloc : string;
  path : string;
  params : string;
  query : string;
  fragment : string
}.

Definition scheme_chars (c : ascii) : bool :=
  is_lower c || is_upper c || is_digit c || ascii_in c "+-.".

Definition uses_params : list string :=
  [""; "ftp"; "hdl"; "prospero"; "http"; "imap"; "https"; "shttp"; "rtsp";
   "rtsps"; "rtspu"; "sip"; "sips"; "mms"; "sftp"; "tel"].

(** [_WHATWG_C0_CONTROL_OR_SPACE]. *)
Definition c0_control_or_space (c : ascii) : bool :=
  (nat_of_ascii c <=? 32)%nat.

(** [_UNSAFE_URL_BYTES_TO_REMOVE]: tab, carriage return, line feed. *)
Definition unsafe_url_byte (c : ascii) : bool :=
  let n := nat_of_ascii c in
  (n =? 9)%nat || (n =? 13)%nat || (n =? 10)%nat.

(** The scheme part of [urlsplit]: [i = url.find(':')], a first character
    that is an ASCII letter, and only [scheme_chars] before the colon. *)
Definition split_scheme (url : string) : string * string :=
  match find_char ":" url, url with
  | Some (S i), String c0 _ =>
      if (is_lower c0 || is_upper c0)
         && forallb_str scheme_chars (take (S i) url)
      then (lower (take (S i) url), drop (S (S i)) url)
      else (EmptyString, url)
  | _, _ => (EmptyString, url)
  end.

(** [_splitnetloc(url, 2)]. *)
Definition splitnetloc (url : string) : string * string :=
  break_at (fun c => ascii_in c "/?#") (drop 2 url).

(** [url.split(c, 1)] when [c] occurs in [url]. *)
Definition split_once (c : ascii) (url : string) : string * string :=
  let (l, r) := break_at (Ascii.eqb c) url in (l, drop 1 r).

Definition splitparams (url : string) : string * string :=
  match rfind_char "/" url with
  | Some j =>
      match find_char ";" (drop j url) with
      | Some i => (take (j + i) url, drop (S (j + i)) url)
      | None => (url, EmptyString)
      end
  | None =>
      match find_char ";" url with
      | Some i => (take i url, drop (S i) url)
      | None => (take (String.length url - 1) url, url)
      end
  end.

(** ** The session object and the wire *)

Definition SYSTEM_COMMANDS : list string :=
  ["STANDBY"; "REBOOT"; "POWER_OFF"; "RESTART"; "RESTART_UI"; "RESTART_CORE"].

Definition AUTH_APIKEY_NAME : string := "pyUnfoldedCircle".
Definition AUTH_USERNAME : string := "web-configurator".

(** [class Activity]; the back reference [_remote] is the session the
    operation runs in. *)
Record Activity : Type := mkActivity {
  activity_name : pyobj;
  _id : pyobj;
  _state : pyobj
}.

(** [class Remote], with the attributes that the operations below read or
    write (the battery, update and statistics mirrors are left out with
    their refresh operations). The descriptor lists hold the dicts the
    refresh operations build. *)
Record Remote : Type := mkRemote {
  endpoint : string;
  configuration_url : string;
  apikey : pyobj;
  pin : pyobj;
  activities : list Activity;
  _name : pyobj;
  _model_name : pyobj;
  _model_number : pyobj;
  _serial_number : pyobj;
  _hw_revision : pyobj;
  _ambient_light_intensity : pyobj;
  _remotes : list pyobj;
  _docks : list pyobj;
  _ir_custom : list pyobj;
  _ir_codesets : list pyobj
}.

Definition set_apikey (v : pyobj) (r : Remote) : Remote :=
  mkRemote (endpoint r) (configuration_url r) v (pin r) (activities r)
    (_name r) (_model_name r) (_model_number r) (_serial_number r)
    (_hw_revision r) (_ambient_light_intensity r) (_remotes r) (_docks r)
    (_ir_custom r) (_ir_codesets r).

Definition set_activities (v : list Activity) (r : Remote) : Remote :=
  mkRemote (endpoint r) (configuration_url r) (apikey r) (pin r) v
    (_name r) (_model_name r) (_model_number r) (_serial_number r)
    (_hw_revision r) (_ambient_light_intensity r) (_remotes r) (_docks r)
    (_ir_custom r) (_ir_codesets r).

Definition set_name (v : pyobj) (r : Remote) : Remote :=
  mkRemote (endpoint r) (configuration_url r) (apikey r) (pin r)
    (activities r) v (_model_name r) (_model_number r) (_serial_number r)
    (_hw_revision r) (_ambient_light_intensity r) (_remotes r) (_docks r)
    (_ir_custom r) (_ir_codesets r).

Definition set_information (mn mnum sn hw : pyobj) (r : Remote) : Remote :=
  mkRemote (endpoint r) (configuration_url r) (apikey r) (pin r)
    (activities r) (_name r) mn mnum sn hw (_ambient_light_intensity r)
    (_remotes r) (_docks r) (_ir_custom r) (_ir_codesets r).

Definition set_ambient_light_intensity (v : pyobj) (r : Remote) : Remote :=
  mkRemote (endpoint r) (configuration_url r) (apikey r) (pin r)
    (activities r) (_name r) (_model_name r) (_model_number r)
    (_serial_number r) (_hw_revision r) v (_remotes r) (_docks r)
    (_ir_custom r) (_ir_codesets r).

Definition set_remotes (v : list pyobj) (r : Remote) : Remote :=
  mkRemote (endpoint r) (configuration_url r) (apikey r) (pin r)
    (activities r) (_name r) (_model_name r) (_model_number r)
    (_serial_number r) (_hw_revision r) (_ambient_light_intensity r) v
    (_docks r) (_ir_custom r) (_ir_codesets r).

Definition set_docks (v : list pyobj) (r : Remote) : Remote :=
  mkRemote (endpoint r) (configuration_url r) (apikey r) (pin r)
    (activities r) (_name r) (_model_name r) (_model_number r)
    (_serial_number r) (_hw_revision r) (_ambient_light_intensity r)
    (_remotes r) v (_ir_custom r) (_ir_codesets r).

Definition set_ir_custom (v : list pyobj) (r : Remote) : Remote :=
  mkRemote (endpoint r) (configuration_url r) (apikey r) (pin r)
    (activities r) (_name r) (_model_name r) (_model_number r)
    (_serial_number r) (_hw_revision r) (_ambient_light_intensity r)
    (_remotes r) (_docks r) v (_ir_codesets r).

Definition set_state (v : pyobj) (a : Activity) : Activity :=
  mkActivity (activity_name a) (_id a) v.

(** [aiohttp.ClientSession] as [client] configures it: bearer headers
    ([Authorization], and [Accept: application/json]) or basic
    authentication, each with its total timeout. *)
Inductive ClientSession : Type :=
| BearerSession (authorization : string) (total : Z)
| BasicAuthSession (login : string) (password : pyobj) (total : Z).

Inductive Method : Type := HEAD | GET | POST | PUT | DELETE.

Record Request : Type := mkRequest {
  req_method : Method;
  req_url : string;
  req_json : option pyobj;
  req_session : ClientSession
}.

(** The body of a reply as [response.json()] of aiohttp reads it: the
    method checks the [Content-Type] header first, then strips the body, and
    decodes what is left unless nothing is. *)
Inductive Payload : Type :=
| NotJSON            (* no Content-Type, or one that is not a JSON one *)
| Blank              (* a JSON Content-Type, a body of white space at most *)
| Malformed          (* a JSON Content-Type, a text that is not JSON *)
| JSON (j : pyobj).  (* a JSON Content-Type, the text of [j] *)

(** A response: its status and its body. *)
Record Response : Type := mkResponse {
  status : Z;
  payload : Payload
}.

(** [response.ok] of aiohttp: the status is below 400. *)
Definition ok (response : Response) : bool := status response <? 400.

(** [await response.json()]: [ContentTypeError] for a reply that is not
    labelled as JSON, [None] for an empty body, and otherwise the decoded
    value or the error of [json.loads]. *)
Definition json (response : Response) : result pyobj :=
  match payload response with
  | NotJSON => inl ContentTypeError
  | Blank => inr PNone
  | Malformed => inl JSONDecodeError
  | JSON j => inr j
  end.

(** What [await response.json()] returns, when it returns. *)
Definition content (response : Response) : option pyobj :=
  match json response with
  | inr j => Some j
  | inl _ => None
  end.

(** The device: the reply to a request, given the requests before it;
    [None] is a transport failure (no connection, timeout). *)
Definition Device : Type := list Request -> Request -> option Response.

(** ** Coroutines: state and exceptions *)

Record State : Type := mkState {
  st_remote : Remote;
  st_log : list Request
}.

Definition M (A : Type) : Type := State -> result A * State.

Definition ret {A} (a : A) : M A := fun s => (inr a, s).

Definition raise {A} (e : exn) : M A := fun s => (inl e, s).

Definition bind {A B} (c : M A) (k : A -> M B) : M B :=
  fun s =>
    match c s with
    | (inr a, s') => k a s'
    | (inl e, s') => (inl e, s')
    end.

Definition lift {A} (x : result A) : M A := fun s => (x, s).

Definition get_remote : M Remote := fun s => (inr (st_remote s), s).

Definition modify_remote (f : Remote -> Remote) : M unit :=
  fun s => (inr tt, mkState (f (st_remote s)) (st_log s)).

Declare Scope coroutine_scope.
Delimit Scope coroutine_scope with co.
Notation "x <- c ;; k" := (bind c (fun x => k))
  (at level 61, c at next level, right associativity) : coroutine_scope.
Notation "c ;;; k" := (bind c (fun _ => k))
  (at level 61, right associativity) : coroutine_scope.
Local Open Scope coroutine_scope.

(** [for x in xs: body x], stopping at the first exception. *)
Fixpoint for_each {A} (xs : list A) (body : A -> M unit) : M unit :=
  match xs with
  | [] => ret tt
  | x :: rest => body x ;;; for_each rest body
  end.

(** ** Discovery records *)

(** The part of a zeroconf [ServiceInfo] that the listener reads:
    [addresses], the IPv4 addresses in packed form (four bytes each), and
    [port]. *)
Record ServiceInfo : Type := mkServiceInfo {
  addresses : list (ascii * ascii * ascii * ascii);
  port : Z
}.

(** [DeviceListener] inside [discover_devices]. *)
Record DeviceListener : Type := mkDeviceListener {
  listener_apikey : pyobj;
  devices : list Remote
}.

(** [str(n)] for an [int]. *)
Definition str_of_int (n : Z) : string :=
  NilEmpty.string_of_int (Z.to_int n).

(** [str(b)] for a byte. *)
Definition str_of_byte (b : ascii) : string :=
  NilEmpty.string_of_uint (Nat.to_uint (nat_of_ascii b)).

(** [socket.inet_ntoa] on four packed bytes: the dotted quad. *)
Definition inet_ntoa (packed : ascii * ascii * ascii * ascii) : string :=
  let '(a, b, c, d) := packed in
  str_of_byte a ++ "." ++ str_of_byte b ++ "." ++ str_of_byte c ++ "."
  ++ str_of_byte d.

(** ** Sample sessions and devices *)

(** Concrete sessions, remotes and library functions, on which the
    properties are run at the end of the file. *)

(** A session authenticated by PIN, with one codeset and one dock. *)
Definition sample_remote : Remote :=
  mkRemote "http://host/api/" "http://host/configurator/" PNone (PStr "1234")
    [] (PStr "") (PStr "") (PStr "") (PStr "") (PStr "") (PInt 0) []
    [PDict [("name", PStr "Dock"); ("device_id", PStr "uc.dock.1")]] []
    [PDict [("name", PStr "TV"); ("device_id", PStr "uc.ir.1")]].

(** The same session with neither credential. *)
Definition sample_anonymous : Remote :=
  mkRemote "http://host/api/" "http://host/configurator/" PNone PNone
    [] (PStr "") (PStr "") (PStr "") (PStr "") (PStr "") (PInt 0) []
    [PDict [("name", PStr "Dock"); ("device_id", PStr "uc.dock.1")]] []
    [PDict [("name", PStr "TV"); ("device_id", PStr "uc.ir.1")]].

(** The same session with an API key and no PIN. *)
Definition sample_token : Remote := set_apikey (PStr "k3y") sample_anonymous.

(** The PIN session before any dock was fetched. *)
Definition sample_no_docks : Remote := set_docks [] sample_remote.

Definition sample_activity : Activity :=
  mkActivity (PStr "Watch TV") (PStr "uc.main.tv") (PStr "OFF").

(** A device that answers every request with 200 and the body [j]. *)
Definition device_200 (j : pyobj) : Device :=
  fun _ _ => Some (mkResponse 200 (JSON j)).

(** Joining a relative path onto a base that ends in a slash. *)
Definition sample_urljoin (base url : string) : string + string :=
  inr (base ++ url).

(** [str()] of a string; the other values are not printed. *)
Definition sample_format (v : pyobj) : string :=
  match v with
  | PStr s => s
  | _ => "?"
  end.

(** The session [client] makes for [sample_remote]. *)
Definition sample_basic : ClientSession :=
  BasicAuthSession "web-configurator" (PStr "1234") 2.

(** The start of a run on [sample_remote]: nothing was sent yet. *)
Definition sample_state : State := mkState sample_remote [].

(** A key list without the name ["missing"]. *)
Definition sample_keys : list pyobj :=
  [PDict [("name", PStr "pyUnfoldedCircle"); ("key_id", PStr "k1")];
   PDict [("name", PStr "other"); ("key_id", PStr "k2")]].

(** An activities list without [sample_activity]. *)
Definition sample_activities : list pyobj :=
  [PDict [("entity_id", PStr "uc.main.radio");
          ("name", PDict [("en", PStr "Radio")]);
          ("attributes", PDict [("state", PStr "ON")])]].

(** A remote that answers every request with the status [code] and the
    body [body]. *)
Definition device_reply (code : Z) (body : Payload) : Device :=
  fun _ _ => Some (mkResponse code body).

(** A remote that answers the n-th request of a run with the n-th reply of
    a script, and fails the transport after the last. *)
Definition device_script (replies : list Response) : Device :=
  fun log _ => nth_error replies (List.length log).

(** The error body of the API. *)
Definition sample_error_body : pyobj :=
  PDict [("code", PStr "UNAUTHORIZED"); ("message", PStr "Invalid PIN")].

(** A reply of [ir/emitters]: an inactive dock, then an active one. *)
Definition sample_docks : list (list (string * pyobj)) :=
  [[("name", PStr "Dock A"); ("device_id", PStr "uc.dock.a");
    ("active", PBool false)];
   [("name", PStr "Dock B"); ("device_id", PStr "uc.dock.b");
    ("active", PBool true)]].

(** A reply of [remotes]: an enabled remote, then a disabled one without
    name. *)
Definition sample_remotes : list (list (string * pyobj)) :=
  [[("name", PDict [("en", PStr "TV")]); ("entity_id", PStr "uc.remote.tv");
    ("enabled", PBool true)];
   [("entity_id", PStr "uc.remote.old"); ("enabled", PBool false)]].

(** A reply of [ir/codes/custom]. *)
Definition sample_code_sets : list (list (string * pyobj)) :=
  [[("device", PStr "Fan"); ("device_id", PStr "uc.custom.fan")]].

(** The PIN session when it knows one remote, no codeset, and one dock. *)
Definition sample_one_remote : Remote :=
  mkRemote "http://host/api/" "http://host/configurator/" PNone (PStr "1234")
    [] (PStr "") (PStr "") (PStr "") (PStr "") (PStr "") (PInt 0)
    [PDict [("name", PStr "TV"); ("entity_id", PStr "uc.remote.tv")]]
    [PDict [("name", PStr "Dock"); ("device_id", PStr "uc.dock.1")]] [] [].

(** The PIN session when it knows two remotes and no codeset. *)
Definition sample_two_remotes : Remote :=
  mkRemote "http://host/api/" "http://host/configurator/" PNone (PStr "1234")
    [] (PStr "") (PStr "") (PStr "") (PStr "") (PStr "") (PInt 0)
    [PDict [("name", PStr "TV"); ("entity_id", PStr "uc.remote.tv")];
     PDict [("name", PStr "Radio"); ("entity_id", PStr "uc.remote.radio")]]
    [] [] [].

(** A listener of [discover_devices("k3y")] before any announcement. *)
Definition sample_listener : DeviceListener :=
  mkDeviceListener (PStr "k3y") [].

(** The activity object of [sample_activity]. *)
Definition sample_activity_object : pyobj :=
  PDict [("entity_id", PStr "uc.main.tv");
         ("name", PDict [("en", PStr "Watch TV")]);
         ("attributes", PDict [("state", PStr "OFF")])].

(** [str()] of a string or an integer. *)
Definition sample_str (v : pyobj) : string :=
  match v with
  | PStr s => s
  | PInt n => str_of_int n
  | _ => "?"
  end.

(** An interpreter without the bracketed-host check. *)
Definition sample_check (netloc : string) : option string := None.

Section Session.

Set Default Proof Using "Type".

(** [_check_bracketed_netloc], which recent interpreters run on a netloc
    that holds both brackets (the host must be an IPv6 or IPvFuture
    literal): the message of the [ValueError] it raises, [None] when it
    passes, as it always does on older ones. *)
Variable check_bracketed_netloc : string -> option string.

Definition urlsplit (url : string)
  : result (string * string * string * string * string) :=
  let url := lstrip c0_control_or_space url in
  let url := filter_str (fun c => negb (unsafe_url_byte c)) url in
  let (scheme, url) := split_scheme url in
  rbind
    (if String.prefix "//" url then
       let (netloc, url) := splitnetloc url in
       let has_open := ascii_in "[" netloc in
       let has_close := ascii_in "]" netloc in
       if (has_open && negb has_close) || (has_close && negb has_open)
       then inl (ValueError "Invalid IPv6 URL")
       else if has_open && has_close then
         match check_bracketed_netloc netloc with
         | Some message => inl (ValueError message)
         | None => inr (netloc, url)
         end
       else inr (netloc, url)
     else inr (EmptyString, url))
    (fun '(netloc, url) =>
       let (url, fragment) :=
         if ascii_in "#" url then split_once "#" url else (url, EmptyString) in
       let (url, query) :=
         if ascii_in "?" url then split_once "?" url else (url, EmptyString) in
       inr (scheme, netloc, url, query, fragment)).

Definition urlparse (url : string) : result ParseResult :=
  rbind (urlsplit url)
    (fun '(scheme, netloc, url, query, fragment) =>
       let (url, params) :=
         if existsb (String.eqb scheme) uses_params && ascii_in ";" url
         then splitparams url
         else (url, EmptyString) in
       inr (mkParseResult scheme netloc url params query fragment)).

(** ** URL helpers of [Remote] *)

(** [re.search("^http.*", uri) is not None]: without [re.MULTILINE] the
    pattern matches exactly the strings that start with [http]. *)
Definition re_search_http (uri : string) : bool := String.prefix "http" uri.

Definition validate_url (uri : string) : result string :=
  let uri := if re_search_http uri then uri else "http://" ++ uri in
  rbind (urlparse uri)
    (fun parsed_url =>
       let uri :=
         if (scheme parsed_url =? "")%string then "http://" ++ uri else uri in
       if (path parsed_url =? "/")%string then inr (uri ++ "api/")
       else if (path parsed_url =? "")%string then inr (uri ++ "/api/")
       else
         match last_char (path parsed_url) with
         | Some c => if Ascii.eqb c "/" then inr uri else inr (uri ++ "/")
         | None => inl IndexError
         end).

(** [urllib.parse.urljoin]: the joined URL, or the message of the
    [ValueError] it raises (it parses both arguments). *)
Variable urljoin : string -> string -> string + string.

(** [format(v)] inside an f-string. *)
Variable format_value : pyobj -> string.

(** The remote being talked to. *)
Variable server : Device.

Definition derive_configuration_url (endpoint : string) : result string :=
  rbind (urlparse endpoint)
    (fun parsed_url =>
       inr (scheme parsed_url ++ "://" ++ netloc parsed_url ++ "/configurator/")).

(** [Remote.__init__]. *)
Definition Remote_init (api_url : string) (pin apikey : pyobj)
  : result Remote :=
  rbind (validate_url api_url) (fun endpoint =>
  rbind (derive_configuration_url endpoint) (fun configuration_url =>
  inr (mkRemote endpoint configuration_url apikey pin [] (PStr "")
         (PStr "") (PStr "") (PStr "") (PStr "") (PInt 0) [] [] [] []))).

Definition url (self : Remote) (path : string) : result string :=
  match urljoin (endpoint self) path with
  | inl message => inl (ValueError message)
  | inr u => inr u
  end.

(** ** HTTP methods *)

(** [Remote.client]: [Some] session, or [None] when the function falls off
    its end. *)
Definition client (self : Remote) : result (option ClientSession) :=
  if truthy (apikey self) then
    rbind (str_concat "Bearer " (apikey self))
      (fun authorization => inr (Some (BearerSession authorization 5)))
  else if truthy (pin self) then
    inr (Some (BasicAuthSession AUTH_USERNAME (pin self) 2))
  else inr None.

(** Sending a request: it joins the log, and the remote answers. *)
Definition send (m : Method) (u : string) (body : option pyobj)
    (session : ClientSession) : M Response :=
  fun s =>
    let req := mkRequest m u body session in
    let s' := mkState (st_remote s) (st_log s ++ [req])%list in
    match server (st_log s) req with
    | Some response => (inr response, s')
    | None => (inl ClientError, s')
    end.

(** [async with self.client() as session, session.<m>(self.url(path),
    json=body) as response: k response]. Entering [None] raises (a
    [TypeError]; an [AttributeError] before Python 3.11) before the path is
    evaluated. *)
Definition request {A} (m : Method) (path : result string)
    (body : option pyobj) (k : Response -> M A) : M A :=
  self <- get_remote ;;
  session <- lift (client self) ;;
  match session with
  | None => raise TypeError
  | Some session =>
      p <- lift path ;;
      u <- lift (url self p) ;;
      response <- send m u body session ;;
      k response
  end.

Definition can_connect : M bool :=
  request HEAD (inr "activities") None
    (fun response => ret (status response =? 200)).

Definition raise_on_error (response : Response) : M Response :=
  if negb (ok response) then
    content <- lift (json response) ;;
    code <- lift (py_getitem content "code") ;;
    message <- lift (py_getitem content "message") ;;
    raise (HTTPError (status response)
             (format_value (PInt (status response)) ++ " Request: "
              ++ format_value code ++ " Reason: " ++ format_value message))
  else ret response.

(** ** API keys *)

Definition get_api_keys : M pyobj :=
  request GET (inr "auth/api_keys") None
    (fun response => raise_on_error response ;;; lift (json response)).

Definition create_api_key : M pyobj :=
  let body :=
    PDict [("name", PStr AUTH_APIKEY_NAME); ("scopes", PList [PStr "admin"])] in
  request POST (inr "auth/api_keys") (Some body)
    (fun response =>
       raise_on_error response ;;;
       api_info <- lift (json response) ;;
       key <- lift (py_getitem api_info "api_key") ;;
       modify_remote (set_apikey key)) ;;;
  self <- get_remote ;;
  ret (apikey self).

(** The [for ... break ... else] loop of [revoke_api_key]: the [key_id] of
    the first entry whose name is [key_name], [None] when the loop runs
    out. *)
Fixpoint find_api_key_id (keys : list pyobj) (key_name : string)
  : result (option pyobj) :=
  match keys with
  | [] => inr None
  | key :: rest =>
      rbind (py_getitem key "name") (fun name =>
      if py_eqb name (PStr key_name)
      then rbind (py_getitem key "key_id") (fun api_key_id =>
           inr (Some api_key_id))
      else find_api_key_id rest key_name)
  end.

Definition revoke_api_key (key_name : string) : M unit :=
  keys <- get_api_keys ;;
  keys <- lift (py_iter keys) ;;
  found <- lift (find_api_key_id keys key_name) ;;
  match found with
  | None =>
      raise (ApiKeyNotFound key_name
               ("API Key '" ++ key_name ++ "' not found."))
  | Some api_key_id =>
      request DELETE (str_concat "auth/api_keys/" api_key_id) None
        (fun response => raise_on_error response ;;; ret tt)
  end.

(** ** Refresh operations *)

Definition get_remote_information : M pyobj :=
  request GET (inr "system") None
    (fun response =>
       raise_on_error response ;;;
       information <- lift (json response) ;;
       model_name <- lift (py_get information "model_name") ;;
       model_number <- lift (py_get information "model_number") ;;
       serial_number <- lift (py_get information "serial_number") ;;
       hw_revision <- lift (py_get information "hw_revision") ;;
       modify_remote
         (set_information model_name model_number serial_number hw_revision) ;;;
       ret information).

Definition get_remote_configuration : M pyobj :=
  request GET (inr "cfg") None
    (fun response =>
       raise_on_error response ;;;
       information <- lift (json response) ;;
       dev <- lift (py_get information "device") ;;
       name <- lift (py_get dev "name") ;;
       modify_remote (set_name name) ;;;
       ret information).

(** [Activity.__init__]. *)
Definition Activity_init (activity : pyobj) : result Activity :=
  rbind (py_getitem activity "name") (fun name =>
  rbind (py_getitem name "en") (fun name_en =>
  rbind (py_getitem activity "entity_id") (fun entity_id =>
  rbind (py_get activity "attributes") (fun attributes =>
  rbind (py_get attributes "state") (fun state =>
  inr (mkActivity name_en entity_id state)))))).

Definition get_activities : M pyobj :=
  request GET (inr "activities") None
    (fun response =>
       raise_on_error response ;;;
       fetched <- lift (json response) ;;
       items <- lift (py_iter fetched) ;;
       for_each items
         (fun activity =>
            a <- lift (Activity_init activity) ;;
            modify_remote
              (fun self => set_activities (activities self ++ [a])%list self)) ;;;
       lift (json response)).

Definition get_remote_ambient_light_information : M pyobj :=
  request GET (inr "system/sensors/ambient_light") None
    (fun response =>
       raise_on_error response ;;;
       information <- lift (json response) ;;
       intensity <- lift (py_getitem information "intensity") ;;
       modify_remote (set_ambient_light_intensity intensity) ;;;
       self <- get_remote ;;
       ret (_ambient_light_intensity self)).

Definition update_remote : M pyobj :=
  request POST (inr "system/update/latest") None
    (fun response => raise_on_error response ;;; lift (json response)).

Definition get_update_status : M pyobj :=
  request GET (inr "system/update/latest") None
    (fun response => raise_on_error response ;;; lift (json response)).

(** The loop of [get_activity_state]: the state of the first entry whose
    [entity_id] equals the argument; [None] when the loop runs out and the
    function falls off its end. *)
Fixpoint find_activity_state (current_activities : list pyobj)
    (entity_id : pyobj) : result pyobj :=
  match current_activities with
  | [] => inr PNone
  | current_activity :: rest =>
      rbind (py_getitem current_activity "entity_id") (fun other =>
      if py_eqb entity_id other
      then rbind (py_getitem current_activity "attributes") (fun attributes =>
           py_getitem attributes "state")
      else find_activity_state rest entity_id)
  end.

Definition get_activity_state (entity_id : pyobj) : M pyobj :=
  request GET (inr "activities") None
    (fun response =>
       raise_on_error response ;;;
       current_activities <- lift (json response) ;;
       current_activities <- lift (py_iter current_activities) ;;
       lift (find_activity_state current_activities entity_id)).

Definition post_system_command (cmd : string) : M pyobj :=
  if existsb (String.eqb cmd) SYSTEM_COMMANDS then
    request POST (inr ("system?cmd=" ++ cmd)) None
      (fun response => raise_on_error response ;;; lift (json response))
  else raise (SystemCommandNotFound "Invalid System Command Supplied").

(** [x is True]. *)
Definition is_True (x : pyobj) : bool :=
  match x with
  | PBool true => true
  | _ => false
  end.

Definition get_remotes : M (list pyobj) :=
  request GET (inr "remotes") None
    (fun response =>
       raise_on_error response ;;;
       remotes <- lift (json response) ;;
       remotes <- lift (py_iter remotes) ;;
       for_each remotes
         (fun remote =>
            enabled <- lift (py_get remote "enabled") ;;
            if is_True enabled then
              name <- lift (py_get remote "name") ;;
              name_en <- lift (py_get name "en") ;;
              entity_id <- lift (py_get remote "entity_id") ;;
              modify_remote
                (fun self =>
                   set_remotes
                     (_remotes self
                      ++ [PDict [("name", name_en); ("entity_id", entity_id)]])%list
                     self)
            else ret tt) ;;;
       self <- get_remote ;;
       ret (_remotes self)).

Definition get_custom_codesets : M (list pyobj) :=
  request GET (inr "ir/codes/custom") None
    (fun response =>
       raise_on_error response ;;;
       code_sets <- lift (json response) ;;
       code_sets <- lift (py_iter code_sets) ;;
       for_each code_sets
         (fun ir =>
            dev <- lift (py_get ir "device") ;;
            device_id <- lift (py_get ir "device_id") ;;
            modify_remote
              (fun self =>
                 set_ir_custom
                   (_ir_custom self
                    ++ [PDict [("device", dev); ("device_id", device_id)]])%list
                   self)) ;;;
       self <- get_remote ;;
       ret (_ir_custom self)).

Definition get_docks : M (list pyobj) :=
  request GET (inr "ir/emitters") None
    (fun response =>
       raise_on_error response ;;;
       docks <- lift (json response) ;;
       docks <- lift (py_iter docks) ;;
       for_each docks
         (fun dock =>
            active <- lift (py_get dock "active") ;;
            if is_True active then
              name <- lift (py_get dock "name") ;;
              device_id <- lift (py_get dock "device_id") ;;
              modify_remote
                (fun self =>
                   set_docks
                     (_docks self
                      ++ [PDict [("name", name); ("device_id", device_id)]])%list
                     self)
            else ret tt) ;;;
       self <- get_remote ;;
       ret (_docks self)).

(** ** IR commands *)

(** [key in kwargs]. *)
Definition has_key (kwargs : list (string * pyobj)) (key : string) : bool :=
  match dict_get kwargs key with
  | Some _ => true
  | None => false
  end.

(** [kwargs.get(key)]. *)
Definition kwargs_get (kwargs : list (string * pyobj)) (key : string)
  : pyobj :=
  match dict_get kwargs key with
  | Some v => v
  | None => PNone
  end.

(** The generator [(x for x in xs if x.get(key) == target)] consumed by
    [next]: its first element, or [None] when it is exhausted. *)
Fixpoint first_match (xs : list pyobj) (key : string) (target : pyobj)
  : result (option pyobj) :=
  match xs with
  | [] => inr None
  | x :: rest =>
      rbind (py_get x key) (fun v =>
      if py_eqb v target then inr (Some x) else first_match rest key target)
  end.

(** [send_remote_command(device, command, repeat, **kwargs)]. The body of
    the raw-code branch is bound first; the [if]/[else] on the device and
    command follows it. When no codeset has the device's name, [next]
    returns its default, the class [dict], and calling [get] on the class
    with one string argument raises [TypeError]. *)
Definition send_remote_command (device command : string) (repeat : Z)
    (kwargs : list (string * pyobj)) : M bool :=
  self <- get_remote ;;
  let body_port : list (string * pyobj) := [] in
  let body_repeat : list (string * pyobj) := [] in
  let raw_body : option (list (string * pyobj)) :=
    if has_key kwargs "code" && has_key kwargs "format"
    then Some [("code", kwargs_get kwargs "code");
               ("format", kwargs_get kwargs "format")]
    else None in
  body <-
    (if negb (device =? "")%string && negb (command =? "")%string then
       found <- lift (first_match (_ir_codesets self) "name" (PStr device)) ;;
       match found with
       | Some ir_code =>
           device_id <- lift (py_get ir_code "device_id") ;;
           ret [("codeset_id", device_id); ("cmd_id", PStr command)]
       | None => raise TypeError
       end
     else
       raise (InvalidIRFormat
                "Supply (code and format) or (device and command)")) ;;
  let body_repeat :=
    if repeat >? 0 then [("repeat", PInt repeat)] else body_repeat in
  let body_port :=
    if has_key kwargs "port"
    then [("port_id", kwargs_get kwargs "port")] else body_port in
  emitter <-
    (if has_key kwargs "dock" then
       let dock_name := kwargs_get kwargs "dock" in
       found <- lift (first_match (_docks self) "name" dock_name) ;;
       match found with
       | Some dock => ret dock
       | None => ret PNone
       end
     else
       match _docks self with
       | dock :: _ => lift (py_get dock "device_id")
       | [] => raise IndexError
       end) ;;
  match emitter with
  | PNone =>
      raise (NoEmitterFound
               "No emitter could be found with the supplied criteria")
  | _ =>
      let body_merged := dict_merge (dict_merge body body_repeat) body_port in
      request PUT
        (rbind (str_concat "ir/emitters/" emitter)
           (fun s => inr (s ++ "/send")))
        (Some (PDict body_merged))
        (fun response =>
           raise_on_error response ;;;
           response <- lift (json response) ;;
           ret (py_eqb response (PInt 200)))
  end.

(** ** Activities *)

Definition Activity_turn_on (self : Activity) : M Activity :=
  let body := PDict [("entity_id", _id self); ("cmd_id", PStr "activity.on")] in
  request PUT
    (rbind (str_concat "entities/" (_id self))
       (fun s => inr (s ++ "/command")))
    (Some body)
    (fun response =>
       raise_on_error response ;;;
       ret (set_state (PStr "ON") self)).

Definition Activity_turn_off (self : Activity) : M Activity :=
  let body := PDict [("entity_id", _id self); ("cmd_id", PStr "activity.off")] in
  request PUT
    (rbind (str_concat "entities/" (_id self))
       (fun s => inr (s ++ "/command")))
    (Some body)
    (fun response =>
       raise_on_error response ;;;
       ret (set_state (PStr "OFF") self)).

Definition Activity_is_on (self : Activity) : bool :=
  py_eqb (_state self) (PStr "ON").

Definition Activity_update (self : Activity) : M Activity :=
  state <- get_activity_state (_id self) ;;
  ret (set_state state self).

(** ** Properties of the session object *)

(** [a or b]. *)
Definition py_or (a b : pyobj) : pyobj := if truthy a then a else b.

(** The property [name]. *)
Definition Remote_name (self : Remote) : pyobj :=
  py_or (_name self) (PStr "Unfolded Circle Remote Two").

(** The property [model_name]. *)
Definition Remote_model_name (self : Remote) : pyobj :=
  py_or (_model_name self) (PStr "Remote Two").

(** The property [model_number]. *)
Definition Remote_model_number (self : Remote) : pyobj :=
  py_or (_model_number self) (PStr "N/A").

(** The property [serial_number]. *)
Definition Remote_serial_number (self : Remote) : pyobj :=
  py_or (_serial_number self) (PStr "N/A").

(** The property [hw_revision]. *)
Definition Remote_hw_revision (self : Remote) : pyobj :=
  if py_eqb (_hw_revision self) (PStr "rev2") then PStr "Revision 2"
  else _hw_revision self.

(** ** Codesets of the remotes *)

Definition set_ir_codesets (v : list pyobj) (r : Remote) : Remote :=
  mkRemote (endpoint r) (configuration_url r) (apikey r) (pin r)
    (activities r) (_name r) (_model_name r) (_model_number r)
    (_serial_number r) (_hw_revision r) (_ambient_light_intensity r)
    (_remotes r) (_docks r) (_ir_custom r) v.

(** [get_remote_codesets]: one GET per known remote, in order. *)
Definition get_remote_codesets : M (list pyobj) :=
  self <- get_remote ;;
  for_each (_remotes self)
    (fun remote =>
       request GET
         (rbind (py_get remote "entity_id") (fun entity_id =>
          rbind (str_concat "remotes/" entity_id) (fun s =>
          inr (s ++ "/ir"))))
         None
         (fun response =>
            raise_on_error response ;;;
            code_set <- lift (json response) ;;
            name <- lift (py_get remote "name") ;;
            device_id <- lift (py_get code_set "id") ;;
            modify_remote
              (fun self =>
                 set_ir_codesets
                   (_ir_codesets self
                    ++ [PDict [("name", name); ("device_id", device_id)]])%list
                   self))) ;;;
  self <- get_remote ;;
  ret (_ir_codesets self).

(** ** Discovery *)

(** [DeviceListener.add_service], given what [zconf.get_service_info]
    returned ([None] when the service did not answer). The session is
    built by [Remote(endpoint, self.apikey)]: the listener's key is the
    second positional argument of [Remote.__init__], which is [pin]. *)
Definition add_service (info : option ServiceInfo) (self : DeviceListener)
  : result DeviceListener :=
  match info with
  | None => inl AttributeError
  | Some info =>
      match addresses info with
      | [] => inl IndexError
      | packed :: _ =>
          let host := inet_ntoa packed in
          let endpoint :=
            "http://" ++ host ++ ":" ++ str_of_int (port info) ++ "/api/" in
          rbind (Remote_init endpoint (listener_apikey self) PNone)
            (fun remote =>
               inr (mkDeviceListener (listener_apikey self)
                      (devices self ++ [remote])%list))
      end
  end.

(** ** Shapes used in the statements *)

(** A base API URL: the default scheme, the path ending in [/api/] once,
    and no doubled slash after the scheme's. *)
Definition canonical_endpoint (u : string) : bool :=
  String.prefix "http://" u
  && endswith u "/api/"
  && negb (endswith u "api/api/")
  && negb (contains (drop 7 u) "//").

(** The input of [urlparse] inside [validate_url]. *)
Definition with_scheme (uri : string) : string :=
  if re_search_http uri then uri else "http://" ++ uri.

(** The state after [req] went out. *)
Definition sent (s : State) (req : Request) : State :=
  mkState (st_remote s) (st_log s ++ [req])%list.

(** In state [s] the session has a client and can build the URL of [path],
    so that method [m] with [body] goes out as [req], and the remote
    answers it with [response]. *)
Definition exchange (s : State) (m : Method) (path : string)
    (body : option pyobj) (req : Request) (response : Response) : Prop :=
  exists session u,
    client (st_remote s) = inr (Some session)
    /\ url (st_remote s) path = inr u
    /\ req = mkRequest m u body session
    /\ server (st_log s) req = Some response.

(** A session with neither credential. *)
Definition credential_less (self : Remote) : Prop :=
  truthy (apikey self) = false /\ truthy (pin self) = false.

(** An entry of the key list, with a name other than [key_name]. *)
Definition other_key (key_name : string) (key : pyobj) : Prop :=
  exists name, py_getitem key "name" = inr name /\ name <> PStr key_name.

(** An entry of the activities list, with an id that is not [id]. *)
Definition other_activity (id : pyobj) (entry : pyobj) : Prop :=
  exists other,
    py_getitem entry "entity_id" = inr other /\ py_eqb id other = false.

(** The command body of [turn_on] and [turn_off]. *)
Definition activity_command (id : pyobj) (cmd_id : string) : pyobj :=
  PDict [("entity_id", id); ("cmd_id", PStr cmd_id)].

Definition is_AuthenticationError (e : exn) : bool :=
  match e with
  | AuthenticationError _ => true
  | _ => false
  end.

Definition is_HTTPError (e : exn) : bool :=
  match e with
  | HTTPError _ _ => true
  | _ => false
  end.

Definition is_InvalidIRFormat (e : exn) : bool :=
  match e with
  | InvalidIRFormat _ => true
  | _ => false
  end.

(** The exceptions of Python and of the HTTP client, as opposed to the
    module's own. *)
Definition builtin_error (e : exn) : bool :=
  match e with
  | TypeError | AttributeError | KeyError _ | IndexError | ValueError _
  | JSONDecodeError | ClientError | ContentTypeError => true
  | _ => false
  end.

(** Every exception that [c] can raise satisfies [P]. *)
Definition raises_only {A} (P : exn -> bool) (c : M A) : Prop :=
  forall s e s', c s = (inl e, s') -> P e = true.

(** A dock whose name is not [dock_name]. *)
Definition other_dock (dock_name : pyobj) (dock : pyobj) : Prop :=
  exists name, py_get dock "name" = inr name /\ py_eqb name dock_name = false.

(** An ASCII character that ends neither a netloc ([/], [?], [#]) nor
    opens or closes a bracket, and that [urlsplit] does not remove. *)
Definition host_char (c : ascii) : bool :=
  negb (ascii_in c "/?#[]") && negb (unsafe_url_byte c)
  && (nat_of_ascii c <? 128)%nat.

(** A [host_char] that is also neither [:] nor [;]. *)
Definition name_char (c : ascii) : bool :=
  host_char c && negb (ascii_in c ":;").

(** What [raise_on_error] raises on a response that is not ok: the
    [HTTPError] built from the status and the [code] and [message] of the
    body, or whatever reading the body raises first. *)
Definition http_failure (response : Response) : exn :=
  match json response with
  | inl e => e
  | inr content =>
      match py_getitem content "code" with
      | inl e => e
      | inr code =>
          match py_getitem content "message" with
          | inl e => e
          | inr message =>
              HTTPError (status response)
                (format_value (PInt (status response)) ++ " Request: "
                 ++ format_value code ++ " Reason: " ++ format_value message)
          end
      end
  end.

(** The descriptor that [get_docks] keeps of a dock. *)
Definition dock_descriptor (dock : list (string * pyobj)) : pyobj :=
  PDict [("name", kwargs_get dock "name");
         ("device_id", kwargs_get dock "device_id")].

(** The descriptors of the docks whose [active] is [True], in order. *)
Definition active_docks (docks : list (list (string * pyobj)))
  : list pyobj :=
  map dock_descriptor
    (filter (fun dock => is_True (kwargs_get dock "active")) docks).

(** The descriptor that [get_custom_codesets] keeps of a codeset. *)
Definition codeset_descriptor (ir : list (string * pyobj)) : pyobj :=
  PDict [("device", kwargs_get ir "device");
         ("device_id", kwargs_get ir "device_id")].

(** The descriptor that [get_remotes] keeps of a remote: its English name
    and its entity id. *)
Definition remote_descriptor (remote : list (string * pyobj)) : pyobj :=
  PDict [("name",
          match dict_get remote "name" with
          | Some (PDict names) => kwargs_get names "en"
          | _ => PNone
          end);
         ("entity_id", kwargs_get remote "entity_id")].

(** The descriptors of the remotes whose [enabled] is [True], in order. *)
Definition enabled_remotes (remotes : list (list (string * pyobj)))
  : list pyobj :=
  map remote_descriptor
    (filter (fun remote => is_True (kwargs_get remote "enabled")) remotes).

(** A remote that, when enabled, has a name object. *)
Definition named_when_enabled (remote : list (string * pyobj)) : Prop :=
  is_True (kwargs_get remote "enabled") = true ->
  exists names, dict_get remote "name" = Some (PDict names).

(** The body of a predefined IR command: the codeset and the command, the
    repeat count when it is positive, the port when one is given. *)
Definition ir_command_body (codeset_id : pyobj) (command : string)
    (repeat : Z) (kwargs : list (string * pyobj)) : pyobj :=
  PDict ([("codeset_id", codeset_id); ("cmd_id", PStr command)]
         ++ (if repeat >? 0 then [("repeat", PInt repeat)] else [])
         ++ match dict_get kwargs "port" with
            | Some port => [("port_id", port)]
            | None => []
            end)%list.

Definition is_SystemCommandNotFound (e : exn) : bool :=
  match e with
  | SystemCommandNotFound _ => true
  | _ => false
  end.

Definition is_ApiKeyNotFound (e : exn) : bool :=
  match e with
  | ApiKeyNotFound _ _ => true
  | _ => false
  end.

Definition is_NoEmitterFound (e : exn) : bool :=
  match e with
  | NoEmitterFound _ => true
  | _ => false
  end.

(** What every operation may raise: an exception of Python or of the HTTP
    client, or the [HTTPError] of a reply. *)
Definition common_error (e : exn) : bool :=
  builtin_error e || is_HTTPError e.

(** One turn of the loop of [get_remote_codesets]: the known remote, the
    GET sent for it, and the codeset object of the reply. *)
Record CodesetFetch : Type := mkCodesetFetch {
  fetch_remote : list (string * pyobj);
  fetch_request : Request;
  fetch_code_set : list (string * pyobj)
}.

(** The descriptor that [get_remote_codesets] keeps of a fetch. *)
Definition fetch_descriptor (f : CodesetFetch) : pyobj :=
  PDict [("name", kwargs_get (fetch_remote f) "name");
         ("device_id", kwargs_get (fetch_code_set f) "id")].

(** The state after the fetches: their descriptors behind the codesets
    held before, their requests behind the log. *)
Definition fetched (s : State) (fetches : list CodesetFetch) : State :=
  mkState
    (set_ir_codesets
       (_ir_codesets (st_remote s) ++ map fetch_descriptor fetches)%list
       (st_remote s))
    (st_log s ++ map fetch_request fetches)%list.

(** From state [s] on, the remote answers the GET of each fetch, sent with
    the earlier ones in the log, with an ok reply holding the fetch's
    codeset object; the entity ids of the remotes are strings. *)
Fixpoint codeset_fetches (s : State) (fetches : list CodesetFetch) : Prop :=
  match fetches with
  | [] => True
  | f :: rest =>
      (exists entity_id response,
          dict_get (fetch_remote f) "entity_id" = Some (PStr entity_id)
          /\ exchange s GET ("remotes/" ++ entity_id ++ "/ir") None
               (fetch_request f) response
          /\ ok response = true
          /\ content response = Some (PDict (fetch_code_set f)))
      /\ codeset_fetches (fetched s [f]) rest
  end.

(** * Properties *)

(** ** Replies *)

Lemma json_content (response : Response) (j : pyobj) :
  content response = Some j -> json response = inr j.
Proof.
  unfold content. destruct (json response); intro H; inversion H. reflexivity.
Qed.

(** ** The endpoint resolver *)

Lemma last_char_None (s : string) : last_char s = None -> s = "".
Proof.
  induction s as [|a t IH]; simpl; [reflexivity|].
  destruct t; [discriminate|]. intro H. apply IH in H. discriminate.
Qed.

Lemma urlsplit_raises (url : string) (e : exn) :
  urlsplit url = inl e -> exists message, e = ValueError message.
Proof.
  unfold urlsplit.
  destruct (split_scheme _) as [sch rest].
  destruct (String.prefix "//" rest); simpl.
  - destruct (splitnetloc rest) as [nl rest'].
    destruct (_ || _); simpl.
    + intro H; inversion H; eauto.
    + destruct (_ && _).
      * destruct (check_bracketed_netloc nl); simpl.
        -- intro H; inversion H; eauto.
        -- destruct (ascii_in "#" rest'); [destruct (split_once _ _)|];
             match goal with |- context [ascii_in "?" ?x] =>
               destruct (ascii_in "?" x); [destruct (split_once "?" x)|] end;
             discriminate.
      * simpl.
        destruct (ascii_in "#" rest'); [destruct (split_once _ _)|];
          match goal with |- context [ascii_in "?" ?x] =>
            destruct (ascii_in "?" x); [destruct (split_once "?" x)|] end;
          discriminate.
  - destruct (ascii_in "#" rest); [destruct (split_once _ _)|];
      match goal with |- context [ascii_in "?" ?x] =>
        destruct (ascii_in "?" x); [destruct (split_once "?" x)|] end;
      discriminate.
Qed.

Lemma urlparse_raises (url : string) (e : exn) :
  urlparse url = inl e -> exists message, e = ValueError message.
Proof.
  unfold urlparse. destruct (urlsplit url) as [e'|[[[[sch nl] p] q] f]] eqn:E.
  - simpl. intro H; inversion H; subst. eapply urlsplit_raises; eauto.
  - simpl. destruct (_ && _); [destruct (splitparams p)|]; discriminate.
Qed.

Lemma validate_url_raises_iff (uri : string) (e : exn) :
  validate_url uri = inl e <-> urlparse (with_scheme uri) = inl e.
Proof.
  unfold validate_url, with_scheme.
  destruct (urlparse _) as [e'|parsed_url]; simpl;
    [split; intro H; inversion H; reflexivity|].
  destruct (scheme parsed_url =? "")%string;
    destruct (path parsed_url =? "/")%string; try (split; discriminate);
    destruct (path parsed_url =? "")%string eqn:E; try (split; discriminate);
    (destruct (last_char (path parsed_url)) as [c|] eqn:L;
     [destruct (Ascii.eqb c "/"); split; discriminate|]);
    apply last_char_None in L; rewrite L in E; discriminate.
Qed.

(** C4 (amended): [validate_url] maps ["host"], ["host/"], ["host/api"] and
    ["http://host:8080"] to ["http://host/api/"] (three times) and
    ["http://host:8080/api/"], each a canonical endpoint: a scheme, one
    trailing [api/] segment, no doubled slash. It is not total: it raises
    exactly when [urlparse] rejects the input (after [http://] is put in
    front of an input that does not start with [http]), and what it raises
    then is that [ValueError]. *)
Theorem validate_url_normalizes :
  (forall uri,
      In uri ["host"; "host/"; "host/api"] ->
      validate_url uri = inr "http://host/api/") /\
  validate_url "http://host:8080" = inr "http://host:8080/api/" /\
  canonical_endpoint "http://host/api/" = true /\
  canonical_endpoint "http://host:8080/api/" = true /\
  (forall uri e,
      validate_url uri = inl e <-> urlparse (with_scheme uri) = inl e) /\
  (forall uri e,
      validate_url uri = inl e -> exists message, e = ValueError message).
Proof.
  split; [|split; [|split; [|split; [|split]]]].
  - intros uri [H|[H|[H|[]]]]; subst uri; reflexivity.
  - reflexivity.
  - reflexivity.
  - reflexivity.
  - apply validate_url_raises_iff.
  - intros uri e H. apply validate_url_raises_iff in H.
    eapply urlparse_raises; eauto.
Qed.

(** ** Running a request *)

Lemma request_no_session {A} (m : Method) (path : result string)
    (body : option pyobj) (k : Response -> M A) (s : State) :
  client (st_remote s) = inr None ->
  request m path body k s = (inl TypeError, s).
Proof.
  intro H. unfold request, bind, get_remote, lift. rewrite H. reflexivity.
Qed.

Lemma request_exchange {A} (m : Method) (path : string)
    (body : option pyobj) (k : Response -> M A) (s : State)
    (req : Request) (response : Response) :
  exchange s m path body req response ->
  request m (inr path) body k s = k response (sent s req).
Proof.
  intros (session & u & Hc & Hu & -> & Hs).
  unfold request, bind, get_remote, lift, send, sent.
  rewrite Hc, Hu. simpl. rewrite Hs. reflexivity.
Qed.

Lemma raise_on_error_ok (response : Response) (s : State) :
  ok response = true -> raise_on_error response s = (inr response, s).
Proof.
  intro H. unfold raise_on_error. rewrite H. reflexivity.
Qed.

Lemma ok_2xx (response : Response) :
  200 <= status response < 300 -> ok response = true.
Proof.
  intro H. unfold ok. apply Z.ltb_lt. lia.
Qed.

Lemma client_credential_less (self : Remote) :
  credential_less self -> client self = inr None.
Proof.
  intros [Ha Hp]. unfold client. rewrite Ha, Hp. reflexivity.
Qed.

(** [v == s] for a string [s] holds for that string only. *)
Lemma py_eqb_str_r (v : pyobj) (s : string) :
  py_eqb v (PStr s) = true <-> v = PStr s.
Proof.
  destruct v; simpl; try (split; discriminate).
  rewrite String.eqb_eq. split; [intros ->|intro H; inversion H]; reflexivity.
Qed.

Lemma py_eqb_str_l (s : string) (v : pyobj) :
  py_eqb (PStr s) v = true <-> v = PStr s.
Proof.
  destruct v; simpl; try (split; discriminate).
  rewrite String.eqb_eq. split; [intros ->|intro H; inversion H]; reflexivity.
Qed.

Lemma in_SYSTEM_COMMANDS (cmd : string) :
  existsb (String.eqb cmd) SYSTEM_COMMANDS = true <-> In cmd SYSTEM_COMMANDS.
Proof.
  rewrite existsb_exists. split.
  - intros (x & Hin & Heq). apply String.eqb_eq in Heq. now subst.
  - intro Hin. exists cmd. split; [assumption|apply String.eqb_refl].
Qed.

(** ** System commands *)

(** C5: a command outside STANDBY, REBOOT, POWER_OFF, RESTART, RESTART_UI,
    RESTART_CORE raises [SystemCommandNotFound] and leaves the state, so
    also the log of requests, as it was; for each of the six, when the POST
    to [system?cmd=<cmd>] is answered with status 200, the call returns the
    decoded body. *)
Theorem post_system_command_spec (cmd : string) (s : State) :
  (~ In cmd ["STANDBY"; "REBOOT"; "POWER_OFF"; "RESTART"; "RESTART_UI";
             "RESTART_CORE"] ->
   post_system_command cmd s
   = (inl (SystemCommandNotFound "Invalid System Command Supplied"), s)) /\
  (In cmd ["STANDBY"; "REBOOT"; "POWER_OFF"; "RESTART"; "RESTART_UI";
           "RESTART_CORE"] ->
   forall req response body,
     exchange s POST ("system?cmd=" ++ cmd) None req response ->
     status response = 200 ->
     content response = Some body ->
     post_system_command cmd s = (inr body, sent s req)).
Proof.
  split.
  - intro Hout. unfold post_system_command.
    destruct (existsb _ _) eqn:E; [|reflexivity].
    apply in_SYSTEM_COMMANDS in E. contradiction.
  - intros Hin req response body Hx Hst Hbody. unfold post_system_command.
    apply in_SYSTEM_COMMANDS in Hin. rewrite Hin.
    rewrite (request_exchange _ _ _ _ _ _ _ Hx). unfold bind.
    rewrite raise_on_error_ok by (apply ok_2xx; lia).
    unfold lift. rewrite (json_content _ _ Hbody). reflexivity.
Qed.

(** ** API keys *)

Lemma find_api_key_id_none (keys : list pyobj) (key_name : string) :
  Forall (other_key key_name) keys ->
  find_api_key_id keys key_name = inr None.
Proof.
  induction 1 as [|key rest (name & Hn & Hne) _ IH]; simpl; [reflexivity|].
  rewrite Hn. simpl.
  destruct (py_eqb name (PStr key_name)) eqn:E; [|exact IH].
  apply py_eqb_str_r in E. contradiction.
Qed.

Lemma find_api_key_id_first (before after : list pyobj) (key : pyobj)
    (key_name : string) (api_key_id : pyobj) :
  Forall (other_key key_name) before ->
  py_getitem key "name" = inr (PStr key_name) ->
  py_getitem key "key_id" = inr api_key_id ->
  find_api_key_id (before ++ key :: after) key_name = inr (Some api_key_id).
Proof.
  intros Hb Hn Hk.
  induction Hb as [|k rest (name & Hkn & Hne) _ IH]; simpl.
  - rewrite Hn. simpl. rewrite String.eqb_refl, Hk. reflexivity.
  - rewrite Hkn. simpl.
    destruct (py_eqb name (PStr key_name)) eqn:E; [|exact IH].
    apply py_eqb_str_r in E. contradiction.
Qed.

(** C6: [revoke_api_key] looks the name up in the fetched list by equality
    with [key_name]. When no entry of the list has that name it raises
    [ApiKeyNotFound] carrying [key_name], and the GET of the list is the
    only request it made. When an entry has exactly that name, the
    [key_id] of the first such entry is the one the DELETE goes to. *)
Theorem revoke_api_key_spec (key_name : string) (s : State)
    (req : Request) (response : Response) (keys : list pyobj) :
  exchange s GET "auth/api_keys" None req response ->
  ok response = true ->
  content response = Some (PList keys) ->
  (Forall (other_key key_name) keys ->
   revoke_api_key key_name s
   = (inl (ApiKeyNotFound key_name
             ("API Key '" ++ key_name ++ "' not found.")), sent s req)
   /\ st_log (sent s req) = (st_log s ++ [req])%list
   /\ req_method req = GET) /\
  (forall before key after api_key_id del reply,
      keys = (before ++ key :: after)%list ->
      Forall (other_key key_name) before ->
      py_getitem key "name" = inr (PStr key_name) ->
      py_getitem key "key_id" = inr (PStr api_key_id) ->
      exchange (sent s req) DELETE ("auth/api_keys/" ++ api_key_id) None
        del reply ->
      ok reply = true ->
      revoke_api_key key_name s = (inr tt, sent (sent s req) del)).
Proof.
  intros Hx Hok Hbody.
  assert (Hkeys : get_api_keys s = (inr (PList keys), sent s req)).
  { unfold get_api_keys. rewrite (request_exchange _ _ _ _ _ _ _ Hx).
    unfold bind. rewrite raise_on_error_ok by assumption.
    unfold lift. rewrite (json_content _ _ Hbody). reflexivity. }
  split.
  - intro Hall. unfold revoke_api_key, bind. rewrite Hkeys.
    unfold lift. simpl. rewrite (find_api_key_id_none _ _ Hall).
    split; [reflexivity|]. split; [reflexivity|].
    destruct Hx as (session & u & _ & _ & -> & _). reflexivity.
  - intros before key after api_key_id del reply -> Hb Hn Hk Hd Hrok.
    unfold revoke_api_key, bind. rewrite Hkeys. unfold lift. simpl.
    rewrite (find_api_key_id_first _ _ _ _ _ Hb Hn Hk). simpl.
    rewrite (request_exchange _ _ _ _ _ _ _ Hd). unfold bind.
    rewrite raise_on_error_ok by assumption. reflexivity.
Qed.

(** ** Activities *)

Lemma find_activity_state_none (entries : list pyobj) (id : pyobj) :
  Forall (other_activity id) entries ->
  find_activity_state entries id = inr PNone.
Proof.
  induction 1 as [|entry rest (other & Hid & Hne) _ IH]; simpl;
    [reflexivity|].
  rewrite Hid. simpl. rewrite Hne. exact IH.
Qed.

Lemma find_activity_state_first (before after : list pyobj)
    (entry id other attributes state : pyobj) :
  Forall (other_activity id) before ->
  py_getitem entry "entity_id" = inr other ->
  py_eqb id other = true ->
  py_getitem entry "attributes" = inr attributes ->
  py_getitem attributes "state" = inr state ->
  find_activity_state (before ++ entry :: after) id = inr state.
Proof.
  intros Hb Hid Heq Ha Hs.
  induction Hb as [|e rest (o & Ho & Hne) _ IH]; simpl.
  - rewrite Hid. simpl. rewrite Heq, Ha. simpl. exact Hs.
  - rewrite Ho. simpl. rewrite Hne. exact IH.
Qed.

Lemma get_activity_state_fetched (id : pyobj) (s : State) (req : Request)
    (response : Response) (entries : list pyobj) :
  exchange s GET "activities" None req response ->
  ok response = true ->
  content response = Some (PList entries) ->
  get_activity_state id s
  = (find_activity_state entries id, sent s req).
Proof.
  intros Hx Hok Hbody. unfold get_activity_state.
  rewrite (request_exchange _ _ _ _ _ _ _ Hx). unfold bind.
  rewrite raise_on_error_ok by assumption.
  unfold lift. rewrite (json_content _ _ Hbody). reflexivity.
Qed.

(** C7: with a string id, [turn_on] PUTs the body
    [{entity_id: id, cmd_id: "activity.on"}] to [entities/<id>/command];
    when the answer is a 2xx the activity's state is ["ON"], that PUT is the
    only request made, and [is_on] is true. The same holds for [turn_off]
    with ["activity.off"], state ["OFF"] and [is_on] false. *)
Theorem Activity_turn_on_off_optimistic (self : Activity) (id : string)
    (s : State) (req : Request) (response : Response) :
  _id self = PStr id ->
  200 <= status response < 300 ->
  (exchange s PUT ("entities/" ++ id ++ "/command")
     (Some (activity_command (PStr id) "activity.on")) req response ->
   Activity_turn_on self s = (inr (set_state (PStr "ON") self), sent s req)
   /\ st_log (sent s req) = (st_log s ++ [req])%list
   /\ Activity_is_on (set_state (PStr "ON") self) = true) /\
  (exchange s PUT ("entities/" ++ id ++ "/command")
     (Some (activity_command (PStr id) "activity.off")) req response ->
   Activity_turn_off self s = (inr (set_state (PStr "OFF") self), sent s req)
   /\ st_log (sent s req) = (st_log s ++ [req])%list
   /\ Activity_is_on (set_state (PStr "OFF") self) = false).
Proof.
  intros Hid H2xx. apply ok_2xx in H2xx. split; intro Hx.
  - unfold Activity_turn_on. rewrite Hid. simpl.
    unfold activity_command in Hx.
    rewrite (request_exchange _ _ _ _ _ _ _ Hx). unfold bind.
    rewrite raise_on_error_ok by assumption. repeat split.
  - unfold Activity_turn_off. rewrite Hid. simpl.
    unfold activity_command in Hx.
    rewrite (request_exchange _ _ _ _ _ _ _ Hx). unfold bind.
    rewrite raise_on_error_ok by assumption. repeat split.
Qed.

(** C8: [Activity.update] fetches the activities list again and stores the
    state of the first entry whose [entity_id] equals this activity's id.
    When no entry of the fetched list has this id, nothing is raised:
    [get_activity_state] returns [None], the stored state becomes [None],
    and [is_on] is false. *)
Theorem Activity_update_spec (self : Activity) (s : State) (req : Request)
    (response : Response) (entries : list pyobj) :
  exchange s GET "activities" None req response ->
  ok response = true ->
  content response = Some (PList entries) ->
  (Forall (other_activity (_id self)) entries ->
   get_activity_state (_id self) s = (inr PNone, sent s req)
   /\ Activity_update self s = (inr (set_state PNone self), sent s req)
   /\ Activity_is_on (set_state PNone self) = false) /\
  (forall before entry after other attributes state,
      entries = (before ++ entry :: after)%list ->
      Forall (other_activity (_id self)) before ->
      py_getitem entry "entity_id" = inr other ->
      py_eqb (_id self) other = true ->
      py_getitem entry "attributes" = inr attributes ->
      py_getitem attributes "state" = inr state ->
      Activity_update self s = (inr (set_state state self), sent s req)).
Proof.
  intros Hx Hok Hbody.
  pose proof (get_activity_state_fetched (_id self) _ _ _ _ Hx Hok Hbody)
    as Hget.
  split.
  - intro Hall. rewrite (find_activity_state_none _ _ Hall) in Hget.
    split; [exact Hget|]. split; [|reflexivity].
    unfold Activity_update, bind. rewrite Hget. reflexivity.
  - intros before entry after other attributes state -> Hb Hid Heq Ha Hs.
    rewrite (find_activity_state_first _ _ _ _ _ _ _ Hb Hid Heq Ha Hs)
      in Hget.
    unfold Activity_update, bind. rewrite Hget. reflexivity.
Qed.

(** ** What an operation can raise *)

Section RaisesOnly.

Variable P : exn -> bool.
Hypothesis P_builtin : forall e, builtin_error e = true -> P e = true.

Lemma raises_only_ret {A} (a : A) : raises_only P (ret a).
Proof. intros s e s' H. discriminate. Qed.

Lemma raises_only_raise {A} (e : exn) :
  P e = true -> raises_only P (raise (A := A) e).
Proof. intros He s e' s' H. inversion H. subst. exact He. Qed.

Lemma raises_only_bind {A B} (c : M A) (k : A -> M B) :
  raises_only P c -> (forall a, raises_only P (k a)) ->
  raises_only P (bind c k).
Proof.
  intros Hc Hk s e s' H. unfold bind in H.
  destruct (c s) as [[e0|a] s0] eqn:E.
  - inversion H; subst. eapply Hc; eauto.
  - eapply Hk; eauto.
Qed.

Lemma raises_only_lift {A} (x : result A) :
  (forall e, x = inl e -> builtin_error e = true) ->
  raises_only P (lift x).
Proof using P_builtin.
  intros Hx s e s' H. unfold lift in H. inversion H; subst. auto.
Qed.

Lemma raises_only_get_remote : raises_only P get_remote.
Proof. intros s e s' H. discriminate. Qed.

Lemma raises_only_modify_remote (f : Remote -> Remote) :
  raises_only P (modify_remote f).
Proof. intros s e s' H. discriminate. Qed.

Lemma builtin_py_getitem (x : pyobj) (k : string) (e : exn) :
  py_getitem x k = inl e -> builtin_error e = true.
Proof.
  destruct x; simpl; try (intro H; inversion H; reflexivity).
  destruct (dict_get d k); intro H; inversion H; reflexivity.
Qed.

Lemma builtin_py_get (x : pyobj) (k : string) (e : exn) :
  py_get x k = inl e -> builtin_error e = true.
Proof.
  destruct x; simpl; try (intro H; inversion H; reflexivity).
  destruct (dict_get d k); discriminate.
Qed.

Lemma builtin_json (response : Response) (e : exn) :
  json response = inl e -> builtin_error e = true.
Proof.
  unfold json.
  destruct (payload response); intro H; inversion H; reflexivity.
Qed.

Lemma builtin_str_concat (prefix : string) (x : pyobj) (e : exn) :
  str_concat prefix x = inl e -> builtin_error e = true.
Proof. destruct x; simpl; intro H; inversion H; reflexivity. Qed.

Lemma builtin_client (self : Remote) (e : exn) :
  client self = inl e -> builtin_error e = true.
Proof.
  unfold client. destruct (truthy (apikey self)).
  - destruct (str_concat _ _) eqn:E; simpl; [|discriminate].
    intro H; inversion H; subst. eapply builtin_str_concat; eauto.
  - destruct (truthy (pin self)); discriminate.
Qed.

Lemma builtin_url (self : Remote) (path : string) (e : exn) :
  url self path = inl e -> builtin_error e = true.
Proof.
  unfold url. destruct (urljoin _ _); intro H; inversion H. reflexivity.
Qed.

Lemma builtin_first_match (xs : list pyobj) (key : string) (target : pyobj)
    (e : exn) :
  first_match xs key target = inl e -> builtin_error e = true.
Proof.
  induction xs as [|x rest IH]; simpl; [discriminate|].
  destruct (py_get x key) eqn:E; simpl.
  - intro H; inversion H; subst. eapply builtin_py_get; eauto.
  - destruct (py_eqb _ _); [discriminate|exact IH].
Qed.

Lemma raises_only_send (m : Method) (u : string) (body : option pyobj)
    (session : ClientSession) :
  raises_only P (send m u body session).
Proof using P_builtin.
  intros s e s' H. unfold send in H.
  destruct (server _ _); inversion H. apply P_builtin. reflexivity.
Qed.

Lemma raises_only_request {A} (m : Method) (path : result string)
    (body : option pyobj) (k : Response -> M A) :
  (forall e, path = inl e -> builtin_error e = true) ->
  (forall response, raises_only P (k response)) ->
  raises_only P (request m path body k).
Proof using P_builtin.
  intros Hp Hk. unfold request.
  apply raises_only_bind; [apply raises_only_get_remote|]. intro self.
  apply raises_only_bind;
    [apply raises_only_lift; apply builtin_client|].
  intros [session|].
  - apply raises_only_bind; [apply raises_only_lift; exact Hp|]. intro p.
    apply raises_only_bind;
      [apply raises_only_lift; apply builtin_url|]. intro u.
    apply raises_only_bind; [apply raises_only_send|]. exact Hk.
  - apply raises_only_raise. apply P_builtin. reflexivity.
Qed.

Lemma raises_only_raise_on_error (response : Response) :
  (forall status_code message, P (HTTPError status_code message) = true) ->
  raises_only P (raise_on_error response).
Proof using P_builtin.
  intro Hh. unfold raise_on_error. destruct (negb (ok response)).
  - apply raises_only_bind;
      [apply raises_only_lift; apply builtin_json|]. intro content.
    apply raises_only_bind;
      [apply raises_only_lift; apply builtin_py_getitem|]. intro code.
    apply raises_only_bind;
      [apply raises_only_lift; apply builtin_py_getitem|]. intro message.
    apply raises_only_raise. apply Hh.
  - apply raises_only_ret.
Qed.

End RaisesOnly.

(** ** Credentials *)

Lemma create_api_key_stores (s : State) (req : Request)
    (response : Response) (api_info key : pyobj) :
  exchange s POST "auth/api_keys"
    (Some (PDict [("name", PStr "pyUnfoldedCircle");
                  ("scopes", PList [PStr "admin"])])) req response ->
  ok response = true ->
  content response = Some api_info ->
  py_getitem api_info "api_key" = inr key ->
  create_api_key s
  = (inr key,
     mkState (set_apikey key (st_remote s)) (st_log s ++ [req])%list).
Proof.
  intros Hx Hok Hbody Hkey. unfold create_api_key, bind at 1.
  unfold AUTH_APIKEY_NAME.
  rewrite (request_exchange _ _ _ _ _ _ _ Hx). unfold bind.
  rewrite raise_on_error_ok by assumption.
  unfold lift. rewrite (json_content _ _ Hbody), Hkey. reflexivity.
Qed.

Lemma create_api_key_raises :
  raises_only (fun e => builtin_error e || is_HTTPError e) create_api_key.
Proof.
  assert (Hb : forall e, builtin_error e = true ->
                         builtin_error e || is_HTTPError e = true)
    by (intros e ->; reflexivity).
  unfold create_api_key.
  apply raises_only_bind.
  - apply raises_only_request; [assumption|discriminate|]. intro response.
    apply raises_only_bind;
      [apply raises_only_raise_on_error; [assumption|reflexivity]|].
    intros _.
    apply raises_only_bind;
      [apply raises_only_lift; [assumption|apply builtin_json]|].
    intro api_info.
    apply raises_only_bind;
      [apply raises_only_lift; [assumption|apply builtin_py_getitem]|].
    intro key. apply raises_only_modify_remote.
  - intros _. apply raises_only_bind; [apply raises_only_get_remote|].
    intro self. apply raises_only_ret.
Qed.

(** C2 (amended): [create_api_key] never raises [AuthenticationError],
    whatever the credentials: what it raises is an [HTTPError] or an
    exception of Python or of the HTTP client. On a session with neither
    credential it raises [TypeError] before any request. When the POST of
    [{name: "pyUnfoldedCircle", scopes: ["admin"]}] is answered with an ok
    status and a body holding [api_key], the key is stored in [apikey] and
    returned. *)
Theorem create_api_key_spec (s : State) :
  (forall e s',
      create_api_key s = (inl e, s') ->
      is_AuthenticationError e = false
      /\ (builtin_error e = true \/ is_HTTPError e = true)) /\
  (credential_less (st_remote s) ->
   create_api_key s = (inl TypeError, s)) /\
  (forall req response api_info key,
      exchange s POST "auth/api_keys"
        (Some (PDict [("name", PStr "pyUnfoldedCircle");
                      ("scopes", PList [PStr "admin"])])) req response ->
      ok response = true ->
      content response = Some api_info ->
      py_getitem api_info "api_key" = inr key ->
      create_api_key s
      = (inr key,
         mkState (set_apikey key (st_remote s)) (st_log s ++ [req])%list)
      /\ apikey (set_apikey key (st_remote s)) = key).
Proof.
  split; [|split].
  - intros e s' H. apply create_api_key_raises in H.
    destruct e; simpl in *; try discriminate; auto.
  - intro Hc. unfold create_api_key, bind.
    rewrite request_no_session by (apply client_credential_less; exact Hc).
    reflexivity.
  - intros req response api_info key Hx Hok Hbody Hkey.
    split; [eapply create_api_key_stores; eauto|reflexivity].
Qed.

Lemma client_bearer_iff (self : Remote) (authorization : string)
    (total : Z) :
  client self = inr (Some (BearerSession authorization total))
  <-> exists k,
        apikey self = PStr k /\ k <> ""
        /\ authorization = "Bearer " ++ k /\ total = 5.
Proof.
  unfold client. split.
  - destruct (apikey self) as [| | |k| |] eqn:E; simpl;
      try discriminate;
      try (destruct (truthy (pin self)); discriminate);
      try (destruct b; [discriminate|
                        destruct (truthy (pin self)); discriminate]);
      try (destruct (negb _); [discriminate|
                        destruct (truthy (pin self)); discriminate]);
      try (destruct l; [destruct (truthy (pin self))|]; discriminate);
      try (destruct d; [destruct (truthy (pin self))|]; discriminate).
    destruct (k =? "")%string eqn:Ek; simpl.
    + destruct (truthy (pin self)); discriminate.
    + intro H. inversion H. exists k. apply String.eqb_neq in Ek. auto.
  - intros (k & -> & Hk & -> & ->). simpl.
    apply String.eqb_neq in Hk. rewrite Hk. reflexivity.
Qed.

Lemma client_basic_iff (self : Remote) (login : string) (password : pyobj)
    (total : Z) :
  client self = inr (Some (BasicAuthSession login password total))
  <-> truthy (apikey self) = false /\ truthy (pin self) = true
      /\ login = AUTH_USERNAME /\ password = pin self /\ total = 2.
Proof.
  unfold client. split.
  - destruct (truthy (apikey self)).
    + destruct (str_concat _ _); simpl; discriminate.
    + destruct (truthy (pin self)); [|discriminate].
      intro H. inversion H. auto.
  - intros (-> & -> & -> & -> & ->). reflexivity.
Qed.

Lemma client_none_iff (self : Remote) :
  client self = inr None <-> credential_less self.
Proof.
  split; [|apply client_credential_less].
  unfold client, credential_less.
  destruct (truthy (apikey self)).
  - destruct (str_concat _ _); simpl; discriminate.
  - destruct (truthy (pin self)); [discriminate|auto].
Qed.

(** C9 (amended): at most one credential is active, and the token is
    preferred. [client] makes a bearer session exactly when [apikey] is a
    non-empty string, whatever the PIN; a basic-auth session with the PIN
    exactly when [apikey] is falsy and [pin] is truthy; and no session at
    all exactly when both are falsy. After a [create_api_key] that was
    answered with a non-empty key, [client] makes the bearer session of
    that key, the PIN being kept as it was. *)
Theorem client_credential_selection (s : State) :
  (forall authorization total,
      client (st_remote s)
      = inr (Some (BearerSession authorization total))
      <-> exists k,
            apikey (st_remote s) = PStr k /\ k <> ""
            /\ authorization = "Bearer " ++ k /\ total = 5) /\
  (forall login password total,
      client (st_remote s)
      = inr (Some (BasicAuthSession login password total))
      <-> truthy (apikey (st_remote s)) = false
          /\ truthy (pin (st_remote s)) = true
          /\ login = "web-configurator" /\ password = pin (st_remote s)
          /\ total = 2) /\
  (client (st_remote s) = inr None <-> credential_less (st_remote s)) /\
  (forall req response api_info k,
      exchange s POST "auth/api_keys"
        (Some (PDict [("name", PStr "pyUnfoldedCircle");
                      ("scopes", PList [PStr "admin"])])) req response ->
      ok response = true ->
      content response = Some api_info ->
      py_getitem api_info "api_key" = inr (PStr k) ->
      k <> "" ->
      exists s',
        create_api_key s = (inr (PStr k), s')
        /\ client (st_remote s')
           = inr (Some (BearerSession ("Bearer " ++ k) 5))
        /\ pin (st_remote s') = pin (st_remote s)).
Proof.
  split; [|split; [|split]].
  - intros. apply client_bearer_iff.
  - intros. apply client_basic_iff.
  - apply client_none_iff.
  - intros req response api_info k Hx Hok Hbody Hkey Hk.
    eexists. split; [eapply create_api_key_stores; eauto|].
    split; [|reflexivity]. simpl.
    apply client_bearer_iff. exists k. auto.
Qed.

Lemma first_match_none (docks : list pyobj) (dock_name : pyobj) :
  Forall (other_dock dock_name) docks ->
  first_match docks "name" dock_name = inr None.
Proof.
  induction 1 as [|dock rest (name & Hn & Hne) _ IH]; simpl; [reflexivity|].
  rewrite Hn. simpl. rewrite Hne. exact IH.
Qed.

(** C10: on a session with neither [apikey] nor [pin] set, [client]
    returns [None], and every operation that gets to its HTTP request
    raises the [TypeError] of entering [None] (an [AttributeError] before
    Python 3.11), without sending anything: the state, with its log, is as
    before. This holds of the [async with] statement itself, whatever the
    method, path, body and continuation, and so of each operation that
    opens with it. [post_system_command] does so for the six valid
    commands, and [send_remote_command] raises, still without a request,
    something that is neither an [AuthenticationError] nor an
    [HTTPError]. *)
Theorem credential_less_operations_fail (s : State) :
  credential_less (st_remote s) ->
  client (st_remote s) = inr None
  /\ (forall A m path body (k : Response -> M A),
         request m path body k s = (inl TypeError, s))
  /\ can_connect s = (inl TypeError, s)
  /\ get_api_keys s = (inl TypeError, s)
  /\ create_api_key s = (inl TypeError, s)
  /\ (forall key_name, revoke_api_key key_name s = (inl TypeError, s))
  /\ get_remote_information s = (inl TypeError, s)
  /\ get_remote_configuration s = (inl TypeError, s)
  /\ get_activities s = (inl TypeError, s)
  /\ get_remote_ambient_light_information s = (inl TypeError, s)
  /\ update_remote s = (inl TypeError, s)
  /\ get_update_status s = (inl TypeError, s)
  /\ (forall entity_id, get_activity_state entity_id s = (inl TypeError, s))
  /\ (forall cmd,
         In cmd SYSTEM_COMMANDS ->
         post_system_command cmd s = (inl TypeError, s))
  /\ get_remotes s = (inl TypeError, s)
  /\ get_custom_codesets s = (inl TypeError, s)
  /\ get_docks s = (inl TypeError, s)
  /\ (forall self, Activity_turn_on self s = (inl TypeError, s))
  /\ (forall self, Activity_turn_off self s = (inl TypeError, s))
  /\ (forall self, Activity_update self s = (inl TypeError, s))
  /\ (forall device command repeat kwargs,
         exists e,
           send_remote_command device command repeat kwargs s = (inl e, s)
           /\ is_AuthenticationError e = false
           /\ is_HTTPError e = false).
Proof.
  intro Hc. pose proof (client_credential_less _ Hc) as Hn.
  assert (Hreq : forall A m path body (k : Response -> M A),
             request m path body k s = (inl TypeError, s))
    by (intros; apply request_no_session; exact Hn).
  repeat match goal with |- _ /\ _ => split end;
    try exact Hn; try (intros; apply Hreq).
  - unfold create_api_key, bind. rewrite Hreq. reflexivity.
  - intro key_name. unfold revoke_api_key, get_api_keys, bind.
    rewrite Hreq. reflexivity.
  - intros cmd Hin. unfold post_system_command.
    apply in_SYSTEM_COMMANDS in Hin. rewrite Hin. apply Hreq.
  - intro self. unfold Activity_update, get_activity_state, bind.
    rewrite Hreq. reflexivity.
  - intros device command repeat kwargs.
    unfold send_remote_command, bind, get_remote, lift.
    destruct (negb (device =? "")%string && negb (command =? "")%string);
      [|eexists; repeat split].
    destruct (first_match (_ir_codesets (st_remote s)) "name" (PStr device))
      as [e|[ir_code|]] eqn:Ecs.
    + exists e. split; [reflexivity|].
      apply builtin_first_match in Ecs. destruct e; try discriminate; auto.
    + destruct (py_get ir_code "device_id") as [e|device_id] eqn:Eid.
      * exists e. split; [reflexivity|].
        apply builtin_py_get in Eid. destruct e; try discriminate; auto.
      * unfold ret.
        destruct (has_key kwargs "dock").
        -- destruct (first_match (_docks (st_remote s)) "name"
                       (kwargs_get kwargs "dock")) as [e|[dock|]] eqn:Ed.
           ++ exists e. split; [reflexivity|].
              apply builtin_first_match in Ed.
              destruct e; try discriminate; auto.
           ++ destruct dock; try (rewrite Hreq; eexists; repeat split).
              eexists; repeat split.
           ++ eexists; repeat split.
        -- destruct (_docks (st_remote s)) as [|dock rest].
           ++ eexists; repeat split.
           ++ destruct (py_get dock "device_id") as [e|emitter] eqn:Ee.
              ** exists e. split; [reflexivity|].
                 apply builtin_py_get in Ee.
                 destruct e; try discriminate; auto.
              ** destruct emitter; try (rewrite Hreq; eexists; repeat split).
                 eexists; repeat split.
    + eexists; repeat split.
Qed.

(** ** IR commands *)

Lemma nonempty_both (device command : string) :
  negb (device =? "")%string && negb (command =? "")%string = true
  <-> device <> "" /\ command <> "".
Proof.
  rewrite andb_true_iff, !negb_true_iff, !String.eqb_neq. reflexivity.
Qed.

Lemma send_remote_command_raises (device command : string) (repeat : Z)
    (kwargs : list (string * pyobj)) :
  device <> "" -> command <> "" ->
  raises_only (fun e => negb (is_InvalidIRFormat e))
    (send_remote_command device command repeat kwargs).
Proof.
  intros Hd Hcmd.
  assert (Hb : forall e, builtin_error e = true ->
                         negb (is_InvalidIRFormat e) = true)
    by (intros e He; destruct e; try discriminate; reflexivity).
  unfold send_remote_command.
  rewrite (proj2 (nonempty_both device command) (conj Hd Hcmd)).
  apply raises_only_bind; [apply raises_only_get_remote|]. intro self.
  apply raises_only_bind.
  { apply raises_only_bind;
      [apply raises_only_lift; [assumption|apply builtin_first_match]|].
    intros [ir_code|].
    - apply raises_only_bind;
        [apply raises_only_lift; [assumption|apply builtin_py_get]|].
      intro device_id. apply raises_only_ret.
    - apply raises_only_raise. reflexivity. }
  intro body.
  apply raises_only_bind.
  { destruct (has_key kwargs "dock").
    - apply raises_only_bind;
        [apply raises_only_lift; [assumption|apply builtin_first_match]|].
      intros [dock|]; apply raises_only_ret.
    - destruct (_docks self).
      + apply raises_only_raise. reflexivity.
      + apply raises_only_lift; [assumption|apply builtin_py_get]. }
  intro emitter.
  assert (Hreq : forall path b,
             (forall e, path = inl e -> builtin_error e = true) ->
             raises_only (fun e => negb (is_InvalidIRFormat e))
               (request PUT path b
                  (fun response =>
                     raise_on_error response ;;;
                     response0 <- lift (json response) ;;
                     ret (py_eqb response0 (PInt 200))))).
  { intros path b Hp. apply raises_only_request; [assumption|exact Hp|].
    intro response.
    apply raises_only_bind;
      [apply raises_only_raise_on_error; [assumption|reflexivity]|].
    intros _.
    apply raises_only_bind;
      [apply raises_only_lift; [assumption|apply builtin_json]|].
    intro j. apply raises_only_ret. }
  destruct emitter; try (apply Hreq; simpl; intros e H; inversion H;
                         reflexivity).
  apply raises_only_raise. reflexivity.
Qed.

(** C1: what the code does. [send_remote_command] raises
    [InvalidIRFormat] exactly when the device or the command is empty,
    whatever the keywords: a call that supplies only a raw code and its
    format raises it too, and sends nothing. *)
Theorem send_remote_command_InvalidIRFormat (device command : string)
    (repeat : Z) (kwargs : list (string * pyobj)) (s : State) :
  ((exists message s',
       send_remote_command device command repeat kwargs s
       = (inl (InvalidIRFormat message), s'))
   <-> device = "" \/ command = "") /\
  (forall code format,
      send_remote_command "" "" repeat
        (("code", code) :: ("format", format) :: kwargs) s
      = (inl (InvalidIRFormat
                "Supply (code and format) or (device and command)"), s)).
Proof.
  split; [split|].
  - intros (message & s' & H).
    destruct (String.eqb_spec device ""); [auto|].
    destruct (String.eqb_spec command ""); [auto|].
    apply send_remote_command_raises in H; [discriminate|assumption..].
  - intro Hempty. exists "Supply (code and format) or (device and command)", s.
    unfold send_remote_command, bind, get_remote.
    destruct (negb (device =? "")%string && negb (command =? "")%string)
      eqn:E; [|reflexivity].
    apply nonempty_both in E. destruct E as [Hd Hc].
    destruct Hempty; contradiction.
  - intros code format. reflexivity.
Qed.

(** C3: what the code does once the command body is resolved (the device
    names a known codeset). A [dock] keyword that matches no known dock
    raises [NoEmitterFound]; without the keyword the request goes to the
    emitter whose id is the first known dock's [device_id]; but with no
    dock known and none specified the call raises [IndexError], not
    [NoEmitterFound]. *)
Theorem send_remote_command_emitter (device command : string) (repeat : Z)
    (kwargs : list (string * pyobj)) (s : State)
    (ir_code device_id : pyobj) :
  device <> "" -> command <> "" ->
  first_match (_ir_codesets (st_remote s)) "name" (PStr device)
  = inr (Some ir_code) ->
  py_get ir_code "device_id" = inr device_id ->
  (forall dock_name,
      dict_get kwargs "dock" = Some dock_name ->
      Forall (other_dock dock_name) (_docks (st_remote s)) ->
      send_remote_command device command repeat kwargs s
      = (inl (NoEmitterFound
                "No emitter could be found with the supplied criteria"), s))
  /\
  (forall dock rest emitter session u,
      dict_get kwargs "dock" = None ->
      _docks (st_remote s) = dock :: rest ->
      py_get dock "device_id" = inr (PStr emitter) ->
      client (st_remote s) = inr (Some session) ->
      url (st_remote s) ("ir/emitters/" ++ emitter ++ "/send") = inr u ->
      exists body,
        st_log (snd (send_remote_command device command repeat kwargs s))
        = (st_log s ++ [mkRequest PUT u (Some body) session])%list)
  /\
  (dict_get kwargs "dock" = None ->
   _docks (st_remote s) = [] ->
   send_remote_command device command repeat kwargs s
   = (inl IndexError, s)).
Proof.
  intros Hd Hcmd Hcs Hid.
  pose proof (proj2 (nonempty_both device command) (conj Hd Hcmd)) as Hne.
  split; [|split].
  - intros dock_name Hk Hall.
    unfold send_remote_command, bind, get_remote, lift, has_key, kwargs_get.
    rewrite Hne, Hcs, Hid, Hk. simpl.
    rewrite (first_match_none _ _ Hall). reflexivity.
  - intros dock rest emitter session u Hk Hdocks He Hc Hu.
    eexists.
    unfold send_remote_command, bind, get_remote, lift, has_key, ret.
    rewrite Hne, Hcs, Hid, Hk, Hdocks, He. simpl.
    unfold request, bind, get_remote, lift, send. rewrite Hc.
    simpl in Hu |- *. rewrite Hu.
    destruct (server _ _) as [response|]; [|reflexivity].
    unfold raise_on_error, bind, lift, raise, ret.
    destruct (negb (ok response)).
    + destruct (json response) as [e|j]; [reflexivity|].
      destruct (py_getitem j "code"); [reflexivity|].
      destruct (py_getitem j "message"); reflexivity.
    + destruct (json response); reflexivity.
  - intros Hk Hdocks.
    unfold send_remote_command, bind, get_remote, lift, has_key.
    rewrite Hne, Hcs, Hid, Hk, Hdocks. reflexivity.
Qed.

(** ** Strings without separators *)

Lemma forallb_str_impl (p q : ascii -> bool) (s : string) :
  (forall c, p c = true -> q c = true) ->
  forallb_str p s = true -> forallb_str q s = true.
Proof.
  intro Hpq. induction s as [|a t IH]; simpl; [reflexivity|].
  intro H. apply andb_true_iff in H as [Ha Ht].
  rewrite (Hpq _ Ha), (IH Ht). reflexivity.
Qed.

Lemma forallb_str_app (p : ascii -> bool) (s t : string) :
  forallb_str p (s ++ t) = forallb_str p s && forallb_str p t.
Proof.
  induction s as [|a s IH]; simpl; [reflexivity|].
  rewrite IH, andb_assoc. reflexivity.
Qed.

Lemma filter_str_id (p : ascii -> bool) (s : string) :
  forallb_str p s = true -> filter_str p s = s.
Proof.
  induction s as [|a t IH]; simpl; [reflexivity|].
  intro H. apply andb_true_iff in H as [Ha Ht].
  rewrite Ha, (IH Ht). reflexivity.
Qed.

Lemma ascii_in_absent (c : ascii) (s : string) :
  forallb_str (fun a => negb (Ascii.eqb a c)) s = true ->
  ascii_in c s = false.
Proof.
  unfold ascii_in. induction s as [|a t IH]; simpl; [reflexivity|].
  intro H. apply andb_true_iff in H as [Ha Ht].
  apply negb_true_iff, Ascii.eqb_neq in Ha.
  destruct (ascii_dec c a) as [->|_]; [contradiction|].
  specialize (IH Ht). destruct (index 0 (String c "") t); [discriminate|].
  reflexivity.
Qed.

Lemma find_char_absent (c : ascii) (s : string) :
  forallb_str (fun a => negb (Ascii.eqb a c)) s = true ->
  find_char c s = None.
Proof.
  induction s as [|a t IH]; simpl; [reflexivity|].
  intro H. apply andb_true_iff in H as [Ha Ht].
  apply negb_true_iff in Ha. rewrite Ha, (IH Ht). reflexivity.
Qed.

Lemma break_at_app (p : ascii -> bool) (s t : string) :
  forallb_str (fun a => negb (p a)) s = true ->
  break_at p (s ++ t) = (s ++ fst (break_at p t), snd (break_at p t)).
Proof.
  induction s as [|a s IH]; simpl.
  - intros _. destruct (break_at p t); reflexivity.
  - intro H. apply andb_true_iff in H as [Ha Hs].
    apply negb_true_iff in Ha. rewrite Ha, (IH Hs). reflexivity.
Qed.

Lemma last_char_forallb (p : ascii -> bool) (s : string) (c : ascii) :
  forallb_str p s = true -> last_char s = Some c -> p c = true.
Proof.
  induction s as [|a t IH]; simpl; [discriminate|].
  intro H. apply andb_true_iff in H as [Ha Ht].
  destruct t; [intro E; inversion E; subst; exact Ha|].
  apply IH. exact Ht.
Qed.

Lemma append_assoc (s t u : string) : (s ++ t) ++ u = s ++ t ++ u.
Proof.
  induction s as [|a s IH]; simpl; [reflexivity|]. rewrite IH. reflexivity.
Qed.

Lemma append_empty_r (s : string) : s ++ "" = s.
Proof.
  induction s as [|a s IH]; simpl; [reflexivity|]. rewrite IH. reflexivity.
Qed.

Lemma prefix_empty (s : string) : String.prefix "" s = true.
Proof. destruct s; reflexivity. Qed.

Lemma prefix_slashes (s : string) : String.prefix "//" ("//" ++ s) = true.
Proof. simpl. apply prefix_empty. Qed.

Lemma prefix_http (s : string) : String.prefix "http" ("http" ++ s) = true.
Proof. simpl. apply prefix_empty. Qed.

Lemma host_char_facts (c : ascii) :
  host_char c = true ->
  unsafe_url_byte c = false
  /\ ascii_in c "/?#" = false
  /\ Ascii.eqb c "[" = false /\ Ascii.eqb c "]" = false
  /\ Ascii.eqb c "#" = false /\ Ascii.eqb c "?" = false
  /\ Ascii.eqb c "/" = false.
Proof.
  destruct c as [[] [] [] [] [] [] [] []]; vm_compute; intro H;
    try discriminate H; repeat split.
Qed.

Lemma name_char_facts (c : ascii) :
  name_char c = true ->
  host_char c = true /\ Ascii.eqb c ":" = false /\ Ascii.eqb c ";" = false.
Proof.
  destruct c as [[] [] [] [] [] [] [] []]; vm_compute; intro H;
    try discriminate H; repeat split.
Qed.

Lemma host_chars_absent (h : string) (c : ascii) :
  forallb_str host_char h = true ->
  In c ["["; "]"; "#"; "?"; "/"]%char ->
  ascii_in c h = false.
Proof.
  intros Hh Hc. apply ascii_in_absent.
  apply (forallb_str_impl host_char); [|exact Hh].
  intros a Ha. apply host_char_facts in Ha.
  destruct Ha as (_ & _ & H1 & H2 & H3 & H4 & H5).
  simpl in Hc.
  destruct Hc as [<-|[<-|[<-|[<-|[<-|[]]]]]]; apply negb_true_iff;
    assumption.
Qed.

(** [urlsplit] on [http://<host><path>], for a host of [host_char]s and the
    path empty or [/api/]. *)
Lemma urlsplit_http_host (h p : string) :
  forallb_str host_char h = true ->
  p = "" \/ p = "/api/" ->
  urlsplit ("http://" ++ h ++ p) = inr ("http", h, p, "", "").
Proof.
  intros Hh Hp. unfold urlsplit.
  assert (Hsafe : forallb_str (fun c => negb (unsafe_url_byte c)) (h ++ p)
                  = true).
  { rewrite forallb_str_app. apply andb_true_iff. split.
    - apply (forallb_str_impl host_char); [|exact Hh].
      intros a Ha. apply host_char_facts in Ha. destruct Ha as [-> _].
      reflexivity.
    - destruct Hp as [->| ->]; reflexivity. }
  change (lstrip c0_control_or_space ("http://" ++ h ++ p))
    with ("http://" ++ h ++ p).
  replace (filter_str (fun c => negb (unsafe_url_byte c))
             ("http://" ++ h ++ p))
    with ("http://" ++ h ++ p)
    by (simpl; rewrite (filter_str_id _ _ Hsafe); reflexivity).
  change (split_scheme ("http://" ++ h ++ p)) with ("http", "//" ++ h ++ p).
  cbv beta iota.
  rewrite prefix_slashes. cbv iota.
  unfold splitnetloc. change (drop 2 ("//" ++ h ++ p)) with (h ++ p).
  rewrite break_at_app.
  2:{ apply (forallb_str_impl host_char); [|exact Hh].
      intros a Ha. apply host_char_facts in Ha.
      destruct Ha as (_ & -> & _). reflexivity. }
  assert (Hb : break_at (fun c => ascii_in c "/?#") p = ("", p))
    by (destruct Hp as [->| ->]; reflexivity).
  rewrite Hb. simpl fst. simpl snd. rewrite append_empty_r.
  rewrite (host_chars_absent h "[" Hh) by (simpl; auto).
  rewrite (host_chars_absent h "]" Hh) by (simpl; auto).
  simpl. destruct Hp as [->| ->]; reflexivity.
Qed.

Lemma urlparse_http_host (h p : string) :
  forallb_str host_char h = true ->
  p = "" \/ p = "/api/" ->
  urlparse ("http://" ++ h ++ p)
  = inr (mkParseResult "http" h p "" "" "").
Proof.
  intros Hh Hp. unfold urlparse. rewrite (urlsplit_http_host h p Hh Hp).
  destruct Hp as [->| ->]; reflexivity.
Qed.

(** [urlsplit] finds no scheme, netloc, query or fragment in a name of
    [name_char]s that starts with a letter. *)
Lemma urlsplit_name (c : ascii) (t : string) :
  is_lower c = true ->
  forallb_str name_char (String c t) = true ->
  urlsplit (String c t) = inr ("", "", String c t, "", "").
Proof.
  intros Hc Hn.
  assert (Hh : forallb_str host_char (String c t) = true).
  { apply (forallb_str_impl name_char); [|exact Hn].
    intros a Ha. apply name_char_facts in Ha. destruct Ha as [Ha _].
    exact Ha. }
  assert (Hcolon : forallb_str (fun a => negb (Ascii.eqb a ":"))
                     (String c t) = true).
  { apply (forallb_str_impl name_char); [|exact Hn].
    intros a Ha. apply name_char_facts in Ha. destruct Ha as (_ & -> & _).
    reflexivity. }
  unfold urlsplit.
  assert (Hstrip : lstrip c0_control_or_space (String c t) = String c t).
  { simpl. destruct c as [[] [] [] [] [] [] [] []]; try discriminate Hc;
      reflexivity. }
  rewrite Hstrip.
  rewrite filter_str_id.
  2:{ apply (forallb_str_impl host_char); [|exact Hh].
      intros a Ha. apply host_char_facts in Ha. destruct Ha as [-> _].
      reflexivity. }
  unfold split_scheme. rewrite (find_char_absent ":" _ Hcolon).
  cbv beta iota.
  assert (Hpre : String.prefix "//" (String c t) = false).
  { change (String.prefix "//" (String c t))
      with (match ascii_dec "/" c with
            | left _ => String.prefix "/" t
            | right _ => false
            end).
    destruct (ascii_dec "/" c) as [<-|_]; [discriminate Hc|].
    reflexivity. }
  rewrite Hpre. unfold rbind.
  rewrite (host_chars_absent _ "#" Hh) by (simpl; auto).
  rewrite (host_chars_absent _ "?" Hh) by (simpl; auto).
  reflexivity.
Qed.

Lemma urlparse_name (c : ascii) (t : string) :
  is_lower c = true ->
  forallb_str name_char (String c t) = true ->
  urlparse (String c t) = inr (mkParseResult "" "" (String c t) "" "" "").
Proof.
  intros Hc Hn. unfold urlparse. rewrite (urlsplit_name c t Hc Hn).
  unfold rbind.
  rewrite (ascii_in_absent ";" (String c t)).
  - rewrite andb_false_r. reflexivity.
  - apply (forallb_str_impl name_char); [|exact Hn].
    intros a Ha. apply name_char_facts in Ha. destruct Ha as (_ & _ & ->).
    reflexivity.
Qed.

Lemma urlparse_http_scheme (x : string) (parsed_url : ParseResult) :
  urlparse ("http://" ++ x) = inr parsed_url -> scheme parsed_url = "http".
Proof.
  unfold urlparse, urlsplit.
  change (lstrip c0_control_or_space ("http://" ++ x)) with ("http://" ++ x).
  change (filter_str (fun c => negb (unsafe_url_byte c)) ("http://" ++ x))
    with ("http://" ++ filter_str (fun c => negb (unsafe_url_byte c)) x).
  set (y := filter_str (fun c => negb (unsafe_url_byte c)) x).
  change (split_scheme ("http://" ++ y)) with ("http", "//" ++ y).
  cbv beta iota. rewrite prefix_slashes.
  destruct (splitnetloc ("//" ++ y)) as [nl rest].
  destruct (_ || _); [discriminate|].
  assert (Hrest : forall z : string * string,
             rbind
               (rbind (inr z)
                  (fun '(netloc, url) =>
                     let (url0, fragment) :=
                       if ascii_in "#" url then split_once "#" url
                       else (url, "") in
                     let (url1, query) :=
                       if ascii_in "?" url0 then split_once "?" url0
                       else (url0, "") in
                     inr ("http", netloc, url1, query, fragment)))
               (fun '(scheme, netloc, url, query, fragment) =>
                  let (url0, params) :=
                    if existsb (String.eqb scheme) uses_params
                       && ascii_in ";" url
                    then splitparams url else (url, "") in
                  inr (mkParseResult scheme netloc url0 params query
                         fragment))
             = inr parsed_url -> scheme parsed_url = "http").
  { intros [nl' u]. unfold rbind.
    destruct (ascii_in "#" u); [destruct (split_once "#" u) as [u0 f]|];
      match goal with |- context [ascii_in "?" ?w] =>
        destruct (ascii_in "?" w);
          [destruct (split_once "?" w) as [u1 q]|] end;
      match goal with |- context [splitparams ?w] =>
        destruct (_ && _); [destruct (splitparams w)|] end;
      intro H; inversion H; reflexivity. }
  destruct (_ && _).
  - destruct (check_bracketed_netloc nl); [discriminate|]. apply Hrest.
  - apply Hrest.
Qed.

(** ** More on the endpoint resolver *)

(** X1: a bare ASCII host (no [/], [?], [#], bracket, tab or line break) that
    does not start with [http] gets the scheme in front and [/api/]
    behind, whatever else it holds (a port, credentials): its endpoint is
    [http://<host>/api/]. *)
Theorem validate_url_bare_host (h : string) :
  re_search_http h = false ->
  forallb_str host_char h = true ->
  validate_url h = inr ("http://" ++ h ++ "/api/").
Proof.
  intros Hre Hh. unfold validate_url. rewrite Hre.
  rewrite <- (append_empty_r h) at 1.
  rewrite (urlparse_http_host h "" Hh (or_introl eq_refl)).
  simpl. reflexivity.
Qed.

(** X2: a bare host name that itself starts with [http] (as in
    [httpbin.local]) is parsed before the scheme is put in front, so its
    whole text counts as the path: the result is [http://<name>/], without
    the [api/] segment. *)
Theorem validate_url_http_name (rest : string) :
  forallb_str name_char ("http" ++ rest) = true ->
  validate_url ("http" ++ rest) = inr ("http://http" ++ rest ++ "/").
Proof.
  intro Hn. unfold validate_url, re_search_http. rewrite prefix_http.
  change ("http" ++ rest) with (String "h" ("ttp" ++ rest)) in *.
  rewrite (urlparse_name "h" _ eq_refl Hn).
  assert (H1 : (String "h" ("ttp" ++ rest) =? "/")%string = false)
    by reflexivity.
  assert (H2 : (String "h" ("ttp" ++ rest) =? "")%string = false)
    by reflexivity.
  unfold rbind. cbn [scheme path]. change ("" =? "")%string with true.
  cbv iota. rewrite H1, H2.
  destruct (last_char (String "h" ("ttp" ++ rest))) as [c|] eqn:L.
  - pose proof (last_char_forallb name_char _ _ Hn L) as Hc.
    apply name_char_facts in Hc. destruct Hc as [Hc _].
    apply host_char_facts in Hc.
    destruct Hc as (_ & _ & _ & _ & _ & _ & ->).
    simpl. reflexivity.
  - apply last_char_None in L. discriminate L.
Qed.

(** X3: whatever [validate_url] returns is its input with at most
    [http://] put in front and one of [/], [api/], [/api/] put behind: the
    text of the input is never rewritten. *)
Theorem validate_url_only_extends (uri u : string) :
  validate_url uri = inr u ->
  exists before behind,
    u = before ++ uri ++ behind
    /\ In before [""; "http://"]
    /\ In behind [""; "/"; "api/"; "/api/"].
Proof.
  assert (Hsuffix : forall before (parsed_url : ParseResult),
             In before [""; "http://"] ->
             (if (path parsed_url =? "/")%string
              then inr ((before ++ uri) ++ "api/")
              else if (path parsed_url =? "")%string
                   then inr ((before ++ uri) ++ "/api/")
                   else match last_char (path parsed_url) with
                        | Some c =>
                            if Ascii.eqb c "/" then inr (before ++ uri)
                            else inr ((before ++ uri) ++ "/")
                        | None => inl IndexError
                        end) = @inr exn string u ->
             exists before0 behind,
               u = before0 ++ uri ++ behind
               /\ In before0 [""; "http://"]
               /\ In behind [""; "/"; "api/"; "/api/"]).
  { intros before parsed_url Hb H. exists before.
    destruct (path parsed_url =? "/")%string.
    - inversion H. exists "api/".
      split; [apply append_assoc|]. split; [exact Hb|]. simpl. auto.
    - destruct (path parsed_url =? "")%string.
      + inversion H. exists "/api/".
        split; [apply append_assoc|]. split; [exact Hb|]. simpl. auto 6.
      + destruct (last_char (path parsed_url)) as [c|]; [|discriminate].
        destruct (Ascii.eqb c "/"); inversion H.
        * exists "". rewrite append_empty_r.
          split; [reflexivity|]. split; [exact Hb|]. simpl. auto.
        * exists "/".
          split; [apply append_assoc|]. split; [exact Hb|]. simpl. auto. }
  unfold validate_url.
  destruct (re_search_http uri).
  - destruct (urlparse uri) as [e|parsed_url]; [discriminate|].
    unfold rbind.
    destruct (scheme parsed_url =? "")%string.
    + apply (Hsuffix "http://"). simpl. auto.
    + apply (Hsuffix ""). simpl. auto.
  - destruct (urlparse ("http://" ++ uri)) as [e|parsed_url] eqn:E;
      [discriminate|].
    apply urlparse_http_scheme in E. unfold rbind. rewrite E.
    change ("http" =? "")%string with false. cbv iota.
    apply (Hsuffix "http://"). simpl. auto.
Qed.

(** ** Discovery *)

Lemma host_char_uint (u : Decimal.uint) :
  forallb_str host_char (NilEmpty.string_of_uint u) = true.
Proof. induction u; simpl; auto. Qed.

Lemma host_char_str_of_int (n : Z) :
  forallb_str host_char (str_of_int n) = true.
Proof.
  unfold str_of_int. destruct (Z.to_int n); simpl; apply host_char_uint.
Qed.

Lemma host_char_inet_ntoa (packed : ascii * ascii * ascii * ascii) :
  forallb_str host_char (inet_ntoa packed) = true.
Proof.
  destruct packed as [[[a b] c] d]. unfold inet_ntoa, str_of_byte.
  rewrite !forallb_str_app, !host_char_uint. reflexivity.
Qed.

Lemma validate_url_http_api (h : string) :
  forallb_str host_char h = true ->
  validate_url ("http://" ++ h ++ "/api/") = inr ("http://" ++ h ++ "/api/").
Proof.
  intro Hh. unfold validate_url.
  assert (Hre : re_search_http ("http://" ++ h ++ "/api/") = true)
    by (unfold re_search_http; apply (prefix_http ("://" ++ h ++ "/api/"))).
  rewrite Hre. cbv iota.
  rewrite (urlparse_http_host h "/api/" Hh (or_intror eq_refl)).
  reflexivity.
Qed.

Lemma Remote_init_http_host (h : string) (pin apikey : pyobj) :
  forallb_str host_char h = true ->
  Remote_init ("http://" ++ h ++ "/api/") pin apikey
  = inr (mkRemote ("http://" ++ h ++ "/api/")
           ("http://" ++ h ++ "/configurator/") apikey pin [] (PStr "")
           (PStr "") (PStr "") (PStr "") (PStr "") (PInt 0) [] [] [] []).
Proof.
  intro Hh. unfold Remote_init.
  rewrite (validate_url_http_api h Hh). unfold rbind at 1.
  unfold derive_configuration_url.
  rewrite (urlparse_http_host h "/api/" Hh (or_intror eq_refl)).
  reflexivity.
Qed.

(** X4: a device announced with an IPv4 address and a port joins the
    listener's list, behind the ones found before (an address announced
    twice is listed twice). Its endpoint is [http://a.b.c.d:port/api/] and
    its configuration URL [http://a.b.c.d:port/configurator/]. The key
    given to [discover_devices] ends up in the session's [pin], with
    [apikey] left unset: [client] never makes a bearer session for it, but a
    basic-auth session whose password is that key (and none at all when
    the key is empty or [None]). An announcement without service info raises
    [AttributeError], one without address [IndexError], the list being kept
    as it was. *)
Theorem add_service_spec (self : DeviceListener) :
  (forall packed others port,
      exists remote,
        add_service (Some (mkServiceInfo (packed :: others) port)) self
        = inr (mkDeviceListener (listener_apikey self)
                 (devices self ++ [remote])%list)
        /\ endpoint remote
           = "http://" ++ inet_ntoa packed ++ ":" ++ str_of_int port
             ++ "/api/"
        /\ configuration_url remote
           = "http://" ++ inet_ntoa packed ++ ":" ++ str_of_int port
             ++ "/configurator/"
        /\ pin remote = listener_apikey self
        /\ apikey remote = PNone
        /\ client remote
           = inr (if truthy (listener_apikey self)
                  then Some (BasicAuthSession "web-configurator"
                               (listener_apikey self) 2)
                  else None)) /\
  add_service None self = inl AttributeError /\
  (forall port,
      add_service (Some (mkServiceInfo [] port)) self = inl IndexError).
Proof.
  split; [|split; [reflexivity|reflexivity]].
  intros packed others number.
  assert (Hh : forallb_str host_char
                 (inet_ntoa packed ++ ":" ++ str_of_int number) = true).
  { rewrite !forallb_str_app, host_char_inet_ntoa, host_char_str_of_int.
    reflexivity. }
  eexists. unfold add_service. cbn [addresses port].
  replace (inet_ntoa packed ++ ":" ++ str_of_int number ++ "/api/")
    with ((inet_ntoa packed ++ ":" ++ str_of_int number) ++ "/api/")
    by (rewrite !append_assoc; reflexivity).
  rewrite (Remote_init_http_host _ (listener_apikey self) PNone Hh).
  unfold rbind. split; [reflexivity|].
  cbn [endpoint configuration_url pin apikey].
  rewrite !append_assoc.
  repeat split. unfold client. cbn [apikey pin truthy].
  destruct (truthy (listener_apikey self)); reflexivity.
Qed.

(** ** Replies that are not ok *)

Lemma raise_on_error_fails (response : Response) (s : State) :
  ok response = false ->
  raise_on_error response s = (inl (http_failure response), s).
Proof.
  intro H. unfold raise_on_error, http_failure, bind, lift, raise.
  rewrite H. simpl.
  destruct (json response) as [e|content]; [reflexivity|].
  destruct (py_getitem content "code") as [e|code]; [reflexivity|].
  destruct (py_getitem content "message"); reflexivity.
Qed.

Lemma request_fails {A} (m : Method) (path : string) (body : option pyobj)
    (k : Response -> M A) (s : State) (req : Request)
    (response : Response) :
  exchange s m path body req response ->
  ok response = false ->
  request m (inr path) body
    (fun response => raise_on_error response ;;; k response) s
  = (inl (http_failure response), sent s req).
Proof.
  intros Hx Hok. rewrite (request_exchange _ _ _ _ _ _ _ Hx).
  unfold bind. rewrite raise_on_error_fails by assumption. reflexivity.
Qed.

(** X5: the exception for a reply with status 400 or above. With a JSON
    object body that holds [code] and [message] it is an [HTTPError]
    carrying the reply's status. Otherwise no [HTTPError] is raised: a reply
    that is not labelled as JSON gives [ContentTypeError], a text that does
    not decode the decoding error, an empty body [TypeError] (the body reads
    as [None]), a JSON object that lacks [code] or [message] the [KeyError]
    of the missing key, and any other JSON value [TypeError]. A status below
    400, redirects included, raises nothing. *)
Theorem raise_on_error_spec (response : Response) (s : State) :
  (status response < 400 -> raise_on_error response s = (inr response, s)) /\
  (400 <= status response ->
   raise_on_error response s = (inl (http_failure response), s)
   /\ (payload response = NotJSON ->
       http_failure response = ContentTypeError)
   /\ (payload response = Malformed ->
       http_failure response = JSONDecodeError)
   /\ (payload response = Blank -> http_failure response = TypeError)
   /\ (forall d,
          payload response = JSON (PDict d) ->
          http_failure response
          = match dict_get d "code", dict_get d "message" with
            | None, _ => KeyError "code"
            | Some _, None => KeyError "message"
            | Some code, Some message =>
                HTTPError (status response)
                  (format_value (PInt (status response)) ++ " Request: "
                   ++ format_value code ++ " Reason: "
                   ++ format_value message)
            end)
   /\ (forall j,
          payload response = JSON j ->
          (forall d, j <> PDict d) ->
          http_failure response = TypeError)).
Proof.
  split.
  - intro H. apply raise_on_error_ok. unfold ok. apply Z.ltb_lt. exact H.
  - intro H. split.
    + apply raise_on_error_fails. unfold ok. apply Z.ltb_ge. exact H.
    + unfold http_failure, json. repeat split.
      * intros ->. reflexivity.
      * intros ->. reflexivity.
      * intros ->. reflexivity.
      * intros d ->. simpl.
        destruct (dict_get d "code"); [|reflexivity].
        destruct (dict_get d "message"); reflexivity.
      * intros j -> Hj. destruct j; try reflexivity.
        exfalso. eapply Hj. reflexivity.
Qed.

(** X6: when the reply to its request is not ok, each of these
    operations raises the exception of that reply and leaves the session as
    it was: nothing is stored, no list grows, the API key is kept, and the
    failed request is the only one sent. *)
Theorem failed_reply_leaves_session (s : State) (req : Request)
    (response : Response) :
  ok response = false ->
  (exchange s GET "auth/api_keys" None req response ->
   get_api_keys s = (inl (http_failure response), sent s req)
   /\ forall key_name,
        revoke_api_key key_name s
        = (inl (http_failure response), sent s req)) /\
  (exchange s POST "auth/api_keys"
     (Some (PDict [("name", PStr "pyUnfoldedCircle");
                   ("scopes", PList [PStr "admin"])])) req response ->
   create_api_key s = (inl (http_failure response), sent s req)) /\
  (exchange s GET "system" None req response ->
   get_remote_information s = (inl (http_failure response), sent s req)) /\
  (exchange s GET "cfg" None req response ->
   get_remote_configuration s = (inl (http_failure response), sent s req)) /\
  (exchange s GET "activities" None req response ->
   get_activities s = (inl (http_failure response), sent s req)
   /\ (forall entity_id,
          get_activity_state entity_id s
          = (inl (http_failure response), sent s req))
   /\ (forall self,
          Activity_update self s
          = (inl (http_failure response), sent s req))) /\
  (exchange s GET "system/sensors/ambient_light" None req response ->
   get_remote_ambient_light_information s
   = (inl (http_failure response), sent s req)) /\
  (exchange s POST "system/update/latest" None req response ->
   update_remote s = (inl (http_failure response), sent s req)) /\
  (exchange s GET "system/update/latest" None req response ->
   get_update_status s = (inl (http_failure response), sent s req)) /\
  (forall cmd,
      In cmd SYSTEM_COMMANDS ->
      exchange s POST ("system?cmd=" ++ cmd) None req response ->
      post_system_command cmd s
      = (inl (http_failure response), sent s req)) /\
  (exchange s GET "remotes" None req response ->
   get_remotes s = (inl (http_failure response), sent s req)) /\
  (exchange s GET "ir/codes/custom" None req response ->
   get_custom_codesets s = (inl (http_failure response), sent s req)) /\
  (exchange s GET "ir/emitters" None req response ->
   get_docks s = (inl (http_failure response), sent s req)) /\
  (forall self id,
      _id self = PStr id ->
      (exchange s PUT ("entities/" ++ id ++ "/command")
         (Some (activity_command (PStr id) "activity.on")) req response ->
       Activity_turn_on self s
       = (inl (http_failure response), sent s req))
      /\ (exchange s PUT ("entities/" ++ id ++ "/command")
            (Some (activity_command (PStr id) "activity.off")) req
            response ->
          Activity_turn_off self s
          = (inl (http_failure response), sent s req))).
Proof.
  intro Hok.
  repeat match goal with |- _ /\ _ => split end;
    try (intro Hx; apply (request_fails _ _ _ _ _ _ _ Hx Hok)).
  - intro Hx. split.
    + apply (request_fails _ _ _ _ _ _ _ Hx Hok).
    + intro key_name. unfold revoke_api_key, get_api_keys, bind at 1.
      rewrite (request_fails _ _ _ _ _ _ _ Hx Hok). reflexivity.
  - intro Hx. unfold create_api_key, bind at 1. unfold AUTH_APIKEY_NAME.
    rewrite (request_fails _ _ _ _ _ _ _ Hx Hok). reflexivity.
  - intro Hx. split; [|split].
    + apply (request_fails _ _ _ _ _ _ _ Hx Hok).
    + intro entity_id. apply (request_fails _ _ _ _ _ _ _ Hx Hok).
    + intro self. unfold Activity_update, get_activity_state, bind at 1.
      rewrite (request_fails _ _ _ _ _ _ _ Hx Hok). reflexivity.
  - intros cmd Hin Hx. unfold post_system_command.
    apply in_SYSTEM_COMMANDS in Hin. rewrite Hin.
    apply (request_fails _ _ _ _ _ _ _ Hx Hok).
  - intros self id Hid. split; intro Hx.
    + unfold Activity_turn_on. rewrite Hid. simpl.
      apply (request_fails _ _ _ _ _ _ _ Hx Hok).
    + unfold Activity_turn_off. rewrite Hid. simpl.
      apply (request_fails _ _ _ _ _ _ _ Hx Hok).
Qed.

(** X7: [can_connect] raises on no status at all: whatever the reply to
    its HEAD of [activities], it returns whether the status is exactly 200
    (so [False] on 401, but also on 204). Only a failure of the transport
    raises, as [ClientError]. *)
Theorem can_connect_spec (s : State) (session : ClientSession)
    (u : string) :
  client (st_remote s) = inr (Some session) ->
  url (st_remote s) "activities" = inr u ->
  (forall response,
      server (st_log s) (mkRequest HEAD u None session) = Some response ->
      can_connect s
      = (inr (status response =? 200),
         sent s (mkRequest HEAD u None session))) /\
  (server (st_log s) (mkRequest HEAD u None session) = None ->
   can_connect s
   = (inl ClientError, sent s (mkRequest HEAD u None session))).
Proof.
  intros Hc Hu.
  split; intros; unfold can_connect, request, bind, get_remote, lift, send;
    rewrite Hc; simpl; rewrite Hu; simpl.
  - rewrite H. reflexivity.
  - rewrite H. reflexivity.
Qed.

(** ** Refreshing the identity of the remote *)

Lemma py_or_truthy (a b : pyobj) :
  truthy b = true -> truthy (py_or a b) = true.
Proof. intro Hb. unfold py_or. destruct (truthy a) eqn:E; assumption. Qed.

Lemma py_get_dict (d : list (string * pyobj)) (k : string) :
  py_get (PDict d) k = inr (kwargs_get d k).
Proof. unfold py_get, kwargs_get. destruct (dict_get d k); reflexivity. Qed.

(** X8: [get_remote_information], answered with a JSON object, stores its
    [model_name], [model_number], [serial_number] and [hw_revision], a
    missing key being stored as [None]. The properties [model_name],
    [model_number] and [serial_number] then read the stored value when it is
    truthy and otherwise, so for a missing or an empty one, their fallback,
    ["Remote Two"], ["N/A"] and ["N/A"]: they are never empty.
    [hw_revision] has no fallback: it reads ["Revision 2"] for ["rev2"] and
    any other value as it is, [None] when the key was missing. *)
Theorem get_remote_information_spec (s : State) (req : Request)
    (response : Response) (d : list (string * pyobj)) :
  exchange s GET "system" None req response ->
  ok response = true ->
  content response = Some (PDict d) ->
  exists s',
    get_remote_information s = (inr (PDict d), s')
    /\ st_log s' = (st_log s ++ [req])%list
    /\ (_model_name (st_remote s') = kwargs_get d "model_name"
        /\ _model_number (st_remote s') = kwargs_get d "model_number"
        /\ _serial_number (st_remote s') = kwargs_get d "serial_number"
        /\ _hw_revision (st_remote s') = kwargs_get d "hw_revision")
    /\ (Remote_model_name (st_remote s')
        = (if truthy (kwargs_get d "model_name")
           then kwargs_get d "model_name" else PStr "Remote Two")
        /\ Remote_model_number (st_remote s')
           = (if truthy (kwargs_get d "model_number")
              then kwargs_get d "model_number" else PStr "N/A")
        /\ Remote_serial_number (st_remote s')
           = (if truthy (kwargs_get d "serial_number")
              then kwargs_get d "serial_number" else PStr "N/A"))
    /\ ((dict_get d "model_name" = None
         \/ dict_get d "model_name" = Some (PStr "") ->
         Remote_model_name (st_remote s') = PStr "Remote Two")
        /\ (dict_get d "model_number" = None
            \/ dict_get d "model_number" = Some (PStr "") ->
            Remote_model_number (st_remote s') = PStr "N/A")
        /\ (dict_get d "serial_number" = None
            \/ dict_get d "serial_number" = Some (PStr "") ->
            Remote_serial_number (st_remote s') = PStr "N/A"))
    /\ (truthy (Remote_model_name (st_remote s')) = true
        /\ truthy (Remote_model_number (st_remote s')) = true
        /\ truthy (Remote_serial_number (st_remote s')) = true)
    /\ (Remote_hw_revision (st_remote s')
        = (if py_eqb (kwargs_get d "hw_revision") (PStr "rev2")
           then PStr "Revision 2" else kwargs_get d "hw_revision")
        /\ (dict_get d "hw_revision" = Some (PStr "rev2") ->
            Remote_hw_revision (st_remote s') = PStr "Revision 2")
        /\ (forall v,
               dict_get d "hw_revision" = Some (PStr v) -> v <> "rev2" ->
               Remote_hw_revision (st_remote s') = PStr v)
        /\ (dict_get d "hw_revision" = None ->
            Remote_hw_revision (st_remote s') = PNone)).
Proof.
  intros Hx Hok Hbody. eexists. split.
  - unfold get_remote_information.
    rewrite (request_exchange _ _ _ _ _ _ _ Hx). unfold bind.
    rewrite raise_on_error_ok by assumption.
    unfold lift. rewrite (json_content _ _ Hbody). rewrite !py_get_dict.
    reflexivity.
  - cbn [st_log st_remote sent set_information _model_name _model_number
           _serial_number _hw_revision].
    unfold Remote_model_name, Remote_model_number, Remote_serial_number,
      Remote_hw_revision, py_or.
    cbn [st_remote set_information _model_name _model_number _serial_number
           _hw_revision].
    split; [reflexivity|]. split; [repeat split|].
    split; [repeat split|]. split; [|split].
    + unfold kwargs_get.
      split; [|split]; intros [H|H]; rewrite H; reflexivity.
    + split; [|split].
      * destruct (truthy (kwargs_get d "model_name")) eqn:E;
          [exact E|reflexivity].
      * destruct (truthy (kwargs_get d "model_number")) eqn:E;
          [exact E|reflexivity].
      * destruct (truthy (kwargs_get d "serial_number")) eqn:E;
          [exact E|reflexivity].
    + unfold kwargs_get. split; [reflexivity|]. split; [|split].
      * intro H. rewrite H. reflexivity.
      * intros v H Hv. rewrite H.
        destruct (py_eqb (PStr v) (PStr "rev2")) eqn:E; [|reflexivity].
        apply py_eqb_str_r in E. inversion E. contradiction.
      * intro H. rewrite H. reflexivity.
Qed.

(** X9: [get_remote_configuration] stores the [name] of the [device]
    object of the reply, which the property [name] reads back, with
    ["Unfolded Circle Remote Two"] for a missing or empty one. A reply
    without [device] raises [AttributeError] (the name is read off [None])
    and the stored name is kept. *)
Theorem get_remote_configuration_spec (s : State) (req : Request)
    (response : Response) (d : list (string * pyobj)) :
  exchange s GET "cfg" None req response ->
  ok response = true ->
  content response = Some (PDict d) ->
  (forall dev,
      dict_get d "device" = Some (PDict dev) ->
      get_remote_configuration s
      = (inr (PDict d),
         mkState (set_name (kwargs_get dev "name") (st_remote s))
           (st_log s ++ [req])%list)
      /\ Remote_name (set_name (kwargs_get dev "name") (st_remote s))
         = py_or (kwargs_get dev "name") (PStr "Unfolded Circle Remote Two")
      /\ truthy (Remote_name (set_name (kwargs_get dev "name")
                                (st_remote s))) = true) /\
  (dict_get d "device" = None ->
   get_remote_configuration s = (inl AttributeError, sent s req)).
Proof.
  intros Hx Hok Hbody.
  assert (Hrun : get_remote_configuration s
                 = (dev <- lift (py_get (PDict d) "device") ;;
                    name <- lift (py_get dev "name") ;;
                    modify_remote (set_name name) ;;; ret (PDict d))
                     (sent s req)).
  { unfold get_remote_configuration.
    rewrite (request_exchange _ _ _ _ _ _ _ Hx). unfold bind at 1 2.
    rewrite raise_on_error_ok by assumption.
    unfold lift at 1. rewrite (json_content _ _ Hbody). reflexivity. }
  split.
  - intros dev Hdev. rewrite Hrun. split; [|split].
    + unfold bind, lift. simpl. rewrite Hdev. rewrite py_get_dict.
      reflexivity.
    + reflexivity.
    + apply py_or_truthy. reflexivity.
  - intro Hdev. rewrite Hrun. unfold bind, lift. simpl. rewrite Hdev.
    reflexivity.
Qed.

(** X10: [get_remote_ambient_light_information] stores and returns the
    [intensity] of the reply; a reply without it raises
    [KeyError("intensity")] and the stored intensity is kept. *)
Theorem get_remote_ambient_light_information_spec (s : State)
    (req : Request) (response : Response) (d : list (string * pyobj)) :
  exchange s GET "system/sensors/ambient_light" None req response ->
  ok response = true ->
  content response = Some (PDict d) ->
  (forall intensity,
      dict_get d "intensity" = Some intensity ->
      get_remote_ambient_light_information s
      = (inr intensity,
         mkState (set_ambient_light_intensity intensity (st_remote s))
           (st_log s ++ [req])%list)) /\
  (dict_get d "intensity" = None ->
   get_remote_ambient_light_information s
   = (inl (KeyError "intensity"), sent s req)).
Proof.
  intros Hx Hok Hbody.
  split; [intros intensity H|intro H];
    unfold get_remote_ambient_light_information;
    rewrite (request_exchange _ _ _ _ _ _ _ Hx); unfold bind;
    rewrite raise_on_error_ok by assumption;
    unfold lift; rewrite (json_content _ _ Hbody); simpl; rewrite H; reflexivity.
Qed.

(** ** Lists that refreshing fills *)

Lemma for_each_cons {A} (x : A) (xs : list A) (body : A -> M unit)
    (s : State) :
  for_each (x :: xs) body s
  = match body x s with
    | (inr _, s') => for_each xs body s'
    | (inl e, s') => (inl e, s')
    end.
Proof. reflexivity. Qed.

Lemma set_docks_idem (r : Remote) (l : list Request) :
  mkState (set_docks (_docks r) r) l = mkState r l.
Proof. destruct r. reflexivity. Qed.

Lemma for_each_docks (docks : list (list (string * pyobj))) (s : State) :
  for_each (map PDict docks)
    (fun dock =>
       active <- lift (py_get dock "active") ;;
       if is_True active then
         name <- lift (py_get dock "name") ;;
         device_id <- lift (py_get dock "device_id") ;;
         modify_remote
           (fun self =>
              set_docks
                (_docks self
                 ++ [PDict [("name", name); ("device_id", device_id)]])%list
                self)
       else ret tt) s
  = (inr tt,
     mkState (set_docks (_docks (st_remote s) ++ active_docks docks)%list
                (st_remote s)) (st_log s)).
Proof.
  match goal with |- for_each _ ?b _ = _ => remember b as body eqn:Hbody end.
  revert s. induction docks as [|dock rest IH]; intro s.
  - simpl. unfold ret, active_docks. simpl. rewrite app_nil_r.
    destruct s as [r l]. simpl. rewrite set_docks_idem. reflexivity.
  - cbn [map]. rewrite for_each_cons.
    assert (Hstep : body (PDict dock) s
                    = (inr tt,
                       if is_True (kwargs_get dock "active")
                       then mkState
                              (set_docks
                                 (_docks (st_remote s)
                                  ++ [dock_descriptor dock])%list
                                 (st_remote s)) (st_log s)
                       else s)).
    { subst body. unfold bind, lift. rewrite py_get_dict.
      destruct (is_True (kwargs_get dock "active")); [|reflexivity].
      rewrite !py_get_dict. reflexivity. }
    rewrite Hstep, IH. unfold active_docks. cbn [filter].
    destruct (is_True (kwargs_get dock "active")); [|reflexivity].
    cbn [st_remote st_log map _docks set_docks].
    rewrite <- app_assoc. reflexivity.
Qed.

Lemma get_docks_run (s : State) (req : Request) (response : Response)
    (docks : list (list (string * pyobj))) :
  exchange s GET "ir/emitters" None req response ->
  ok response = true ->
  content response = Some (PList (map PDict docks)) ->
  get_docks s
  = (inr (_docks (st_remote s) ++ active_docks docks)%list,
     mkState (set_docks (_docks (st_remote s) ++ active_docks docks)%list
                (st_remote s)) (st_log s ++ [req])%list).
Proof.
  intros Hx Hok Hbody. unfold get_docks.
  rewrite (request_exchange _ _ _ _ _ _ _ Hx). unfold bind at 1 2 3.
  rewrite raise_on_error_ok by assumption.
  unfold lift at 1. rewrite (json_content _ _ Hbody). unfold lift at 1, py_iter.
  unfold bind at 1. rewrite for_each_docks. reflexivity.
Qed.

(** X11: [get_docks], answered with a list of dock objects, appends to
    the known docks the descriptor (name and device id, [None] for a
    missing one) of each dock whose [active] is [True], in the order of the
    reply, and returns the whole list. Nothing is replaced: the docks known
    before stay in front, so fetching twice lists every active dock
    twice. *)
Theorem get_docks_appends (s : State) (req : Request) (response : Response)
    (docks : list (list (string * pyobj))) :
  exchange s GET "ir/emitters" None req response ->
  ok response = true ->
  content response = Some (PList (map PDict docks)) ->
  get_docks s
  = (inr (_docks (st_remote s) ++ active_docks docks)%list,
     mkState (set_docks (_docks (st_remote s) ++ active_docks docks)%list
                (st_remote s)) (st_log s ++ [req])%list).
Proof.
  intros Hx Hok Hbody. apply (get_docks_run _ _ _ _ Hx Hok Hbody).
Qed.

Lemma set_activities_idem (r : Remote) (l : list Request) :
  mkState (set_activities (activities r) r) l = mkState r l.
Proof. destruct r. reflexivity. Qed.

Lemma for_each_activities (items : list pyobj) (acts : list Activity)
    (s : State) :
  Forall2 (fun item a => Activity_init item = inr a) items acts ->
  for_each items
    (fun activity =>
       a <- lift (Activity_init activity) ;;
       modify_remote
         (fun self => set_activities (activities self ++ [a])%list self)) s
  = (inr tt,
     mkState (set_activities (activities (st_remote s) ++ acts)%list
                (st_remote s)) (st_log s)).
Proof.
  match goal with |- _ -> for_each _ ?b _ = _ =>
    remember b as body eqn:Hbody end.
  intro H. revert s. induction H as [|item a items acts Ha _ IH]; intro s.
  - simpl. unfold ret. rewrite app_nil_r. destruct s as [r l]. simpl.
    rewrite set_activities_idem. reflexivity.
  - rewrite for_each_cons.
    assert (Hstep : body item s
                    = (inr tt,
                       mkState
                         (set_activities
                            (activities (st_remote s) ++ [a])%list
                            (st_remote s)) (st_log s))).
    { subst body. unfold bind, lift. rewrite Ha. reflexivity. }
    rewrite Hstep, IH. cbn [st_remote st_log activities set_activities].
    rewrite <- app_assoc. reflexivity.
Qed.

Lemma for_each_activities_stops (good rest : list pyobj) (bad : pyobj)
    (acts : list Activity) (e : exn) (s : State) :
  Forall2 (fun item a => Activity_init item = inr a) good acts ->
  Activity_init bad = inl e ->
  for_each (good ++ bad :: rest)
    (fun activity =>
       a <- lift (Activity_init activity) ;;
       modify_remote
         (fun self => set_activities (activities self ++ [a])%list self)) s
  = (inl e,
     mkState (set_activities (activities (st_remote s) ++ acts)%list
                (st_remote s)) (st_log s)).
Proof.
  match goal with |- _ -> _ -> for_each _ ?b _ = _ =>
    remember b as body eqn:Hbody end.
  intros H Hbad. revert s.
  induction H as [|item a items acts Ha _ IH]; intro s.
  - cbn [app]. rewrite for_each_cons.
    assert (Hstep : body bad s = (inl e, s)).
    { subst body. unfold bind, lift. rewrite Hbad. reflexivity. }
    rewrite Hstep, app_nil_r. destruct s as [r l]. simpl.
    rewrite set_activities_idem. reflexivity.
  - cbn [app]. rewrite for_each_cons.
    assert (Hstep : body item s
                    = (inr tt,
                       mkState
                         (set_activities
                            (activities (st_remote s) ++ [a])%list
                            (st_remote s)) (st_log s))).
    { subst body. unfold bind, lift. rewrite Ha. reflexivity. }
    rewrite Hstep, IH. cbn [st_remote st_log activities set_activities].
    rewrite <- app_assoc. reflexivity.
Qed.

(** X12: [Activity(activity, remote)] takes the English name, the entity
    id and the state of an activity object; the state is [None] (so
    [is_on] is false) when [attributes] holds no [state]. It needs [name]
    with [en] and [entity_id], raising the [KeyError] of the first of them
    that is missing, and it needs [attributes]: without it the state is
    read off [None] and [AttributeError] is raised. *)
Theorem Activity_init_spec (d : list (string * pyobj)) :
  (forall names en entity_id attributes,
      dict_get d "name" = Some (PDict names) ->
      dict_get names "en" = Some en ->
      dict_get d "entity_id" = Some entity_id ->
      dict_get d "attributes" = Some (PDict attributes) ->
      Activity_init (PDict d)
      = inr (mkActivity en entity_id (kwargs_get attributes "state"))
      /\ (dict_get attributes "state" = None ->
          Activity_is_on
            (mkActivity en entity_id (kwargs_get attributes "state"))
          = false)) /\
  (dict_get d "name" = None -> Activity_init (PDict d) = inl (KeyError "name")) /\
  (forall names,
      dict_get d "name" = Some (PDict names) ->
      dict_get names "en" = None ->
      Activity_init (PDict d) = inl (KeyError "en")) /\
  (forall names en,
      dict_get d "name" = Some (PDict names) ->
      dict_get names "en" = Some en ->
      dict_get d "entity_id" = None ->
      Activity_init (PDict d) = inl (KeyError "entity_id")) /\
  (forall names en entity_id,
      dict_get d "name" = Some (PDict names) ->
      dict_get names "en" = Some en ->
      dict_get d "entity_id" = Some entity_id ->
      dict_get d "attributes" = None ->
      Activity_init (PDict d) = inl AttributeError).
Proof.
  unfold Activity_init, py_getitem, py_get, rbind.
  repeat match goal with |- _ /\ _ => split end.
  - intros names en entity_id attributes -> -> -> ->. split.
    + unfold kwargs_get. destruct (dict_get attributes "state"); reflexivity.
    + intro H. unfold kwargs_get. rewrite H. reflexivity.
  - intros ->. reflexivity.
  - intros names -> ->. reflexivity.
  - intros names en -> -> ->. reflexivity.
  - intros names en entity_id -> -> -> ->. reflexivity.
Qed.

(** X13: [get_activities], answered with a list of activity objects,
    appends one [Activity] per object to the session's activities, in the
    order of the reply, and returns the decoded list; the activities held
    before stay in front, so fetching twice holds each activity twice.
    When an object of the list cannot be made into an [Activity], the
    exception is raised with the ones before it already appended. *)
Theorem get_activities_appends (s : State) (req : Request)
    (response : Response) (items : list pyobj) :
  exchange s GET "activities" None req response ->
  ok response = true ->
  content response = Some (PList items) ->
  (forall acts,
      Forall2 (fun item a => Activity_init item = inr a) items acts ->
      get_activities s
      = (inr (PList items),
         mkState (set_activities (activities (st_remote s) ++ acts)%list
                    (st_remote s)) (st_log s ++ [req])%list)) /\
  (forall good bad rest acts e,
      items = (good ++ bad :: rest)%list ->
      Forall2 (fun item a => Activity_init item = inr a) good acts ->
      Activity_init bad = inl e ->
      get_activities s
      = (inl e,
         mkState (set_activities (activities (st_remote s) ++ acts)%list
                    (st_remote s)) (st_log s ++ [req])%list)).
Proof.
  intros Hx Hok Hbody.
  assert (Hrun :
             request GET (inr "activities") None
               (fun response =>
                  raise_on_error response ;;;
                  fetched <- lift (json response) ;;
                  items <- lift (py_iter fetched) ;;
                  for_each items
                    (fun activity =>
                       a <- lift (Activity_init activity) ;;
                       modify_remote
                         (fun self =>
                            set_activities (activities self ++ [a])%list
                              self)) ;;;
                  lift (json response)) s
             = (for_each items
                  (fun activity =>
                     a <- lift (Activity_init activity) ;;
                     modify_remote
                       (fun self =>
                          set_activities (activities self ++ [a])%list
                            self)) ;;;
                lift (json response)) (sent s req)).
  { rewrite (request_exchange _ _ _ _ _ _ _ Hx).
    unfold bind at 1 2 3. rewrite raise_on_error_ok by assumption.
    unfold lift at 1. rewrite (json_content _ _ Hbody). reflexivity. }
  split.
  - intros acts Hall. unfold get_activities. rewrite Hrun.
    unfold bind at 1. rewrite (for_each_activities _ _ _ Hall).
    unfold lift. rewrite (json_content _ _ Hbody). reflexivity.
  - intros good bad rest acts e -> Hgood Hbad. unfold get_activities.
    rewrite Hrun. unfold bind at 1.
    rewrite (for_each_activities_stops _ _ _ _ _ _ Hgood Hbad).
    reflexivity.
Qed.

Lemma set_ir_custom_idem (r : Remote) (l : list Request) :
  mkState (set_ir_custom (_ir_custom r) r) l = mkState r l.
Proof. destruct r. reflexivity. Qed.

Lemma for_each_custom_codesets (code_sets : list (list (string * pyobj)))
    (s : State) :
  for_each (map PDict code_sets)
    (fun ir =>
       dev <- lift (py_get ir "device") ;;
       device_id <- lift (py_get ir "device_id") ;;
       modify_remote
         (fun self =>
            set_ir_custom
              (_ir_custom self
               ++ [PDict [("device", dev); ("device_id", device_id)]])%list
              self)) s
  = (inr tt,
     mkState (set_ir_custom
                (_ir_custom (st_remote s) ++ map codeset_descriptor code_sets)%list
                (st_remote s)) (st_log s)).
Proof.
  match goal with |- for_each _ ?b _ = _ => remember b as body eqn:Hbody end.
  revert s. induction code_sets as [|ir rest IH]; intro s.
  - simpl. unfold ret. rewrite app_nil_r. destruct s as [r l]. simpl.
    rewrite set_ir_custom_idem. reflexivity.
  - cbn [map]. rewrite for_each_cons.
    assert (Hstep : body (PDict ir) s
                    = (inr tt,
                       mkState
                         (set_ir_custom
                            (_ir_custom (st_remote s)
                             ++ [codeset_descriptor ir])%list
                            (st_remote s)) (st_log s))).
    { subst body. unfold bind, lift. rewrite !py_get_dict. reflexivity. }
    rewrite Hstep, IH. cbn [st_remote st_log _ir_custom set_ir_custom].
    rewrite <- app_assoc. reflexivity.
Qed.

(** X14: [get_custom_codesets], answered with a list of codeset objects,
    appends the descriptor (device and device id) of every one of them to
    the custom codesets, in order, and returns the whole list; the ones
    held before stay in front. *)
Theorem get_custom_codesets_appends (s : State) (req : Request)
    (response : Response) (code_sets : list (list (string * pyobj))) :
  exchange s GET "ir/codes/custom" None req response ->
  ok response = true ->
  content response = Some (PList (map PDict code_sets)) ->
  get_custom_codesets s
  = (inr (_ir_custom (st_remote s) ++ map codeset_descriptor code_sets)%list,
     mkState (set_ir_custom
                (_ir_custom (st_remote s)
                 ++ map codeset_descriptor code_sets)%list
                (st_remote s)) (st_log s ++ [req])%list).
Proof.
  intros Hx Hok Hbody. unfold get_custom_codesets.
  rewrite (request_exchange _ _ _ _ _ _ _ Hx). unfold bind at 1 2 3.
  rewrite raise_on_error_ok by assumption.
  unfold lift at 1. rewrite (json_content _ _ Hbody). unfold lift at 1, py_iter.
  unfold bind at 1. rewrite for_each_custom_codesets. reflexivity.
Qed.

Lemma set_remotes_idem (r : Remote) (l : list Request) :
  mkState (set_remotes (_remotes r) r) l = mkState r l.
Proof. destruct r. reflexivity. Qed.

Lemma for_each_remotes (remotes : list (list (string * pyobj)))
    (s : State) :
  Forall named_when_enabled remotes ->
  for_each (map PDict remotes)
    (fun remote =>
       enabled <- lift (py_get remote "enabled") ;;
       if is_True enabled then
         name <- lift (py_get remote "name") ;;
         name_en <- lift (py_get name "en") ;;
         entity_id <- lift (py_get remote "entity_id") ;;
         modify_remote
           (fun self =>
              set_remotes
                (_remotes self
                 ++ [PDict [("name", name_en); ("entity_id", entity_id)]])%list
                self)
       else ret tt) s
  = (inr tt,
     mkState (set_remotes (_remotes (st_remote s) ++ enabled_remotes remotes)%list
                (st_remote s)) (st_log s)).
Proof.
  match goal with |- _ -> for_each _ ?b _ = _ =>
    remember b as body eqn:Hbody end.
  intro H. revert s. induction H as [|remote rest Hname _ IH]; intro s.
  - simpl. unfold ret, enabled_remotes. simpl. rewrite app_nil_r.
    destruct s as [r l]. simpl. rewrite set_remotes_idem. reflexivity.
  - cbn [map]. rewrite for_each_cons.
    assert (Hstep : body (PDict remote) s
                    = (inr tt,
                       if is_True (kwargs_get remote "enabled")
                       then mkState
                              (set_remotes
                                 (_remotes (st_remote s)
                                  ++ [remote_descriptor remote])%list
                                 (st_remote s)) (st_log s)
                       else s)).
    { subst body. unfold bind, lift. rewrite py_get_dict.
      unfold named_when_enabled in Hname.
      destruct (is_True (kwargs_get remote "enabled")); [|reflexivity].
      destruct (Hname eq_refl) as [names Hn].
      rewrite !py_get_dict. unfold remote_descriptor. rewrite Hn.
      unfold kwargs_get at 1. rewrite Hn. rewrite py_get_dict.
      reflexivity. }
    rewrite Hstep, IH. unfold enabled_remotes. cbn [filter].
    destruct (is_True (kwargs_get remote "enabled")); [|reflexivity].
    cbn [st_remote st_log map _remotes set_remotes].
    rewrite <- app_assoc. reflexivity.
Qed.

(** X15: [get_remotes], answered with a list of remote objects, appends
    to the known remotes the descriptor (English name and entity id) of
    each remote whose [enabled] is [True], in the order of the reply, and
    returns the whole list; a remote that is not enabled needs no name.
    The remotes known before stay in front. *)
Theorem get_remotes_appends (s : State) (req : Request)
    (response : Response) (remotes : list (list (string * pyobj))) :
  exchange s GET "remotes" None req response ->
  ok response = true ->
  content response = Some (PList (map PDict remotes)) ->
  Forall named_when_enabled remotes ->
  get_remotes s
  = (inr (_remotes (st_remote s) ++ enabled_remotes remotes)%list,
     mkState (set_remotes (_remotes (st_remote s) ++ enabled_remotes remotes)%list
                (st_remote s)) (st_log s ++ [req])%list).
Proof.
  intros Hx Hok Hbody Hall. unfold get_remotes.
  rewrite (request_exchange _ _ _ _ _ _ _ Hx). unfold bind at 1 2 3.
  rewrite raise_on_error_ok by assumption.
  unfold lift at 1. rewrite (json_content _ _ Hbody). unfold lift at 1, py_iter.
  unfold bind at 1. rewrite (for_each_remotes _ _ Hall). reflexivity.
Qed.

(** ** More on IR commands *)

Lemma first_match_dict (xs : list pyobj) (key : string) (target x : pyobj) :
  first_match xs key target = inr (Some x) -> exists d, x = PDict d.
Proof.
  induction xs as [|y rest IH]; simpl; [discriminate|].
  destruct (py_get y key) as [e|v] eqn:E; simpl; [discriminate|].
  destruct (py_eqb v target); [|exact IH].
  intro H. inversion H. subst.
  destruct x; try discriminate E. eauto.
Qed.

Lemma client_raises_TypeError (self : Remote) (e : exn) :
  client self = inl e -> e = TypeError.
Proof.
  unfold client. destruct (truthy (apikey self)).
  - destruct (apikey self); simpl; intro H; inversion H; reflexivity.
  - destruct (truthy (pin self)); discriminate.
Qed.

Lemma request_TypeError_path {A} (m : Method) (body : option pyobj)
    (k : Response -> M A) (s : State) :
  request m (inl TypeError) body k s = (inl TypeError, s).
Proof.
  unfold request, bind, get_remote, lift.
  destruct (client (st_remote s)) as [e|[session|]] eqn:E;
    try reflexivity.
  apply client_raises_TypeError in E. subst. reflexivity.
Qed.

(** X16: with a [dock] keyword [send_remote_command] never sends
    anything: it always raises, and the session and the log are as before.
    When the command body is resolved and the name is that of a known dock,
    the emitter is the dock's descriptor and not its device id, and joining
    it into the path raises [TypeError]. *)
Theorem send_remote_command_dock_keyword (device command : string)
    (repeat : Z) (kwargs : list (string * pyobj)) (s : State) :
  has_key kwargs "dock" = true ->
  (exists e,
      send_remote_command device command repeat kwargs s = (inl e, s)) /\
  (forall ir_code device_id dock,
      device <> "" -> command <> "" ->
      first_match (_ir_codesets (st_remote s)) "name" (PStr device)
      = inr (Some ir_code) ->
      py_get ir_code "device_id" = inr device_id ->
      first_match (_docks (st_remote s)) "name" (kwargs_get kwargs "dock")
      = inr (Some dock) ->
      send_remote_command device command repeat kwargs s
      = (inl TypeError, s)).
Proof.
  intro Hk. split.
  - unfold send_remote_command, bind, get_remote, lift. rewrite Hk.
    destruct (negb (device =? "")%string && negb (command =? "")%string);
      [|eexists; reflexivity].
    destruct (first_match (_ir_codesets (st_remote s)) "name" (PStr device))
      as [e|[ir_code|]]; try (eexists; reflexivity).
    destruct (py_get ir_code "device_id") as [e|device_id];
      [eexists; reflexivity|].
    unfold ret.
    destruct (first_match (_docks (st_remote s)) "name"
                (kwargs_get kwargs "dock")) as [e|[dock|]] eqn:Ed;
      try (eexists; reflexivity).
    apply first_match_dict in Ed. destruct Ed as [d ->].
    cbn [str_concat rbind]. rewrite request_TypeError_path.
    eexists; reflexivity.
  - intros ir_code device_id dock Hd Hc Hcs Hid Hdock.
    pose proof (proj2 (nonempty_both device command) (conj Hd Hc)) as Hne.
    unfold send_remote_command, bind, get_remote, lift.
    rewrite Hk, Hne, Hcs, Hid. unfold ret. rewrite Hdock.
    apply first_match_dict in Hdock. destruct Hdock as [d ->].
    cbn [str_concat rbind]. apply request_TypeError_path.
Qed.

(** X17: a device and a command given by name, when no known codeset
    carries the device's name, raise [TypeError] (the codeset is then the
    class [dict], not a dict) before the emitter is looked at and before
    anything is sent; so does every named command on a session whose
    codesets were not fetched yet. *)
Theorem send_remote_command_unknown_device (device command : string)
    (repeat : Z) (kwargs : list (string * pyobj)) (s : State) :
  device <> "" -> command <> "" ->
  (first_match (_ir_codesets (st_remote s)) "name" (PStr device) = inr None ->
   send_remote_command device command repeat kwargs s = (inl TypeError, s)) /\
  (_ir_codesets (st_remote s) = [] ->
   send_remote_command device command repeat kwargs s = (inl TypeError, s)).
Proof.
  intros Hd Hc.
  pose proof (proj2 (nonempty_both device command) (conj Hd Hc)) as Hne.
  assert (H : first_match (_ir_codesets (st_remote s)) "name" (PStr device)
              = inr None ->
              send_remote_command device command repeat kwargs s
              = (inl TypeError, s)).
  { intro Hcs. unfold send_remote_command, bind, get_remote, lift.
    rewrite Hne, Hcs. reflexivity. }
  split; [exact H|]. intro Hnil. apply H. rewrite Hnil. reflexivity.
Qed.

Lemma send_remote_command_run (device command : string) (repeat : Z)
    (kwargs : list (string * pyobj)) (s : State)
    (ir_code device_id dock : pyobj) (others : list pyobj)
    (emitter : string) (req : Request) (response : Response) (j : pyobj) :
  device <> "" -> command <> "" ->
  first_match (_ir_codesets (st_remote s)) "name" (PStr device)
  = inr (Some ir_code) ->
  py_get ir_code "device_id" = inr device_id ->
  dict_get kwargs "dock" = None ->
  _docks (st_remote s) = dock :: others ->
  py_get dock "device_id" = inr (PStr emitter) ->
  exchange s PUT ("ir/emitters/" ++ emitter ++ "/send")
    (Some (ir_command_body device_id command repeat kwargs)) req response ->
  ok response = true ->
  content response = Some j ->
  send_remote_command device command repeat kwargs s
  = (inr (py_eqb j (PInt 200)), sent s req).
Proof.
  intros Hd Hc Hcs Hid Hk Hdocks He Hx Hok Hbody.
  pose proof (proj2 (nonempty_both device command) (conj Hd Hc)) as Hne.
  unfold send_remote_command, bind, get_remote, lift, has_key, kwargs_get,
    ret.
  rewrite Hne, Hcs, Hid, Hk, Hdocks, He. cbn [str_concat rbind].
  rewrite append_assoc. unfold ir_command_body in Hx.
  destruct (repeat >? 0); destruct (dict_get kwargs "port");
    cbn [app] in Hx; cbn [dict_merge fold_left dict_set fst snd String.eqb
                            Ascii.eqb Bool.eqb];
    rewrite (request_exchange _ _ _ _ _ _ _ Hx); unfold bind;
    rewrite raise_on_error_ok by assumption;
    unfold lift; rewrite (json_content _ _ Hbody); reflexivity.
Qed.

(** X18: a named command without [dock] keyword, on a session that knows
    the device's codeset and at least one dock with a string device id,
    PUTs to [ir/emitters/<first dock's id>/send] the codeset id and the
    command, with [repeat] only when it is positive and [port_id] only when
    a port is given; a raw [code] and [format] given along are not sent.
    On an ok reply it returns whether the decoded body equals the number
    200, not whether the status is 200: a reply whose body is a JSON
    object returns [False]. *)
Theorem send_remote_command_sends (device command : string) (repeat : Z)
    (kwargs : list (string * pyobj)) (s : State)
    (ir_code device_id dock : pyobj) (others : list pyobj)
    (emitter : string) (req : Request) (response : Response) (j : pyobj) :
  device <> "" -> command <> "" ->
  first_match (_ir_codesets (st_remote s)) "name" (PStr device)
  = inr (Some ir_code) ->
  py_get ir_code "device_id" = inr device_id ->
  dict_get kwargs "dock" = None ->
  _docks (st_remote s) = dock :: others ->
  py_get dock "device_id" = inr (PStr emitter) ->
  exchange s PUT ("ir/emitters/" ++ emitter ++ "/send")
    (Some (ir_command_body device_id command repeat kwargs)) req response ->
  ok response = true ->
  content response = Some j ->
  send_remote_command device command repeat kwargs s
  = (inr (py_eqb j (PInt 200)), sent s req)
  /\ (forall d, j = PDict d -> py_eqb j (PInt 200) = false)
  /\ (j = PInt 200 -> py_eqb j (PInt 200) = true).
Proof.
  intros Hd Hc Hcs Hid Hk Hdocks He Hx Hok Hbody.
  split; [|split; [intros d ->; reflexivity|intros ->; reflexivity]].
  eapply send_remote_command_run; eassumption.
Qed.

(** ** Operations in sequence *)

(** X19: the state set by [turn_on] lasts until the next refresh:
    [update] after a successful [turn_on] stores what the remote reports
    for this activity, be it ["OFF"], and [None] when the remote no longer
    lists the activity, so that [is_on] is false again. *)
Theorem turn_on_then_update (self : Activity) (id : string) (s : State)
    (put reply : Request) (done fetched : Response)
    (entries : list pyobj) :
  _id self = PStr id ->
  exchange s PUT ("entities/" ++ id ++ "/command")
    (Some (activity_command (PStr id) "activity.on")) put done ->
  ok done = true ->
  exchange (sent s put) GET "activities" None reply fetched ->
  ok fetched = true ->
  content fetched = Some (PList entries) ->
  (forall before entry after other attributes state,
      entries = (before ++ entry :: after)%list ->
      Forall (other_activity (PStr id)) before ->
      py_getitem entry "entity_id" = inr other ->
      py_eqb (PStr id) other = true ->
      py_getitem entry "attributes" = inr attributes ->
      py_getitem attributes "state" = inr state ->
      (on <- Activity_turn_on self ;; Activity_update on) s
      = (inr (set_state state self), sent (sent s put) reply)) /\
  (Forall (other_activity (PStr id)) entries ->
   (on <- Activity_turn_on self ;; Activity_update on) s
   = (inr (set_state PNone self), sent (sent s put) reply)
   /\ Activity_is_on (set_state PNone self) = false).
Proof.
  intros Hid Hput Hdone Hget Hfetched Hbody.
  assert (Hon : Activity_turn_on self s
                = (inr (set_state (PStr "ON") self), sent s put)).
  { unfold Activity_turn_on. rewrite Hid. simpl.
    unfold activity_command in Hput.
    rewrite (request_exchange _ _ _ _ _ _ _ Hput). unfold bind.
    rewrite raise_on_error_ok by assumption. reflexivity. }
  assert (Hrun : (on <- Activity_turn_on self ;; Activity_update on) s
                 = match find_activity_state entries (PStr id) with
                   | inl e => (inl e, sent (sent s put) reply)
                   | inr state =>
                       (inr (set_state state self), sent (sent s put) reply)
                   end).
  { unfold bind at 1. rewrite Hon. unfold Activity_update, bind.
    cbn [_id set_state]. rewrite Hid.
    rewrite (get_activity_state_fetched _ _ _ _ _ Hget Hfetched Hbody).
    destruct (find_activity_state entries (PStr id)); reflexivity. }
  split.
  - intros before entry after other attributes state -> Hb Ho Heq Ha Hs.
    rewrite Hrun.
    rewrite (find_activity_state_first _ _ _ _ _ _ _ Hb Ho Heq Ha Hs).
    reflexivity.
  - intro Hall. rewrite Hrun, (find_activity_state_none _ _ Hall).
    split; reflexivity.
Qed.

(** X20: once [create_api_key] has stored a non-empty key, the next
    request of the session goes out with the bearer session of that key,
    also when the session was built with a PIN: the PIN is used for the
    creating POST only. *)
Theorem create_api_key_then_bearer {A} (s : State) (post : Request)
    (created : Response) (api_info : pyobj) (key : string) (m : Method)
    (path u : string) (body : option pyobj) (k : Response -> M A)
    (response : Response) :
  exchange s POST "auth/api_keys"
    (Some (PDict [("name", PStr "pyUnfoldedCircle");
                  ("scopes", PList [PStr "admin"])])) post created ->
  ok created = true ->
  content created = Some api_info ->
  py_getitem api_info "api_key" = inr (PStr key) ->
  key <> "" ->
  url (st_remote s) path = inr u ->
  server (st_log s ++ [post])%list
    (mkRequest m u body (BearerSession ("Bearer " ++ key) 5))
  = Some response ->
  (create_api_key ;;; request m (inr path) body k) s
  = k response
      (mkState (set_apikey (PStr key) (st_remote s))
         (st_log s ++ [post]
          ++ [mkRequest m u body (BearerSession ("Bearer " ++ key) 5)])%list).
Proof.
  intros Hx Hok Hbody Hkey Hne Hu Hs.
  unfold bind at 1.
  rewrite (create_api_key_stores _ _ _ _ _ Hx Hok Hbody Hkey).
  rewrite (request_exchange m path body k _
             (mkRequest m u body (BearerSession ("Bearer " ++ key) 5))
             response).
  - unfold sent. cbn [st_remote st_log]. rewrite <- app_assoc. reflexivity.
  - exists (BearerSession ("Bearer " ++ key) 5), u.
    cbn [st_remote st_log]. repeat split.
    + apply client_bearer_iff. exists key. auto.
    + exact Hu.
    + exact Hs.
Qed.

Lemma get_remote_codesets_one (s : State) (remote : list (string * pyobj))
    (entity_id : string) (req : Request) (response : Response)
    (code_set : list (string * pyobj)) :
  _remotes (st_remote s) = [PDict remote] ->
  dict_get remote "entity_id" = Some (PStr entity_id) ->
  exchange s GET ("remotes/" ++ entity_id ++ "/ir") None req response ->
  ok response = true ->
  content response = Some (PDict code_set) ->
  get_remote_codesets s
  = (inr (_ir_codesets (st_remote s)
          ++ [PDict [("name", kwargs_get remote "name");
                     ("device_id", kwargs_get code_set "id")]])%list,
     mkState
       (set_ir_codesets
          (_ir_codesets (st_remote s)
           ++ [PDict [("name", kwargs_get remote "name");
                      ("device_id", kwargs_get code_set "id")]])%list
          (st_remote s)) (st_log s ++ [req])%list).
Proof.
  intros Hr Hid Hx Hok Hbody.
  unfold get_remote_codesets, bind at 1 2, get_remote at 1.
  rewrite Hr. rewrite for_each_cons.
  rewrite py_get_dict. unfold kwargs_get at 1. rewrite Hid.
  cbn [str_concat rbind]. rewrite append_assoc.
  rewrite (request_exchange _ _ _ _ _ _ _ Hx). unfold bind at 1 2 3 4.
  rewrite raise_on_error_ok by assumption.
  unfold lift at 1. rewrite (json_content _ _ Hbody).
  unfold lift. rewrite !py_get_dict. reflexivity.
Qed.

Lemma set_ir_codesets_idem (r : Remote) (l : list Request) :
  mkState (set_ir_codesets (_ir_codesets r) r) l = mkState r l.
Proof. destruct r. reflexivity. Qed.

Lemma fetched_nil (s : State) : fetched s [] = s.
Proof.
  unfold fetched. cbn [map]. rewrite !app_nil_r.
  rewrite set_ir_codesets_idem. destruct s. reflexivity.
Qed.

Lemma fetched_cons (s : State) (f : CodesetFetch)
    (rest : list CodesetFetch) :
  fetched (fetched s [f]) rest = fetched s (f :: rest).
Proof.
  unfold fetched. cbn [st_remote st_log map]. destruct (st_remote s).
  cbn [set_ir_codesets _ir_codesets endpoint configuration_url apikey pin
         activities _name _model_name _model_number _serial_number
         _hw_revision _ambient_light_intensity _remotes _docks _ir_custom].
  rewrite <- !app_assoc. reflexivity.
Qed.

Lemma for_each_codesets (fetches : list CodesetFetch) :
  forall s,
    codeset_fetches s fetches ->
    for_each (map (fun f => PDict (fetch_remote f)) fetches)
      (fun remote =>
         request GET
           (rbind (py_get remote "entity_id") (fun entity_id =>
            rbind (str_concat "remotes/" entity_id) (fun s =>
            inr (s ++ "/ir"))))
           None
           (fun response =>
              raise_on_error response ;;;
              code_set <- lift (json response) ;;
              name <- lift (py_get remote "name") ;;
              device_id <- lift (py_get code_set "id") ;;
              modify_remote
                (fun self =>
                   set_ir_codesets
                     (_ir_codesets self
                      ++ [PDict [("name", name);
                                 ("device_id", device_id)]])%list
                     self))) s
    = (inr tt, fetched s fetches).
Proof.
  induction fetches as [|f rest IH]; intros s H.
  - rewrite fetched_nil. reflexivity.
  - destruct H as [(entity_id & response & Hid & Hx & Hok & Hbody) Hrest].
    cbn [map]. rewrite for_each_cons.
    match goal with |- context [for_each _ ?b] => set (body := b) end.
    assert (Hstep : body (PDict (fetch_remote f)) s
                    = (inr tt, fetched s [f])).
    { unfold body. rewrite py_get_dict. unfold kwargs_get at 1. rewrite Hid.
      cbn [str_concat rbind]. rewrite append_assoc.
      rewrite (request_exchange _ _ _ _ _ _ _ Hx). unfold bind.
      rewrite raise_on_error_ok by assumption.
      unfold lift. rewrite (json_content _ _ Hbody).
      rewrite !py_get_dict. reflexivity. }
    unfold body in Hstep. cbv beta in Hstep. rewrite Hstep.
    cbv beta iota. unfold body.
    rewrite (IH _ Hrest). rewrite fetched_cons. reflexivity.
Qed.

(** X21: [get_remote_codesets] sends one GET per known remote, in the
    order in which they are known, each to [remotes/<entity id>/ir], and
    appends for each the remote's name with the [id] of the codeset object
    of the reply, behind the codesets held before; it returns the whole
    list. With no remote known it sends nothing and returns the codesets
    as they are, on a session without credentials too. *)
Theorem get_remote_codesets_spec (s : State) :
  (_remotes (st_remote s) = [] ->
   get_remote_codesets s = (inr (_ir_codesets (st_remote s)), s)) /\
  (forall fetches,
      _remotes (st_remote s)
      = map (fun f => PDict (fetch_remote f)) fetches ->
      codeset_fetches s fetches ->
      get_remote_codesets s
      = (inr (_ir_codesets (st_remote s)
              ++ map fetch_descriptor fetches)%list,
         mkState
           (set_ir_codesets
              (_ir_codesets (st_remote s)
               ++ map fetch_descriptor fetches)%list
              (st_remote s))
           (st_log s ++ map fetch_request fetches)%list)).
Proof.
  split.
  - intro Hnil. unfold get_remote_codesets, bind, get_remote.
    rewrite Hnil. reflexivity.
  - intros fetches Hr H.
    unfold get_remote_codesets, bind at 1 2, get_remote at 1.
    rewrite Hr. rewrite (for_each_codesets _ _ H). reflexivity.
Qed.

(** X22: fetching the codeset of a remote and then sending a command by
    that remote's name go together: on a session that knows one remote and
    no codeset yet, [get_remote_codesets] followed by
    [send_remote_command] with the remote's name PUTs, to the first known
    dock, the [id] of the fetched codeset as [codeset_id]. *)
Theorem codesets_then_command (s : State)
    (remote code_set : list (string * pyobj))
    (entity_id name command emitter : string) (repeat : Z)
    (kwargs : list (string * pyobj)) (dock : pyobj) (others : list pyobj)
    (get put : Request) (fetched done : Response) (j : pyobj) :
  _remotes (st_remote s) = [PDict remote] ->
  _ir_codesets (st_remote s) = [] ->
  dict_get remote "entity_id" = Some (PStr entity_id) ->
  dict_get remote "name" = Some (PStr name) ->
  name <> "" -> command <> "" ->
  exchange s GET ("remotes/" ++ entity_id ++ "/ir") None get fetched ->
  ok fetched = true ->
  content fetched = Some (PDict code_set) ->
  dict_get kwargs "dock" = None ->
  _docks (st_remote s) = dock :: others ->
  py_get dock "device_id" = inr (PStr emitter) ->
  exchange
    (mkState
       (set_ir_codesets
          [PDict [("name", PStr name);
                  ("device_id", kwargs_get code_set "id")]] (st_remote s))
       (st_log s ++ [get])%list)
    PUT ("ir/emitters/" ++ emitter ++ "/send")
    (Some (ir_command_body (kwargs_get code_set "id") command repeat kwargs))
    put done ->
  ok done = true ->
  content done = Some j ->
  (get_remote_codesets ;;; send_remote_command name command repeat kwargs) s
  = (inr (py_eqb j (PInt 200)),
     mkState
       (set_ir_codesets
          [PDict [("name", PStr name);
                  ("device_id", kwargs_get code_set "id")]] (st_remote s))
       (st_log s ++ [get] ++ [put])%list).
Proof.
  intros Hr Hcs Hid Hname Hn Hc Hget Hfetched Hbody Hk Hdocks He Hput Hdone
    Hj.
  set (s1 := mkState
               (set_ir_codesets
                  [PDict [("name", PStr name);
                          ("device_id", kwargs_get code_set "id")]]
                  (st_remote s)) (st_log s ++ [get])%list) in *.
  assert (Hone : exists v, get_remote_codesets s = (inr v, s1)).
  { eexists.
    rewrite (get_remote_codesets_one _ _ _ _ _ _ Hr Hid Hget Hfetched Hbody).
    rewrite Hcs. cbn [app]. subst s1.
    replace (kwargs_get remote "name") with (PStr name)
      by (unfold kwargs_get; rewrite Hname; reflexivity).
    reflexivity. }
  destruct Hone as [v Hone]. unfold bind at 1. rewrite Hone.
  assert (Hsend : send_remote_command name command repeat kwargs s1
                  = (inr (py_eqb j (PInt 200)), sent s1 put)).
  { apply (send_remote_command_run name command repeat kwargs s1
             (PDict [("name", PStr name);
                     ("device_id", kwargs_get code_set "id")])
             (kwargs_get code_set "id") dock others emitter put done j);
      try assumption.
    - subst s1. cbn [st_remote _ir_codesets set_ir_codesets first_match].
      simpl. rewrite String.eqb_refl. reflexivity.
    - reflexivity. }
  rewrite Hsend. subst s1. unfold sent. cbn [st_remote st_log].
  rewrite <- app_assoc. reflexivity.
Qed.

(** ** The constructor *)

(** X23: [Remote(host, pin, apikey)] for a bare host, with or without a
    port, that does not start with [http]: the endpoint is
    [http://<host>/api/], the configuration URL
    [http://<host>/configurator/] (the port is kept in both), the
    credentials are the ones given, and nothing is known yet: no activity,
    remote, dock or codeset. *)
Theorem Remote_init_bare_host (h : string) (pin apikey : pyobj) :
  re_search_http h = false ->
  forallb_str host_char h = true ->
  Remote_init h pin apikey
  = inr (mkRemote ("http://" ++ h ++ "/api/")
           ("http://" ++ h ++ "/configurator/") apikey pin [] (PStr "")
           (PStr "") (PStr "") (PStr "") (PStr "") (PInt 0) [] [] [] []).
Proof.
  intros Hre Hh. unfold Remote_init.
  assert (Hv : validate_url h = inr ("http://" ++ h ++ "/api/")).
  { unfold validate_url. rewrite Hre.
    rewrite <- (append_empty_r h) at 1.
    rewrite (urlparse_http_host h "" Hh (or_introl eq_refl)).
    simpl. reflexivity. }
  rewrite Hv. unfold rbind at 1. unfold derive_configuration_url.
  rewrite (urlparse_http_host h "/api/" Hh (or_intror eq_refl)).
  reflexivity.
Qed.

(** ** The exceptions of each operation *)

Lemma builtin_py_iter (v : pyobj) (e : exn) :
  py_iter v = inl e -> builtin_error e = true.
Proof. destruct v; simpl; intro H; inversion H; reflexivity. Qed.

Lemma builtin_find_api_key_id (keys : list pyobj) (key_name : string)
    (e : exn) :
  find_api_key_id keys key_name = inl e -> builtin_error e = true.
Proof.
  induction keys as [|key rest IH]; simpl; [discriminate|].
  destruct (py_getitem key "name") as [e'|name] eqn:E; simpl.
  - intro H; inversion H; subst. eapply builtin_py_getitem; eauto.
  - destruct (py_eqb name (PStr key_name)); [|exact IH].
    destruct (py_getitem key "key_id") as [e'|id] eqn:E'; simpl;
      [|discriminate].
    intro H; inversion H; subst. eapply builtin_py_getitem; eauto.
Qed.

Lemma builtin_find_activity_state (entries : list pyobj) (id : pyobj)
    (e : exn) :
  find_activity_state entries id = inl e -> builtin_error e = true.
Proof.
  induction entries as [|entry rest IH]; simpl; [discriminate|].
  destruct (py_getitem entry "entity_id") as [e'|other] eqn:E; simpl.
  - intro H; inversion H; subst. eapply builtin_py_getitem; eauto.
  - destruct (py_eqb id other); [|exact IH].
    destruct (py_getitem entry "attributes") as [e'|a] eqn:E'; simpl.
    + intro H; inversion H; subst. eapply builtin_py_getitem; eauto.
    + apply builtin_py_getitem.
Qed.

Lemma builtin_Activity_init (activity : pyobj) (e : exn) :
  Activity_init activity = inl e -> builtin_error e = true.
Proof.
  unfold Activity_init.
  destruct (py_getitem activity "name") as [e1|name] eqn:E1; simpl;
    [intro H; inversion H; subst; eapply builtin_py_getitem; eauto|].
  destruct (py_getitem name "en") as [e2|en] eqn:E2; simpl;
    [intro H; inversion H; subst; eapply builtin_py_getitem; eauto|].
  destruct (py_getitem activity "entity_id") as [e3|id] eqn:E3; simpl;
    [intro H; inversion H; subst; eapply builtin_py_getitem; eauto|].
  destruct (py_get activity "attributes") as [e4|a] eqn:E4; simpl;
    [intro H; inversion H; subst; eapply builtin_py_get; eauto|].
  destruct (py_get a "state") as [e5|st] eqn:E5; simpl; [|discriminate].
  intro H; inversion H; subst. eapply builtin_py_get; eauto.
Qed.

Lemma builtin_concat_path (prefix suffix : string) (x : pyobj) (e : exn) :
  rbind (str_concat prefix x) (fun s => inr (s ++ suffix)) = inl e ->
  builtin_error e = true.
Proof. destruct x; simpl; intro H; inversion H; reflexivity. Qed.

Lemma builtin_get_concat_path (prefix suffix key : string) (x : pyobj)
    (e : exn) :
  rbind (py_get x key)
    (fun v => rbind (str_concat prefix v) (fun s => inr (s ++ suffix)))
  = inl e ->
  builtin_error e = true.
Proof.
  destruct (py_get x key) as [e'|v] eqn:E; simpl.
  - intro H; inversion H; subst. eapply builtin_py_get; eauto.
  - apply builtin_concat_path.
Qed.

Lemma builtin_inr {A} (a : A) (e : exn) :
  @inr exn A a = inl e -> builtin_error e = true.
Proof. discriminate. Qed.

Section Taxonomy.

Variable P : exn -> bool.
Hypothesis P_common : forall e, common_error e = true -> P e = true.

Lemma P_of_builtin (e : exn) : builtin_error e = true -> P e = true.
Proof using P_common.
  intro H. apply P_common. unfold common_error. rewrite H. reflexivity.
Qed.

Lemma P_of_HTTPError (status_code : Z) (message : string) :
  P (HTTPError status_code message) = true.
Proof using P_common. apply P_common. reflexivity. Qed.

Lemma raises_only_for_each {A} (xs : list A) (body : A -> M unit) :
  (forall x, raises_only P (body x)) -> raises_only P (for_each xs body).
Proof.
  intro Hb. induction xs as [|x rest IH]; simpl.
  - apply raises_only_ret.
  - apply raises_only_bind; [apply Hb|]. intros _. exact IH.
Qed.

Ltac raises :=
  repeat first
    [ apply raises_only_ret
    | apply raises_only_get_remote
    | apply raises_only_modify_remote
    | apply raises_only_raise_on_error;
        [exact P_of_builtin | exact P_of_HTTPError]
    | apply raises_only_lift;
        [ exact P_of_builtin
        | first [ apply builtin_json | apply builtin_py_getitem
                | apply builtin_py_get | apply builtin_py_iter
                | apply builtin_find_api_key_id
                | apply builtin_find_activity_state
                | apply builtin_Activity_init | apply builtin_first_match
                | apply builtin_inr ] ]
    | apply raises_only_request;
        [ exact P_of_builtin
        | first [ apply builtin_inr | apply builtin_concat_path
                | apply builtin_get_concat_path | apply builtin_str_concat ]
        | intro ]
    | apply raises_only_for_each; intro
    | apply raises_only_bind; [|intro]
    | match goal with
      | |- raises_only _ (if ?b then _ else _) => destruct b
      | |- raises_only _ (match ?x with _ => _ end) => destruct x
      end ].

Lemma can_connect_raises : raises_only builtin_error can_connect.
Proof using Type.
  unfold can_connect.
  apply raises_only_request; [auto|apply builtin_inr|].
  intro response. apply raises_only_ret.
Qed.

Lemma get_api_keys_raises : raises_only P get_api_keys.
Proof using P_common. unfold get_api_keys. raises. Qed.

Lemma create_api_key_raises_only : raises_only P create_api_key.
Proof using P_common. unfold create_api_key. raises. Qed.

Lemma revoke_api_key_raises (key_name : string) :
  (forall name message, P (ApiKeyNotFound name message) = true) ->
  raises_only P (revoke_api_key key_name).
Proof using P_common.
  intro Hk. unfold revoke_api_key, get_api_keys. raises.
  apply raises_only_raise. apply Hk.
Qed.

Lemma get_remote_information_raises : raises_only P get_remote_information.
Proof using P_common. unfold get_remote_information. raises. Qed.

Lemma get_remote_configuration_raises :
  raises_only P get_remote_configuration.
Proof using P_common. unfold get_remote_configuration. raises. Qed.

Lemma get_activities_raises : raises_only P get_activities.
Proof using P_common. unfold get_activities. raises. Qed.

Lemma get_remote_ambient_light_information_raises :
  raises_only P get_remote_ambient_light_information.
Proof using P_common. unfold get_remote_ambient_light_information. raises. Qed.

Lemma update_remote_raises : raises_only P update_remote.
Proof using P_common. unfold update_remote. raises. Qed.

Lemma get_update_status_raises : raises_only P get_update_status.
Proof using P_common. unfold get_update_status. raises. Qed.

Lemma get_activity_state_raises (entity_id : pyobj) :
  raises_only P (get_activity_state entity_id).
Proof using P_common. unfold get_activity_state. raises. Qed.

Lemma post_system_command_raises (cmd : string) :
  (forall message, P (SystemCommandNotFound message) = true) ->
  raises_only P (post_system_command cmd).
Proof using P_common.
  intro Hc. unfold post_system_command. raises.
  apply raises_only_raise. apply Hc.
Qed.

Lemma get_remotes_raises : raises_only P get_remotes.
Proof using P_common. unfold get_remotes. raises. Qed.

Lemma get_custom_codesets_raises : raises_only P get_custom_codesets.
Proof using P_common. unfold get_custom_codesets. raises. Qed.

Lemma get_docks_raises : raises_only P get_docks.
Proof using P_common. unfold get_docks. raises. Qed.

Lemma get_remote_codesets_raises : raises_only P get_remote_codesets.
Proof using P_common. unfold get_remote_codesets. raises. Qed.

Lemma Activity_turn_on_raises (self : Activity) :
  raises_only P (Activity_turn_on self).
Proof using P_common. unfold Activity_turn_on. raises. Qed.

Lemma Activity_turn_off_raises (self : Activity) :
  raises_only P (Activity_turn_off self).
Proof using P_common. unfold Activity_turn_off. raises. Qed.

Lemma Activity_update_raises (self : Activity) :
  raises_only P (Activity_update self).
Proof using P_common. unfold Activity_update, get_activity_state. raises. Qed.

Lemma send_remote_command_raises_only (device command : string)
    (repeat : Z) (kwargs : list (string * pyobj)) :
  (forall message, P (InvalidIRFormat message) = true) ->
  (forall message, P (NoEmitterFound message) = true) ->
  raises_only P (send_remote_command device command repeat kwargs).
Proof using P_common.
  intros Hi Hn. unfold send_remote_command.
  raises;
    try (apply raises_only_raise;
         first [apply Hi | apply Hn | apply P_of_builtin; reflexivity]).
Qed.

End Taxonomy.

(** X24: the exceptions of each operation. [can_connect] raises only
    exceptions of Python or of the HTTP client, never an [HTTPError]. The
    refresh operations, the API-key listing and creation and the activity
    commands raise those or the [HTTPError] of a reply, and none of the
    module's other exceptions; [revoke_api_key] adds [ApiKeyNotFound],
    [post_system_command] adds [SystemCommandNotFound], and
    [send_remote_command] adds [InvalidIRFormat] and [NoEmitterFound].
    [AuthenticationError] is raised by none of them. *)
Theorem error_taxonomy :
  raises_only builtin_error can_connect
  /\ raises_only common_error get_api_keys
  /\ raises_only common_error create_api_key
  /\ raises_only common_error get_remote_information
  /\ raises_only common_error get_remote_configuration
  /\ raises_only common_error get_activities
  /\ raises_only common_error get_remote_ambient_light_information
  /\ raises_only common_error update_remote
  /\ raises_only common_error get_update_status
  /\ (forall entity_id,
         raises_only common_error (get_activity_state entity_id))
  /\ raises_only common_error get_remotes
  /\ raises_only common_error get_custom_codesets
  /\ raises_only common_error get_docks
  /\ raises_only common_error get_remote_codesets
  /\ (forall self, raises_only common_error (Activity_turn_on self))
  /\ (forall self, raises_only common_error (Activity_turn_off self))
  /\ (forall self, raises_only common_error (Activity_update self))
  /\ (forall key_name,
         raises_only (fun e => common_error e || is_ApiKeyNotFound e)
           (revoke_api_key key_name))
  /\ (forall cmd,
         raises_only (fun e => common_error e || is_SystemCommandNotFound e)
           (post_system_command cmd))
  /\ (forall device command repeat kwargs,
         raises_only
           (fun e =>
              common_error e || is_InvalidIRFormat e || is_NoEmitterFound e)
           (send_remote_command device command repeat kwargs))
  /\ (forall e,
         is_AuthenticationError e = true ->
         common_error e || is_ApiKeyNotFound e || is_SystemCommandNotFound e
         || is_InvalidIRFormat e || is_NoEmitterFound e = false).
Proof.
  assert (Hc : forall e, common_error e = true -> common_error e = true)
    by auto.
  repeat match goal with |- _ /\ _ => split end.
  - apply can_connect_raises.
  - apply get_api_keys_raises, Hc.
  - apply create_api_key_raises_only, Hc.
  - apply get_remote_information_raises, Hc.
  - apply get_remote_configuration_raises, Hc.
  - apply get_activities_raises, Hc.
  - apply get_remote_ambient_light_information_raises, Hc.
  - apply update_remote_raises, Hc.
  - apply get_update_status_raises, Hc.
  - intro. apply get_activity_state_raises, Hc.
  - apply get_remotes_raises, Hc.
  - apply get_custom_codesets_raises, Hc.
  - apply get_docks_raises, Hc.
  - apply get_remote_codesets_raises, Hc.
  - intro. apply Activity_turn_on_raises, Hc.
  - intro. apply Activity_turn_off_raises, Hc.
  - intro. apply Activity_update_raises, Hc.
  - intro. apply revoke_api_key_raises.
    + intros e ->. reflexivity.
    + intros. apply orb_true_r.
  - intro. apply post_system_command_raises.
    + intros e ->. reflexivity.
    + intros. apply orb_true_r.
  - intros. apply send_remote_command_raises_only.
    + intros e ->. reflexivity.
    + intros. rewrite orb_true_r. reflexivity.
    + intros. apply orb_true_r.
  - intros e He. destruct e; try discriminate He. reflexivity.
Qed.

(** X25: fetching the docks and then sending a command, on a session
    that knew no dock: when the reply lists no active dock the command
    raises [IndexError]; otherwise it goes to the first active dock of the
    reply. The device is one of a known codeset. *)
Theorem docks_then_command (s : State) (device command : string)
    (repeat : Z) (kwargs : list (string * pyobj))
    (ir_code device_id : pyobj) (get : Request) (fetched : Response)
    (docks : list (list (string * pyobj))) :
  _docks (st_remote s) = [] ->
  device <> "" -> command <> "" ->
  first_match (_ir_codesets (st_remote s)) "name" (PStr device)
  = inr (Some ir_code) ->
  py_get ir_code "device_id" = inr device_id ->
  dict_get kwargs "dock" = None ->
  exchange s GET "ir/emitters" None get fetched ->
  ok fetched = true ->
  content fetched = Some (PList (map PDict docks)) ->
  (active_docks docks = [] ->
   (get_docks ;;; send_remote_command device command repeat kwargs) s
   = (inl IndexError,
      mkState (set_docks [] (st_remote s)) (st_log s ++ [get])%list)) /\
  (forall dock others emitter put done j,
      filter (fun dock => is_True (kwargs_get dock "active")) docks
      = dock :: others ->
      dict_get dock "device_id" = Some (PStr emitter) ->
      exchange
        (mkState (set_docks (active_docks docks) (st_remote s))
           (st_log s ++ [get])%list)
        PUT ("ir/emitters/" ++ emitter ++ "/send")
        (Some (ir_command_body device_id command repeat kwargs)) put done ->
      ok done = true ->
      content done = Some j ->
      (get_docks ;;; send_remote_command device command repeat kwargs) s
      = (inr (py_eqb j (PInt 200)),
         mkState (set_docks (active_docks docks) (st_remote s))
           (st_log s ++ [get] ++ [put])%list)).
Proof.
  intros Hnone Hd Hc Hcs Hid Hk Hget Hfetched Hbody.
  pose proof (get_docks_run _ _ _ _ Hget Hfetched Hbody) as Hrun.
  rewrite Hnone in Hrun. cbn [app] in Hrun.
  pose proof (proj2 (nonempty_both device command) (conj Hd Hc)) as Hne.
  split.
  - intro Hempty. unfold bind at 1. rewrite Hrun, Hempty.
    unfold send_remote_command, bind, get_remote, lift, has_key.
    cbn [st_remote _ir_codesets _docks set_docks].
    rewrite Hne, Hcs, Hid, Hk. reflexivity.
  - intros dock others emitter put done j Hfilter Hem Hput Hdone Hj.
    unfold bind at 1. rewrite Hrun.
    erewrite (send_remote_command_run device command repeat kwargs _
                ir_code device_id (dock_descriptor dock)
                (map dock_descriptor others) emitter put done j);
      try eassumption.
    + unfold sent. cbn [st_remote st_log]. rewrite <- app_assoc.
      reflexivity.
    + cbn [st_remote _docks set_docks]. unfold active_docks.
      rewrite Hfilter. reflexivity.
    + unfold dock_descriptor. simpl. unfold kwargs_get. rewrite Hem.
      reflexivity.
Qed.
End Session.

(** * The properties on the sample sessions *)

(** C4, on ["host/api"]. *)
Lemma validate_url_normalizes_witness :
  In "host/api" ["host"; "host/"; "host/api"]
  /\ validate_url sample_check "host/api" = inr "http://host/api/".
Proof.
  assert (H : In "host/api" ["host"; "host/"; "host/api"])
    by (simpl; auto).
  split; [exact H|].
  exact (proj1 (validate_url_normalizes sample_check) "host/api" H).
Defined.

(** C4 as stated fails: ["["] becomes ["http://["], whose host has an
    unbalanced bracket, and [urlparse] raises. *)
Lemma validate_url_unbalanced_bracket :
  validate_url sample_check "[" = inl (ValueError "Invalid IPv6 URL").
Proof. reflexivity. Qed.

(** C5, on ["BOGUS"] and ["REBOOT"]. *)
Lemma post_system_command_spec_witness :
  post_system_command sample_urljoin sample_format (device_200 (PDict []))
    "BOGUS" sample_state
  = (inl (SystemCommandNotFound "Invalid System Command Supplied"),
     sample_state)
  /\ post_system_command sample_urljoin sample_format
       (device_200 (PDict [])) "REBOOT" sample_state
     = (inr (PDict []),
        sent sample_state
          (mkRequest POST "http://host/api/system?cmd=REBOOT" None
             sample_basic)).
Proof.
  split.
  - apply (proj1 (post_system_command_spec sample_urljoin sample_format
                    (device_200 (PDict [])) "BOGUS" sample_state)).
    simpl. intros [H|[H|[H|[H|[H|[H|[]]]]]]]; discriminate H.
  - apply (proj2 (post_system_command_spec sample_urljoin sample_format
                    (device_200 (PDict [])) "REBOOT" sample_state))
      with (response := mkResponse 200 (JSON (PDict []))).
    + simpl. auto.
    + exists sample_basic, "http://host/api/system?cmd=REBOOT".
      repeat split.
    + reflexivity.
    + reflexivity.
Defined.

(** C6, on a key list without ["missing"]. *)
Lemma revoke_api_key_spec_witness :
  Forall (other_key "missing") sample_keys
  /\ revoke_api_key sample_urljoin sample_format
       (device_200 (PList sample_keys)) "missing" sample_state
     = (inl (ApiKeyNotFound "missing" "API Key 'missing' not found."),
        sent sample_state
          (mkRequest GET "http://host/api/auth/api_keys" None sample_basic)).
Proof.
  assert (Hall : Forall (other_key "missing") sample_keys).
  { repeat constructor.
    - exists (PStr "pyUnfoldedCircle"). split; [reflexivity|discriminate].
    - exists (PStr "other"). split; [reflexivity|discriminate]. }
  split; [exact Hall|].
  refine (proj1 (proj1 (revoke_api_key_spec sample_urljoin sample_format
                          (device_200 (PList sample_keys)) "missing"
                          sample_state _
                          (mkResponse 200 (JSON (PList sample_keys)))
                          sample_keys _ _ _) Hall)).
  - exists sample_basic, "http://host/api/auth/api_keys". repeat split.
  - reflexivity.
  - reflexivity.
Defined.

(** C7, on [sample_activity]. *)
Lemma Activity_turn_on_off_optimistic_witness :
  Activity_turn_on sample_urljoin sample_format (device_200 (PDict []))
    sample_activity sample_state
  = (inr (set_state (PStr "ON") sample_activity),
     sent sample_state
       (mkRequest PUT "http://host/api/entities/uc.main.tv/command"
          (Some (activity_command (PStr "uc.main.tv") "activity.on"))
          sample_basic))
  /\ Activity_is_on (set_state (PStr "ON") sample_activity) = true.
Proof.
  assert (H2xx : 200 <= status (mkResponse 200 (JSON (PDict []))) < 300)
    by (simpl; lia).
  pose proof (proj1 (Activity_turn_on_off_optimistic sample_urljoin
                       sample_format (device_200 (PDict []))
                       sample_activity "uc.main.tv" sample_state
                       (mkRequest PUT
                          "http://host/api/entities/uc.main.tv/command"
                          (Some (activity_command (PStr "uc.main.tv")
                                   "activity.on")) sample_basic)
                       (mkResponse 200 (JSON (PDict [])))
                       eq_refl H2xx)) as H.
  destruct H as (Hon & _ & Hison).
  - exists sample_basic, "http://host/api/entities/uc.main.tv/command".
    repeat split.
  - split; assumption.
Defined.

(** C8, on an activities list without [sample_activity]. *)
Lemma Activity_update_spec_witness :
  Forall (other_activity (_id sample_activity)) sample_activities
  /\ Activity_update sample_urljoin sample_format
       (device_200 (PList sample_activities)) sample_activity sample_state
     = (inr (set_state PNone sample_activity),
        sent sample_state
          (mkRequest GET "http://host/api/activities" None sample_basic)).
Proof.
  assert (Hall : Forall (other_activity (_id sample_activity))
                   sample_activities).
  { repeat constructor. exists (PStr "uc.main.radio").
    split; reflexivity. }
  split; [exact Hall|].
  refine (proj1 (proj2 (proj1 (Activity_update_spec sample_urljoin
                                 sample_format
                                 (device_200 (PList sample_activities))
                                 sample_activity sample_state _
                                 (mkResponse 200
                                    (JSON (PList sample_activities)))
                                 sample_activities _ _ _) Hall))).
  - exists sample_basic, "http://host/api/activities". repeat split.
  - reflexivity.
  - reflexivity.
Defined.

(** C2, on the session without credentials and on the PIN session. *)
Lemma create_api_key_spec_witness :
  create_api_key sample_urljoin sample_format
    (device_200 (PDict [("api_key", PStr "tok")]))
    (mkState sample_anonymous [])
  = (inl TypeError, mkState sample_anonymous [])
  /\ create_api_key sample_urljoin sample_format
       (device_200 (PDict [("api_key", PStr "tok")])) sample_state
     = (inr (PStr "tok"),
        mkState (set_apikey (PStr "tok") sample_remote)
          [mkRequest POST "http://host/api/auth/api_keys"
             (Some (PDict [("name", PStr "pyUnfoldedCircle");
                           ("scopes", PList [PStr "admin"])]))
             sample_basic]).
Proof.
  split.
  - apply (proj1 (proj2 (create_api_key_spec sample_urljoin sample_format
                           (device_200 (PDict [("api_key", PStr "tok")]))
                           (mkState sample_anonymous [])))).
    split; reflexivity.
  - refine (proj1 (proj2 (proj2 (create_api_key_spec sample_urljoin
                                   sample_format
                                   (device_200
                                      (PDict [("api_key", PStr "tok")]))
                                   sample_state))
                     _ (mkResponse 200
                          (JSON (PDict [("api_key", PStr "tok")])))
                     (PDict [("api_key", PStr "tok")]) (PStr "tok")
                     _ _ _ _)).
    + exists sample_basic, "http://host/api/auth/api_keys". repeat split.
    + reflexivity.
    + reflexivity.
    + reflexivity.
Defined.

(** C2 as stated fails: without a PIN the call goes through on the API
    key, and with no credential at all it raises [TypeError]; neither is an
    [AuthenticationError]. *)
Lemma create_api_key_without_pin :
  pin sample_token = PNone
  /\ fst (create_api_key sample_urljoin sample_format
            (device_200 (PDict [("api_key", PStr "tok")]))
            (mkState sample_token []))
     = inr (PStr "tok")
  /\ pin sample_anonymous = PNone
  /\ fst (create_api_key sample_urljoin sample_format
            (device_200 (PDict [("api_key", PStr "tok")]))
            (mkState sample_anonymous []))
     = inl TypeError.
Proof. repeat split. Qed.

(** C9, on the session with an API key and on the PIN session. *)
Lemma client_credential_selection_witness :
  client sample_token = inr (Some (BearerSession "Bearer k3y" 5))
  /\ client sample_remote = inr (Some sample_basic)
  /\ exists s',
       create_api_key sample_urljoin sample_format
         (device_200 (PDict [("api_key", PStr "tok")])) sample_state
       = (inr (PStr "tok"), s')
       /\ client (st_remote s')
          = inr (Some (BearerSession "Bearer tok" 5))
       /\ pin (st_remote s') = PStr "1234".
Proof.
  split; [|split].
  - apply (proj1 (client_credential_selection sample_urljoin sample_format
                    (device_200 PNone) (mkState sample_token []))).
    exists "k3y". repeat split. discriminate.
  - apply (proj1 (proj2 (client_credential_selection sample_urljoin
                           sample_format (device_200 PNone) sample_state))).
    repeat split.
  - refine (proj2 (proj2 (proj2 (client_credential_selection sample_urljoin
                                   sample_format
                                   (device_200
                                      (PDict [("api_key", PStr "tok")]))
                                   sample_state)))
              _ (mkResponse 200 (JSON (PDict [("api_key", PStr "tok")])))
              (PDict [("api_key", PStr "tok")]) "tok" _ _ _ _ _).
    + exists sample_basic, "http://host/api/auth/api_keys". repeat split.
    + reflexivity.
    + reflexivity.
    + reflexivity.
    + discriminate.
Defined.

(** C9 as stated fails: a session built with the default arguments has no
    active credential, neither the token nor the PIN. *)
Lemma session_without_credential :
  exists self,
    Remote_init sample_check "host" PNone PNone = inr self
    /\ client self = inr None
    /\ forall session, client self <> inr (Some session).
Proof.
  eexists. split; [reflexivity|]. split; [reflexivity|].
  intros session H. discriminate H.
Qed.

(** C10, on the session without credentials. *)
Lemma credential_less_operations_fail_witness :
  credential_less sample_anonymous
  /\ client sample_anonymous = inr None
  /\ can_connect sample_urljoin (device_200 PNone)
       (mkState sample_anonymous [])
     = (inl TypeError, mkState sample_anonymous []).
Proof.
  assert (Hc : credential_less (st_remote (mkState sample_anonymous [])))
    by (split; reflexivity).
  pose proof (credential_less_operations_fail sample_urljoin sample_format
                (device_200 PNone) (mkState sample_anonymous []) Hc)
    as (Hclient & _ & Hcan & _).
  split; [exact Hc|]. split; assumption.
Defined.

(** C1 at the failing input: only a raw code and its format. *)
Lemma send_remote_command_raw_code :
  send_remote_command sample_urljoin sample_format (device_200 (PInt 200))
    "" "" 0 [("code", PStr "0000 006D 0000 0022"); ("format", PStr "PRONTO")]
    sample_state
  = (inl (InvalidIRFormat
            "Supply (code and format) or (device and command)"),
     sample_state).
Proof. reflexivity. Qed.

(** C3, on the PIN session before any dock was fetched. *)
Lemma send_remote_command_emitter_witness :
  _docks sample_no_docks = []
  /\ send_remote_command sample_urljoin sample_format
       (device_200 (PInt 200)) "TV" "power" 0 []
       (mkState sample_no_docks [])
     = (inl IndexError, mkState sample_no_docks []).
Proof.
  split; [reflexivity|].
  refine (proj2 (proj2 (send_remote_command_emitter sample_urljoin
                          sample_format (device_200 (PInt 200))
                          "TV" "power" 0 [] (mkState sample_no_docks [])
                          (PDict [("name", PStr "TV");
                                  ("device_id", PStr "uc.ir.1")])
                          (PStr "uc.ir.1") _ _ _ _)) _ _).
  - discriminate.
  - discriminate.
  - reflexivity.
  - reflexivity.
  - reflexivity.
  - reflexivity.
Defined.

(** * The further properties on the sample sessions *)

Lemma validate_url_bare_host_witness :
  re_search_http "192.168.1.20:8080" = false
  /\ validate_url sample_check "192.168.1.20:8080"
     = inr "http://192.168.1.20:8080/api/".
Proof.
  split; [reflexivity|].
  exact (validate_url_bare_host sample_check "192.168.1.20:8080"
           eq_refl eq_refl).
Defined.

Lemma validate_url_http_name_witness :
  validate_url sample_check "httpbin.local" = inr "http://httpbin.local/".
Proof.
  exact (validate_url_http_name sample_check "bin.local" eq_refl).
Defined.

Lemma validate_url_only_extends_witness :
  validate_url sample_check "host/x?y" = inr "http://host/x?y/"
  /\ exists before behind,
       "http://host/x?y/" = before ++ "host/x?y" ++ behind
       /\ In before [""; "http://"]
       /\ In behind [""; "/"; "api/"; "/api/"].
Proof.
  split; [reflexivity|].
  exact (validate_url_only_extends sample_check "host/x?y"
           "http://host/x?y/" eq_refl).
Defined.

Lemma Remote_init_bare_host_witness :
  Remote_init sample_check "host:8080" (PStr "1234") PNone
  = inr (mkRemote "http://host:8080/api/" "http://host:8080/configurator/"
           PNone (PStr "1234") [] (PStr "") (PStr "") (PStr "") (PStr "")
           (PStr "") (PInt 0) [] [] [] []).
Proof.
  exact (Remote_init_bare_host sample_check "host:8080" (PStr "1234") PNone
           eq_refl eq_refl).
Defined.

Lemma raise_on_error_spec_witness :
  raise_on_error sample_str (mkResponse 401 (JSON sample_error_body))
    sample_state
  = (inl (HTTPError 401 "401 Request: UNAUTHORIZED Reason: Invalid PIN"),
     sample_state)
  /\ raise_on_error sample_str (mkResponse 502 NotJSON) sample_state
     = (inl ContentTypeError, sample_state)
  /\ raise_on_error sample_str (mkResponse 500 Blank) sample_state
     = (inl TypeError, sample_state)
  /\ raise_on_error sample_str (mkResponse 302 NotJSON) sample_state
     = (inr (mkResponse 302 NotJSON), sample_state).
Proof.
  split; [|split; [|split]].
  - refine (proj1 (proj2 (raise_on_error_spec sample_str
                            (mkResponse 401 (JSON sample_error_body))
                            sample_state) _)).
    simpl. lia.
  - refine (proj1 (proj2 (raise_on_error_spec sample_str
                            (mkResponse 502 NotJSON) sample_state) _)).
    simpl. lia.
  - refine (proj1 (proj2 (raise_on_error_spec sample_str
                            (mkResponse 500 Blank) sample_state) _)).
    simpl. lia.
  - apply (proj1 (raise_on_error_spec sample_str (mkResponse 302 NotJSON)
                    sample_state)).
    simpl. lia.
Defined.

Lemma failed_reply_leaves_session_witness :
  ok (mkResponse 401 (JSON sample_error_body)) = false
  /\ get_docks sample_urljoin sample_str
       (device_reply 401 (JSON sample_error_body)) sample_state
     = (inl (HTTPError 401 "401 Request: UNAUTHORIZED Reason: Invalid PIN"),
        sent sample_state
          (mkRequest GET "http://host/api/ir/emitters" None sample_basic)).
Proof.
  split; [reflexivity|].
  pose proof (failed_reply_leaves_session sample_urljoin sample_str
                (device_reply 401 (JSON sample_error_body)) sample_state
                (mkRequest GET "http://host/api/ir/emitters" None
                   sample_basic)
                (mkResponse 401 (JSON sample_error_body)) eq_refl) as H.
  destruct H as (_ & _ & _ & _ & _ & _ & _ & _ & _ & _ & _ & Hdocks & _).
  apply Hdocks.
  exists sample_basic, "http://host/api/ir/emitters". repeat split.
Defined.

Lemma can_connect_spec_witness :
  can_connect sample_urljoin (device_reply 401 (JSON sample_error_body))
    sample_state
  = (inr false,
     sent sample_state
       (mkRequest HEAD "http://host/api/activities" None sample_basic)).
Proof.
  exact (proj1 (can_connect_spec sample_urljoin
                  (device_reply 401 (JSON sample_error_body)) sample_state
                  sample_basic "http://host/api/activities" eq_refl eq_refl)
           (mkResponse 401 (JSON sample_error_body)) eq_refl).
Defined.

Lemma get_remote_information_spec_witness :
  exists s',
    get_remote_information sample_urljoin sample_str
      (device_reply 200
         (JSON (PDict [("serial_number", PStr "0042");
                       ("model_number", PStr "")])))
      sample_state
    = (inr (PDict [("serial_number", PStr "0042");
                   ("model_number", PStr "")]), s')
    /\ Remote_serial_number (st_remote s') = PStr "0042"
    /\ Remote_model_number (st_remote s') = PStr "N/A"
    /\ Remote_model_name (st_remote s') = PStr "Remote Two"
    /\ Remote_hw_revision (st_remote s') = PNone.
Proof.
  destruct (get_remote_information_spec sample_urljoin sample_str
              (device_reply 200
                 (JSON (PDict [("serial_number", PStr "0042");
                               ("model_number", PStr "")])))
              sample_state
              (mkRequest GET "http://host/api/system" None sample_basic)
              (mkResponse 200
                 (JSON (PDict [("serial_number", PStr "0042");
                               ("model_number", PStr "")])))
              [("serial_number", PStr "0042"); ("model_number", PStr "")])
    as (s' & Hrun & _ & _ & (_ & _ & Hserial) & (Hname & Hnumber & _) & _
        & (_ & _ & _ & Hhw)).
  - exists sample_basic, "http://host/api/system". repeat split.
  - reflexivity.
  - reflexivity.
  - exists s'. split; [exact Hrun|]. split; [exact Hserial|].
    split; [apply Hnumber; right; reflexivity|].
    split; [apply Hname; left; reflexivity|apply Hhw; reflexivity].
Defined.

Lemma get_remote_configuration_spec_witness :
  get_remote_configuration sample_urljoin sample_str
    (device_reply 200 (JSON (PDict [("pin", PBool true)]))) sample_state
  = (inl AttributeError,
     sent sample_state
       (mkRequest GET "http://host/api/cfg" None sample_basic)).
Proof.
  refine (proj2 (get_remote_configuration_spec sample_urljoin sample_str
                   (device_reply 200 (JSON (PDict [("pin", PBool true)])))
                   sample_state
                   (mkRequest GET "http://host/api/cfg" None sample_basic)
                   (mkResponse 200 (JSON (PDict [("pin", PBool true)])))
                   [("pin", PBool true)] _ _ _) _).
  - exists sample_basic, "http://host/api/cfg". repeat split.
  - reflexivity.
  - reflexivity.
  - reflexivity.
Defined.

Lemma get_remote_ambient_light_information_spec_witness :
  get_remote_ambient_light_information sample_urljoin sample_str
    (device_reply 200 (JSON (PDict [("intensity", PInt 120)]))) sample_state
  = (inr (PInt 120),
     mkState (set_ambient_light_intensity (PInt 120) sample_remote)
       [mkRequest GET "http://host/api/system/sensors/ambient_light" None
          sample_basic]).
Proof.
  refine (proj1 (get_remote_ambient_light_information_spec sample_urljoin
                   sample_str
                   (device_reply 200 (JSON (PDict [("intensity", PInt 120)])))
                   sample_state
                   (mkRequest GET
                      "http://host/api/system/sensors/ambient_light" None
                      sample_basic)
                   (mkResponse 200 (JSON (PDict [("intensity", PInt 120)])))
                   [("intensity", PInt 120)] _ _ _) (PInt 120) _).
  - exists sample_basic, "http://host/api/system/sensors/ambient_light".
    repeat split.
  - reflexivity.
  - reflexivity.
  - reflexivity.
Defined.

Lemma get_docks_appends_witness :
  get_docks sample_urljoin sample_str
    (device_reply 200 (JSON (PList (map PDict sample_docks)))) sample_state
  = (inr [PDict [("name", PStr "Dock"); ("device_id", PStr "uc.dock.1")];
          PDict [("name", PStr "Dock B"); ("device_id", PStr "uc.dock.b")]],
     mkState
       (set_docks
          [PDict [("name", PStr "Dock"); ("device_id", PStr "uc.dock.1")];
           PDict [("name", PStr "Dock B"); ("device_id", PStr "uc.dock.b")]]
          sample_remote)
       [mkRequest GET "http://host/api/ir/emitters" None sample_basic]).
Proof.
  refine (get_docks_appends sample_urljoin sample_str
            (device_reply 200 (JSON (PList (map PDict sample_docks))))
            sample_state
            (mkRequest GET "http://host/api/ir/emitters" None sample_basic)
            (mkResponse 200 (JSON (PList (map PDict sample_docks))))
            sample_docks _ _ _).
  - exists sample_basic, "http://host/api/ir/emitters". repeat split.
  - reflexivity.
  - reflexivity.
Defined.

Lemma Activity_init_spec_witness :
  Activity_init sample_activity_object = inr sample_activity
  /\ Activity_init (PDict [("entity_id", PStr "uc.main.tv");
                           ("name", PDict [("en", PStr "Watch TV")])])
     = inl AttributeError.
Proof.
  split.
  - refine (proj1 (proj1 (Activity_init_spec
                            [("entity_id", PStr "uc.main.tv");
                             ("name", PDict [("en", PStr "Watch TV")]);
                             ("attributes", PDict [("state", PStr "OFF")])])
                     [("en", PStr "Watch TV")] (PStr "Watch TV")
                     (PStr "uc.main.tv") [("state", PStr "OFF")] _ _ _ _));
      reflexivity.
  - refine (proj2 (proj2 (proj2 (proj2 (Activity_init_spec
                                          [("entity_id", PStr "uc.main.tv");
                                           ("name",
                                            PDict [("en", PStr "Watch TV")])]))))
              [("en", PStr "Watch TV")] (PStr "Watch TV")
              (PStr "uc.main.tv") _ _ _ _); reflexivity.
Defined.

Lemma get_activities_appends_witness :
  get_activities sample_urljoin sample_str
    (device_reply 200 (JSON (PList [sample_activity_object])))
    (mkState (set_activities [sample_activity] sample_remote) [])
  = (inr (PList [sample_activity_object]),
     mkState
       (set_activities [sample_activity; sample_activity] sample_remote)
       [mkRequest GET "http://host/api/activities" None sample_basic]).
Proof.
  refine (proj1 (get_activities_appends sample_urljoin sample_str
                   (device_reply 200 (JSON (PList [sample_activity_object])))
                   (mkState (set_activities [sample_activity] sample_remote)
                      [])
                   (mkRequest GET "http://host/api/activities" None
                      sample_basic)
                   (mkResponse 200 (JSON (PList [sample_activity_object])))
                   [sample_activity_object] _ _ _) [sample_activity] _).
  - exists sample_basic, "http://host/api/activities". repeat split.
  - reflexivity.
  - reflexivity.
  - repeat constructor.
Defined.

Lemma get_custom_codesets_appends_witness :
  get_custom_codesets sample_urljoin sample_str
    (device_reply 200 (JSON (PList (map PDict sample_code_sets))))
    sample_state
  = (inr [PDict [("device", PStr "Fan"); ("device_id", PStr "uc.custom.fan")]],
     mkState
       (set_ir_custom
          [PDict [("device", PStr "Fan");
                  ("device_id", PStr "uc.custom.fan")]] sample_remote)
       [mkRequest GET "http://host/api/ir/codes/custom" None sample_basic]).
Proof.
  refine (get_custom_codesets_appends sample_urljoin sample_str
            (device_reply 200 (JSON (PList (map PDict sample_code_sets))))
            sample_state
            (mkRequest GET "http://host/api/ir/codes/custom" None
               sample_basic)
            (mkResponse 200 (JSON (PList (map PDict sample_code_sets))))
            sample_code_sets _ _ _).
  - exists sample_basic, "http://host/api/ir/codes/custom". repeat split.
  - reflexivity.
  - reflexivity.
Defined.

Lemma get_remotes_appends_witness :
  Forall named_when_enabled sample_remotes
  /\ get_remotes sample_urljoin sample_str
       (device_reply 200 (JSON (PList (map PDict sample_remotes))))
       sample_state
     = (inr [PDict [("name", PStr "TV"); ("entity_id", PStr "uc.remote.tv")]],
        mkState
          (set_remotes
             [PDict [("name", PStr "TV");
                     ("entity_id", PStr "uc.remote.tv")]] sample_remote)
          [mkRequest GET "http://host/api/remotes" None sample_basic]).
Proof.
  assert (Hall : Forall named_when_enabled sample_remotes).
  { repeat constructor.
    - intros _. exists [("en", PStr "TV")]. reflexivity.
    - intro H. discriminate H. }
  split; [exact Hall|].
  refine (get_remotes_appends sample_urljoin sample_str
            (device_reply 200 (JSON (PList (map PDict sample_remotes))))
            sample_state
            (mkRequest GET "http://host/api/remotes" None sample_basic)
            (mkResponse 200 (JSON (PList (map PDict sample_remotes))))
            sample_remotes _ _ _ Hall).
  - exists sample_basic, "http://host/api/remotes". repeat split.
  - reflexivity.
  - reflexivity.
Defined.

Lemma add_service_spec_witness :
  exists remote,
    add_service sample_check
      (Some (mkServiceInfo [("192"%char, "168"%char, "001"%char, "020"%char)]
               8080))
      sample_listener
    = inr (mkDeviceListener (PStr "k3y") [remote])
    /\ endpoint remote = "http://192.168.1.20:8080/api/"
    /\ pin remote = PStr "k3y"
    /\ apikey remote = PNone
    /\ client remote
       = inr (Some (BasicAuthSession "web-configurator" (PStr "k3y") 2)).
Proof.
  destruct (proj1 (add_service_spec sample_check sample_listener)
              ("192"%char, "168"%char, "001"%char, "020"%char) [] 8080)
    as (remote & Hrun & Hendpoint & _ & Hpin & Hkey & Hclient).
  exists remote. repeat split; assumption.
Defined.

Lemma send_remote_command_dock_keyword_witness :
  send_remote_command sample_urljoin sample_str (device_reply 200 (JSON (PInt 200)))
    "TV" "power" 0 [("dock", PStr "Dock")] sample_state
  = (inl TypeError, sample_state).
Proof.
  refine (proj2 (send_remote_command_dock_keyword sample_urljoin sample_str
                   (device_reply 200 (JSON (PInt 200))) "TV" "power" 0
                   [("dock", PStr "Dock")] sample_state _)
            (PDict [("name", PStr "TV"); ("device_id", PStr "uc.ir.1")])
            (PStr "uc.ir.1")
            (PDict [("name", PStr "Dock"); ("device_id", PStr "uc.dock.1")])
            _ _ _ _ _).
  - reflexivity.
  - discriminate.
  - discriminate.
  - reflexivity.
  - reflexivity.
  - reflexivity.
Defined.

Lemma send_remote_command_unknown_device_witness :
  send_remote_command sample_urljoin sample_str (device_reply 200 (JSON (PInt 200)))
    "Radio" "power" 0 [] sample_state
  = (inl TypeError, sample_state).
Proof.
  refine (proj1 (send_remote_command_unknown_device sample_urljoin
                   sample_str (device_reply 200 (JSON (PInt 200)))
                   "Radio" "power" 0 [] sample_state _ _) _).
  - discriminate.
  - discriminate.
  - reflexivity.
Defined.

Lemma send_remote_command_sends_witness :
  send_remote_command sample_urljoin sample_str
    (device_reply 200 (JSON (PDict []))) "TV" "power" 2
    [("port", PInt 1); ("code", PStr "0000 006D")] sample_state
  = (inr false,
     sent sample_state
       (mkRequest PUT "http://host/api/ir/emitters/uc.dock.1/send"
          (Some (PDict [("codeset_id", PStr "uc.ir.1");
                        ("cmd_id", PStr "power"); ("repeat", PInt 2);
                        ("port_id", PInt 1)])) sample_basic)).
Proof.
  refine (proj1 (send_remote_command_sends sample_urljoin sample_str
                   (device_reply 200 (JSON (PDict []))) "TV" "power" 2
                   [("port", PInt 1); ("code", PStr "0000 006D")]
                   sample_state
                   (PDict [("name", PStr "TV"); ("device_id", PStr "uc.ir.1")])
                   (PStr "uc.ir.1")
                   (PDict [("name", PStr "Dock");
                           ("device_id", PStr "uc.dock.1")]) []
                   "uc.dock.1"
                   (mkRequest PUT "http://host/api/ir/emitters/uc.dock.1/send"
                      (Some (PDict [("codeset_id", PStr "uc.ir.1");
                                    ("cmd_id", PStr "power");
                                    ("repeat", PInt 2);
                                    ("port_id", PInt 1)])) sample_basic)
                   (mkResponse 200 (JSON (PDict []))) (PDict [])
                   _ _ _ _ _ _ _ _ _ _)).
  - discriminate.
  - discriminate.
  - reflexivity.
  - reflexivity.
  - reflexivity.
  - reflexivity.
  - reflexivity.
  - exists sample_basic, "http://host/api/ir/emitters/uc.dock.1/send".
    repeat split.
  - reflexivity.
  - reflexivity.
Defined.

Lemma turn_on_then_update_witness :
  (on <- Activity_turn_on sample_urljoin sample_str
           (device_script [mkResponse 200 (JSON (PDict []));
                           mkResponse 200
                             (JSON (PList [sample_activity_object]))])
           sample_activity ;;
   Activity_update sample_urljoin sample_str
     (device_script [mkResponse 200 (JSON (PDict []));
                     mkResponse 200 (JSON (PList [sample_activity_object]))])
     on)%co sample_state
  = (inr (set_state (PStr "OFF") sample_activity),
     sent (sent sample_state
             (mkRequest PUT "http://host/api/entities/uc.main.tv/command"
                (Some (activity_command (PStr "uc.main.tv") "activity.on"))
                sample_basic))
       (mkRequest GET "http://host/api/activities" None sample_basic)).
Proof.
  refine (proj1 (turn_on_then_update sample_urljoin sample_str
                   (device_script [mkResponse 200 (JSON (PDict []));
                                   mkResponse 200
                                     (JSON (PList [sample_activity_object]))])
                   sample_activity "uc.main.tv" sample_state
                   (mkRequest PUT
                      "http://host/api/entities/uc.main.tv/command"
                      (Some (activity_command (PStr "uc.main.tv")
                               "activity.on")) sample_basic)
                   (mkRequest GET "http://host/api/activities" None
                      sample_basic)
                   (mkResponse 200 (JSON (PDict [])))
                   (mkResponse 200 (JSON (PList [sample_activity_object])))
                   [sample_activity_object] _ _ _ _ _ _)
            [] sample_activity_object [] (PStr "uc.main.tv")
            (PDict [("state", PStr "OFF")]) (PStr "OFF") _ _ _ _ _ _).
  - reflexivity.
  - exists sample_basic, "http://host/api/entities/uc.main.tv/command".
    repeat split.
  - reflexivity.
  - exists sample_basic, "http://host/api/activities". repeat split.
  - reflexivity.
  - reflexivity.
  - reflexivity.
  - constructor.
  - reflexivity.
  - reflexivity.
  - reflexivity.
  - reflexivity.
Defined.

Lemma create_api_key_then_bearer_witness :
  (create_api_key sample_urljoin sample_str
     (device_script [mkResponse 201 (JSON (PDict [("api_key", PStr "tok")]));
                     mkResponse 200 (JSON (PList []))]) ;;;
   get_api_keys sample_urljoin sample_str
     (device_script [mkResponse 201 (JSON (PDict [("api_key", PStr "tok")]));
                     mkResponse 200 (JSON (PList []))]))%co sample_state
  = (inr (PList []),
     mkState (set_apikey (PStr "tok") sample_remote)
       [mkRequest POST "http://host/api/auth/api_keys"
          (Some (PDict [("name", PStr "pyUnfoldedCircle");
                        ("scopes", PList [PStr "admin"])])) sample_basic;
        mkRequest GET "http://host/api/auth/api_keys" None
          (BearerSession "Bearer tok" 5)]).
Proof.
  unfold get_api_keys.
  rewrite (create_api_key_then_bearer sample_urljoin sample_str
             (device_script
                [mkResponse 201 (JSON (PDict [("api_key", PStr "tok")]));
                 mkResponse 200 (JSON (PList []))])
             sample_state
             (mkRequest POST "http://host/api/auth/api_keys"
                (Some (PDict [("name", PStr "pyUnfoldedCircle");
                              ("scopes", PList [PStr "admin"])]))
                sample_basic)
             (mkResponse 201 (JSON (PDict [("api_key", PStr "tok")])))
             (PDict [("api_key", PStr "tok")]) "tok" GET "auth/api_keys"
             "http://host/api/auth/api_keys" None _
             (mkResponse 200 (JSON (PList [])))).
  - reflexivity.
  - exists sample_basic, "http://host/api/auth/api_keys". repeat split.
  - reflexivity.
  - reflexivity.
  - reflexivity.
  - discriminate.
  - reflexivity.
  - reflexivity.
Defined.

Lemma get_remote_codesets_spec_witness :
  get_remote_codesets sample_urljoin sample_str (device_reply 200 NotJSON)
    (mkState sample_anonymous [])
  = (inr [PDict [("name", PStr "TV"); ("device_id", PStr "uc.ir.1")]],
     mkState sample_anonymous [])
  /\ get_remote_codesets sample_urljoin sample_str
       (device_script
          [mkResponse 200 (JSON (PDict [("id", PStr "uc.ir.tv")]));
           mkResponse 200 (JSON (PDict [("id", PStr "uc.ir.radio")]))])
       (mkState sample_two_remotes [])
     = (inr [PDict [("name", PStr "TV"); ("device_id", PStr "uc.ir.tv")];
             PDict [("name", PStr "Radio");
                    ("device_id", PStr "uc.ir.radio")]],
        mkState
          (set_ir_codesets
             [PDict [("name", PStr "TV"); ("device_id", PStr "uc.ir.tv")];
              PDict [("name", PStr "Radio");
                     ("device_id", PStr "uc.ir.radio")]]
             sample_two_remotes)
          [mkRequest GET "http://host/api/remotes/uc.remote.tv/ir" None
             sample_basic;
           mkRequest GET "http://host/api/remotes/uc.remote.radio/ir" None
             sample_basic]).
Proof.
  split.
  - apply (proj1 (get_remote_codesets_spec sample_urljoin sample_str
                    (device_reply 200 NotJSON) (mkState sample_anonymous []))).
    reflexivity.
  - refine (proj2 (get_remote_codesets_spec sample_urljoin sample_str
                     (device_script
                        [mkResponse 200
                           (JSON (PDict [("id", PStr "uc.ir.tv")]));
                         mkResponse 200
                           (JSON (PDict [("id", PStr "uc.ir.radio")]))])
                     (mkState sample_two_remotes []))
              [mkCodesetFetch
                 [("name", PStr "TV"); ("entity_id", PStr "uc.remote.tv")]
                 (mkRequest GET "http://host/api/remotes/uc.remote.tv/ir"
                    None sample_basic)
                 [("id", PStr "uc.ir.tv")];
               mkCodesetFetch
                 [("name", PStr "Radio");
                  ("entity_id", PStr "uc.remote.radio")]
                 (mkRequest GET "http://host/api/remotes/uc.remote.radio/ir"
                    None sample_basic)
                 [("id", PStr "uc.ir.radio")]] _ _).
    + reflexivity.
    + split; [|split; [|exact I]].
      * exists "uc.remote.tv",
          (mkResponse 200 (JSON (PDict [("id", PStr "uc.ir.tv")]))).
        split; [reflexivity|]. split; [|split; reflexivity].
        exists sample_basic, "http://host/api/remotes/uc.remote.tv/ir".
        repeat split.
      * exists "uc.remote.radio",
          (mkResponse 200 (JSON (PDict [("id", PStr "uc.ir.radio")]))).
        split; [reflexivity|]. split; [|split; reflexivity].
        exists sample_basic, "http://host/api/remotes/uc.remote.radio/ir".
        repeat split.
Defined.

Lemma codesets_then_command_witness :
  (get_remote_codesets sample_urljoin sample_str
     (device_script [mkResponse 200 (JSON (PDict [("id", PStr "uc.ir.tv")]));
                     mkResponse 200 (JSON (PInt 200))]) ;;;
   send_remote_command sample_urljoin sample_str
     (device_script [mkResponse 200 (JSON (PDict [("id", PStr "uc.ir.tv")]));
                     mkResponse 200 (JSON (PInt 200))])
     "TV" "power" 0 [])%co (mkState sample_one_remote [])
  = (inr true,
     mkState
       (set_ir_codesets
          [PDict [("name", PStr "TV"); ("device_id", PStr "uc.ir.tv")]]
          sample_one_remote)
       [mkRequest GET "http://host/api/remotes/uc.remote.tv/ir" None
          sample_basic;
        mkRequest PUT "http://host/api/ir/emitters/uc.dock.1/send"
          (Some (PDict [("codeset_id", PStr "uc.ir.tv");
                        ("cmd_id", PStr "power")])) sample_basic]).
Proof.
  refine (codesets_then_command sample_urljoin sample_str
            (device_script
               [mkResponse 200 (JSON (PDict [("id", PStr "uc.ir.tv")]));
                mkResponse 200 (JSON (PInt 200))])
            (mkState sample_one_remote [])
            [("name", PStr "TV"); ("entity_id", PStr "uc.remote.tv")]
            [("id", PStr "uc.ir.tv")] "uc.remote.tv" "TV" "power"
            "uc.dock.1" 0 []
            (PDict [("name", PStr "Dock"); ("device_id", PStr "uc.dock.1")])
            []
            (mkRequest GET "http://host/api/remotes/uc.remote.tv/ir" None
               sample_basic)
            (mkRequest PUT "http://host/api/ir/emitters/uc.dock.1/send"
               (Some (PDict [("codeset_id", PStr "uc.ir.tv");
                             ("cmd_id", PStr "power")])) sample_basic)
            (mkResponse 200 (JSON (PDict [("id", PStr "uc.ir.tv")])))
            (mkResponse 200 (JSON (PInt 200))) (PInt 200)
            _ _ _ _ _ _ _ _ _ _ _ _ _ _ _).
  - reflexivity.
  - reflexivity.
  - reflexivity.
  - reflexivity.
  - discriminate.
  - discriminate.
  - exists sample_basic, "http://host/api/remotes/uc.remote.tv/ir".
    repeat split.
  - reflexivity.
  - reflexivity.
  - reflexivity.
  - reflexivity.
  - reflexivity.
  - exists sample_basic, "http://host/api/ir/emitters/uc.dock.1/send".
    repeat split.
  - reflexivity.
  - reflexivity.
Defined.

Lemma docks_then_command_witness :
  (get_docks sample_urljoin sample_str
     (device_script [mkResponse 200 (JSON (PList (map PDict sample_docks)));
                     mkResponse 200 (JSON (PInt 200))]) ;;;
   send_remote_command sample_urljoin sample_str
     (device_script [mkResponse 200 (JSON (PList (map PDict sample_docks)));
                     mkResponse 200 (JSON (PInt 200))])
     "TV" "power" 0 [])%co (mkState sample_no_docks [])
  = (inr true,
     mkState
       (set_docks
          [PDict [("name", PStr "Dock B"); ("device_id", PStr "uc.dock.b")]]
          sample_no_docks)
       [mkRequest GET "http://host/api/ir/emitters" None sample_basic;
        mkRequest PUT "http://host/api/ir/emitters/uc.dock.b/send"
          (Some (PDict [("codeset_id", PStr "uc.ir.1");
                        ("cmd_id", PStr "power")])) sample_basic])
  /\ (get_docks sample_urljoin sample_str
        (device_reply 200 (JSON (PList []))) ;;;
      send_remote_command sample_urljoin sample_str
        (device_reply 200 (JSON (PList []))) "TV" "power" 0 [])%co
       (mkState sample_no_docks [])
     = (inl IndexError,
        mkState (set_docks [] sample_no_docks)
          [mkRequest GET "http://host/api/ir/emitters" None sample_basic]).
Proof.
  split.
  - refine (proj2 (docks_then_command sample_urljoin sample_str
                     (device_script
                        [mkResponse 200
                           (JSON (PList (map PDict sample_docks)));
                         mkResponse 200 (JSON (PInt 200))])
                     (mkState sample_no_docks []) "TV" "power" 0 []
                     (PDict [("name", PStr "TV");
                             ("device_id", PStr "uc.ir.1")])
                     (PStr "uc.ir.1")
                     (mkRequest GET "http://host/api/ir/emitters" None
                        sample_basic)
                     (mkResponse 200 (JSON (PList (map PDict sample_docks))))
                     sample_docks _ _ _ _ _ _ _ _ _)
              [("name", PStr "Dock B"); ("device_id", PStr "uc.dock.b");
               ("active", PBool true)] [] "uc.dock.b"
              (mkRequest PUT "http://host/api/ir/emitters/uc.dock.b/send"
                 (Some (PDict [("codeset_id", PStr "uc.ir.1");
                               ("cmd_id", PStr "power")])) sample_basic)
              (mkResponse 200 (JSON (PInt 200))) (PInt 200) _ _ _ _ _);
      try reflexivity; try discriminate.
    + exists sample_basic, "http://host/api/ir/emitters". repeat split.
    + exists sample_basic, "http://host/api/ir/emitters/uc.dock.b/send".
      repeat split.
  - refine (proj1 (docks_then_command sample_urljoin sample_str
                     (device_reply 200 (JSON (PList [])))
                     (mkState sample_no_docks []) "TV" "power" 0 []
                     (PDict [("name", PStr "TV");
                             ("device_id", PStr "uc.ir.1")])
                     (PStr "uc.ir.1")
                     (mkRequest GET "http://host/api/ir/emitters" None
                        sample_basic)
                     (mkResponse 200 (JSON (PList []))) [] _ _ _ _ _ _ _ _ _)
              _); try reflexivity; try discriminate.
    exists sample_basic, "http://host/api/ir/emitters". repeat split.
Defined.
